(** * go-machine-learning: the regression and classification scripts

    A shallow embedding of the repository's Go programs

    - [LinearRegression]   the advertising example (profiling, 80/20 split,
                           OLS fit through sajari/regression, MAE);
    - [LogisticRegression] the loan example (cleaning, split, the hand-written
                           gradient descent, accuracy);
    - [NaiveBayes], [DecisionTree], [RandomForest]  the golearn drivers;

    and the properties their specification states about them.

    Conventions.  A Go [float64] is an exact rational ([Q]) and its
    arithmetic is exact, with two exceptions where what the program does
    depends on more: a division that can be 0/0 has a [quotient] for its
    result, and the threshold test of [predict] goes through rounded
    operations ([Float64Ops]).  A Go [int] is a [Z] wrapped to 64 bits.  Every stage is a
    computation over a [World] (file system, standard output, log) that returns,
    stops in [log.Fatal] (exit status 1) or panics (exit status 2).  Third-party
    packages are interfaces (type classes); the scripts are written against
    them. *)

From Stdlib Require Import ZArith QArith Qround Qabs Lia Lqa Ascii String.
From stdpp Require Import base option list strings gmap.

Local Open Scope Z_scope.

(** ** Go scalars *)

Definition float64 : Type := Q.

Definition wrap64 (z : Z) : Z := (z + 2 ^ 63) mod 2 ^ 64 - 2 ^ 63.

Definition int_add (a b : Z) : Z := wrap64 (a + b).
Definition int_mul (a b : Z) : Z := wrap64 (a * b).
(** Go's [/] on [int] truncates toward zero. *)
Definition int_quot (a b : Z) : Z := wrap64 (Z.quot a b).

(** [len] of a slice, as an [int]. *)
Definition len {A} (l : list A) : Z := Z.of_nat (length l).

(** [float64(n)] for an [int] n. *)
Definition float64_of_int (n : Z) : float64 := inject_Z n.

(** The result of [x / y] on float64 where [y] can be zero. *)
Inductive quotient : Type :=
  | Finite (q : float64)
  | PosInf
  | NegInf
  | NaN.

Definition float64_div (x y : float64) : quotient :=
  if Qeq_bool y 0 then
    if Qeq_bool x 0 then NaN else if Qle_bool 0 x then PosInf else NegInf
  else Finite (x / y)%Q.

(** ** Outcomes of a run *)

Inductive error : Type :=
  | ErrOpen (path : string)        (* os.Open failed *)
  | ErrCreate (path : string)      (* os.Create failed *)
  | ErrCSV                         (* encoding/csv: syntax or field count *)
  | ErrSyntax (s : string)         (* strconv.ParseFloat: invalid syntax *)
  | ErrLib (msg : string).         (* an error value of a third-party package *)

Inductive result (A : Type) : Type :=
  | Ret (a : A)
  | Fatal            (* log.Fatal: the message is logged, then os.Exit(1) *)
  | Panic.           (* run-time panic: exit status 2 *)
Arguments Ret {A} a.
Arguments Fatal {A}.
Arguments Panic {A}.

Definition exit_status {A} (r : result A) : Z :=
  match r with Ret _ => 0 | Fatal => 1 | Panic => 2 end.

(** One line of a CSV file, as encoding/csv sees it: a record, or a line it
    rejects (a bare quote, say) together with the fields read before the
    error. *)
Inductive csv_line : Type :=
  | Fields (fs : list string)
  | Garbled (partial : list string).

Definition line_fields (l : csv_line) : list string :=
  match l with Fields fs => fs | Garbled fs => fs end.

Inductive logline : Type :=
  | LogFatal (e : error)           (* log.Fatal(err) *)
  | LogPrintf (msg : string) (line : Z).  (* log.Printf(msg, line) *)

Record World : Type := mkWorld {
  fs : gmap string (list csv_line);   (* the CSV files, by path *)
  readonly : gset string;             (* paths that cannot be created *)
  plots : list string;                (* PNG files written so far *)
  stdout : list string;
  logged : list logline;
  clock : Z;                          (* time.Now().UnixNano() *)
  math_rand : Z;                      (* global generator of math/rand *)
  exp_rand : Z;                       (* global generator of x/exp/rand *)
  runtime : Z                         (* what the Go run time picks afresh in
                                         every process and no seed reaches,
                                         such as the order a map is ranged
                                         over *)
}.

Definition set_fs (f : gmap string (list csv_line)) (w : World) : World :=
  mkWorld f (readonly w) (plots w) (stdout w) (logged w)
          (clock w) (math_rand w) (exp_rand w) (runtime w).
Definition set_plots (p : list string) (w : World) : World :=
  mkWorld (fs w) (readonly w) p (stdout w) (logged w)
          (clock w) (math_rand w) (exp_rand w) (runtime w).
Definition set_stdout (o : list string) (w : World) : World :=
  mkWorld (fs w) (readonly w) (plots w) o (logged w)
          (clock w) (math_rand w) (exp_rand w) (runtime w).
Definition set_logged (l : list logline) (w : World) : World :=
  mkWorld (fs w) (readonly w) (plots w) (stdout w) l
          (clock w) (math_rand w) (exp_rand w) (runtime w).
Definition set_math_rand (g : Z) (w : World) : World :=
  mkWorld (fs w) (readonly w) (plots w) (stdout w) (logged w)
          (clock w) g (exp_rand w) (runtime w).
Definition set_exp_rand (g : Z) (w : World) : World :=
  mkWorld (fs w) (readonly w) (plots w) (stdout w) (logged w)
          (clock w) (math_rand w) g (runtime w).

Definition M (A : Type) : Type := World -> result A * World.

Definition ret {A} (a : A) : M A := fun w => (Ret a, w).

Definition bind {A B} (m : M A) (k : A -> M B) : M B :=
  fun w => match m w with
           | (Ret a, w') => k a w'
           | (Fatal, w') => (Fatal, w')
           | (Panic, w') => (Panic, w')
           end.

Notation "'let*' x := m 'in' k" := (bind m (fun x => k))
  (at level 10, x name, m at level 200, k at level 200, only parsing).
Notation "'exec' m 'in' k" := (bind m (fun _ => k))
  (at level 10, m at level 200, k at level 200, only parsing).

Definition log_Fatal {A} (e : error) : M A :=
  fun w => (Fatal, set_logged (logged w ++ [LogFatal e]) w).

Definition log_Printf (msg : string) (line : Z) : M unit :=
  fun w => (Ret tt, set_logged (logged w ++ [LogPrintf msg line]) w).

Definition panic {A} : M A := fun w => (Panic, w).

Definition fmt_Print (s : string) : M unit :=
  fun w => (Ret tt, set_stdout (stdout w ++ [s]) w).

(** [v, err := f(); if err != nil { log.Fatal(err) }] *)
Definition must {A} (r : error + A) : M A :=
  match r with inl e => log_Fatal e | inr a => ret a end.

(** [if err := f(); err != nil { log.Fatal(err) }] *)
Definition check (r : option error) : M unit :=
  match r with Some e => log_Fatal e | None => ret tt end.

(** [a[i]] on a slice: a run-time panic out of range. *)
Definition index {A} (l : list A) (i : Z) : M A :=
  if decide (0 <= i) then
    match l !! Z.to_nat i with Some a => ret a | None => panic end
  else panic.

(** [for i, x := range l { s = body i x s }], [i] counting from [i0]. *)
Fixpoint range_from {A S} (i0 : Z) (l : list A) (body : Z -> A -> S -> M S)
    (s : S) : M S :=
  match l with
  | [] => ret s
  | x :: l' => let* s' := body i0 x s in range_from (i0 + 1) l' body s'
  end.

Definition range {A S} (l : list A) (body : Z -> A -> S -> M S) (s : S) : M S :=
  range_from 0 l body s.

(** [for i := 0; i < n; i++ { s = body i s }] without effects. *)
Fixpoint count_from {S} (i : Z) (fuel : nat) (body : Z -> S -> S) (s : S) : S :=
  match fuel with
  | O => s
  | Datatypes.S k => count_from (i + 1) k body (body i s)
  end.

Definition for_upto {S} (n : Z) (body : Z -> S -> S) (s : S) : S :=
  count_from 0 (Z.to_nat n) body s.

(** [for i := 0; i < n; i++ { s = body i s }] with effects. *)
Fixpoint count_from_M {S} (i : Z) (fuel : nat) (body : Z -> S -> M S) (s : S)
  : M S :=
  match fuel with
  | O => ret s
  | Datatypes.S k => let* s' := body i s in count_from_M (i + 1) k body s'
  end.

Definition for_upto_M {S} (n : Z) (body : Z -> S -> M S) (s : S) : M S :=
  count_from_M 0 (Z.to_nat n) body s.

(** ** The operating system and encoding/csv *)

Definition time_Now_UnixNano : M Z := fun w => (Ret (clock w), w).

Definition os_Open (path : string) : M (error + list csv_line) :=
  fun w => match fs w !! path with
           | Some f => (Ret (inr f), w)
           | None => (Ret (inl (ErrOpen path)), w)
           end.

(** [os.Create] truncates the file when it can create it. *)
Definition os_Create (path : string) : M (error + string) :=
  fun w => if decide (path ∈ readonly w)
           then (Ret (inl (ErrCreate path)), w)
           else (Ret (inr path), set_fs (<[path := []]> (fs w)) w).

Definition write_lines (path : string) (ls : list csv_line) : M unit :=
  fun w => (Ret tt,
            set_fs (<[path := default [] (fs w !! path) ++ ls]> (fs w)) w).

(** [csv.Reader.ReadAll] with [FieldsPerRecord = n]: for [n > 0] every record
    has [n] fields; for [n = 0] every record has as many as the first. *)
Fixpoint csv_records (n : nat) (ls : list csv_line) : error + list (list string) :=
  match ls with
  | [] => inr []
  | Garbled _ :: _ => inl ErrCSV
  | Fields r :: ls' =>
      let n' := match n with O => length r | _ => n end in
      if decide (length r = n') then
        match csv_records n' ls' with
        | inl e => inl e
        | inr rs => inr (r :: rs)
        end
      else inl ErrCSV
  end.

Definition csv_ReadAll (fieldsPerRecord : nat) (f : list csv_line)
  : error + list (list string) := csv_records fieldsPerRecord f.

(** strconv and math, as the scripts use them. *)
Class Strconv : Type := {
  ParseFloat : string -> error + float64;
  (* FormatFloat(x, 'f', prec, 64), also fmt's %0.<prec>f *)
  FormatFloat : float64 -> nat -> string
}.

Class Math : Type := {
  Exp : float64 -> float64;
  Sqrt : float64 -> float64
}.

(** fmt's [%0.<prec>f] of the result of a division. *)
Definition fmt_f `{Strconv} (v : quotient) (prec : nat) : string :=
  match v with
  | Finite q => FormatFloat q prec
  | PosInf => "+Inf"
  | NegInf => "-Inf"
  | NaN => "NaN"
  end.

(** The float64 operations with their rounding: the exact result, rounded to
    float64.  [predict] is written with them, because there a comparison of
    the rounded result decides the class. *)
Class Float64Ops : Type := {
  f64_lit : Q -> float64;                (* a decimal literal of the text *)
  f64_mul : float64 -> float64 -> float64;
  f64_add : float64 -> float64 -> float64;
  f64_div : float64 -> float64 -> float64
}.

(** encoding/csv's Writer on a file.  It buffers 4096 bytes and writes them
    through each time the buffer fills, so before [Flush] a prefix of the text
    written has reached the file: [written_through records] is what the file
    holds when [records] were written since the file was created and the
    writer was not flushed. *)
Class CsvWriter : Type := {
  written_through : list (list string) -> list csv_line
}.

Section CsvWriting.
Context `{CsvWriter}.

(** [w.Write(record)], [records] being all the records written so far, this
    one included.  Writing to a file that was created does not fail here, so
    the error is nil. *)
Definition csv_Write (path : string) (records : list (list string))
  : M (option error) :=
  fun w => (Ret None, set_fs (<[path := written_through records]> (fs w)) w).

(** [w.Flush()]: every record written is in the file. *)
Definition csv_Flush (path : string) (records : list (list string)) : M unit :=
  fun w => (Ret tt, set_fs (<[path := Fields <$> records]> (fs w)) w).

(** [w.Error()] *)
Definition csv_Error : M (option error) := ret None.
End CsvWriting.

(** ** Third-party packages *)

(** *** gota dataframes

    [dataframe.ReadCSV] returns a dataframe and no error value: a load failure
    is kept in the dataframe's [Err] field, and every later operation on such
    a dataframe passes the error on ([Subset]) or returns it ([WriteCSV]). *)

Inductive ColType : Type := TString | TInt | TFloat | TBool.

Record DataFrame : Type := mkDF {
  columns : list string;
  coltypes : list ColType;
  rows : list (list string);
  Err : option error
}.

Definition errDF (e : error) : DataFrame := mkDF [] [] [] (Some e).

Class Gota : Type := {
  (* the column types ReadCSV infers from the cells *)
  inferTypes : list (list string) -> list ColType;
  (* the text of a cell of that type, as WriteCSV writes it *)
  elemString : ColType -> string -> string;
  (* df.Col(name).Float(); None when the library panics *)
  Col_Float : DataFrame -> string -> option (list float64);
  (* the summary table of df.Describe(), printed *)
  Describe : DataFrame -> string
}.

Section Dataframe.
Context `{Gota}.

Definition ReadCSV (f : list csv_line) : DataFrame :=
  match csv_ReadAll 0 f with
  | inl e => errDF e
  | inr [] | inr [_] => errDF (ErrLib "load records: empty DataFrame")
  | inr (header :: rs) => mkDF header (inferTypes rs) rs None
  end.

Definition Nrow (df : DataFrame) : Z := len (rows df).

Definition Names (df : DataFrame) : list string := columns df.

Definition Subset (df : DataFrame) (indexes : list Z) : DataFrame :=
  match Err df with
  | Some _ => df
  | None =>
      match mapM (fun i => if decide (0 <= i) then rows df !! Z.to_nat i
                           else None) indexes with
      | Some rs => mkDF (columns df) (coltypes df) rs None
      | None => errDF (ErrLib "subset: index out of range")
      end
  end.

Definition Records (df : DataFrame) : list csv_line :=
  Fields (columns df)
  :: map (fun r => Fields (zip_with elemString (coltypes df) r)) (rows df).

Definition WriteCSV (df : DataFrame) (path : string) : M (option error) :=
  match Err df with
  | Some e => ret (Some e)
  | None => exec write_lines path (Records df) in ret None
  end.
End Dataframe.

(** *** gonum plot: the constructors that can fail, and [Save] *)

Class Plot : Type := {
  NewHist : list float64 -> Z -> option error;
  NewScatter : list (float64 * float64) -> option error;
  NewLine : list (float64 * float64) -> option error
}.

Definition plot_Save (file : string) : M (option error) :=
  fun w => if decide (file ∈ readonly w)
           then (Ret (Some (ErrCreate file)), w)
           else (Ret None, set_plots (plots w ++ [file]) w).

(** *** sajari/regression *)

Class Regression : Type := {
  Model : Type;
  (* r.Train(point) for each point, then r.Run() *)
  Run : list (float64 * list float64) -> Model;
  Formula : Model -> string;
  Predict : Model -> list float64 -> error + float64
}.

(** ** The 80/20 split, common to both regression scripts

    [splitData] is the same text in the two scripts; only the three paths
    differ. *)

Section Split.
Context `{Gota}.

(** [make([]int, n)] *)
Definition make_ints (n : Z) : M (list Z) :=
  if decide (0 <= n) then ret (replicate (Z.to_nat n) 0) else panic.

Definition splitCounts (nrow : Z) : Z * Z :=
  let trainingNum := int_quot (int_mul 4 nrow) 5 in
  let testNum := int_quot nrow 5 in
  let trainingNum :=
    if decide (int_add trainingNum testNum < nrow)
    then int_add trainingNum 1 else trainingNum in
  (trainingNum, testNum).

Definition splitIndices (nrow : Z) : M (list Z * list Z) :=
  let '(trainingNum, testNum) := splitCounts nrow in
  let* trainingIdx := make_ints trainingNum in
  let* testIdx := make_ints testNum in
  let trainingIdx :=
    for_upto trainingNum (fun i idx => <[Z.to_nat i := i]> idx) trainingIdx in
  let testIdx :=
    for_upto testNum
      (fun i idx => <[Z.to_nat i := int_add trainingNum i]> idx) testIdx in
  ret (trainingIdx, testIdx).

Definition splitFrames (df : DataFrame) : M (DataFrame * DataFrame) :=
  let* idx := splitIndices (Nrow df) in
  ret (Subset df (fst idx), Subset df (snd idx)).

Definition splitData_at (source trainingPath testPath : string) : M unit :=
  let* r := os_Open source in
  let* f := must r in
  let df := ReadCSV f in
  let* sets := splitFrames df in
  let setMap (idx : Z) : DataFrame :=
    if decide (idx = 0) then fst sets
    else if decide (idx = 1) then snd sets
    else mkDF [] [] [] None in
  range [trainingPath; testPath]
    (fun idx setName _ =>
       let* r := os_Create setName in
       let* w := must r in
       let* err := WriteCSV (setMap idx) w in
       check err) tt.
End Split.

(** [a[i] = v] on a slice: a run-time panic out of range. *)
Definition store {A} (l : list A) (i : Z) (v : A) : M (list A) :=
  if decide (0 <= i < len l) then ret (<[Z.to_nat i := v]> l) else panic.

(** [make([]T, n)] filled with the zero value [z]. *)
Definition make {A} (z : A) (n : Z) : M (list A) :=
  if decide (0 <= n) then ret (replicate (Z.to_nat n) z) else panic.

Definition NL : string := String "010"%char EmptyString.

(** ** The linear-regression script (advertising data) *)

Module LinearRegression.
Section Script.
Context `{Strconv, Gota, Plot, Regression}.

Definition dataset : string := "../dataset/Advertising.csv".
Definition trainingDataSet : string := "../dataset/training.csv".
Definition testDataSet : string := "../dataset/test.csv".

(** [df.Col(name).Float()]: a panic inside the library ends the run. *)
Definition col_floats (df : DataFrame) (name : string) : M (list float64) :=
  match Col_Float df name with Some v => ret v | None => panic end.

Definition dataProfiling : M unit :=
  let* r := os_Open dataset in
  let* advertFile := must r in
  let advertDF := ReadCSV advertFile in
  let advertSummary := Describe advertDF in
  exec fmt_Print advertSummary in
  range (Names advertDF)
    (fun _ colName _ =>
       let* plotVals := make 0%Q (Nrow advertDF) in
       let* col := col_floats advertDF colName in
       let* plotVals :=
         range col (fun i floatVal vals => store vals i floatVal) plotVals in
       exec check (NewHist plotVals 16) in
       let* err := plot_Save (colName +:+ "_hist.png") in
       check err) tt.

Definition chooseIndependentVariable : M unit :=
  let* r := os_Open dataset in
  let* f := must r in
  let advertDF := ReadCSV f in
  let* yVals := col_floats advertDF "Sales" in
  range (Names advertDF)
    (fun _ colName _ =>
       let* pts := make (0%Q, 0%Q) (Nrow advertDF) in
       let* col := col_floats advertDF colName in
       let* pts :=
         range col
           (fun i floatVal pts =>
              let* pts := store pts i (floatVal, 0%Q) in
              let* y := index yVals i in
              store pts i (floatVal, y)) pts in
       exec check (NewScatter pts) in
       let* err := plot_Save (colName +:+ "_scatter.png") in
       check err) tt.

Definition splitData : M unit :=
  splitData_at dataset trainingDataSet testDataSet.

(** The body of the loop of [train], and the loop: the data points handed to
    [r.Train]. *)
Definition train_body (i : Z) (record : list string)
    (points : list (float64 * list float64))
  : M (list (float64 * list float64)) :=
  if decide (i = 0) then ret points        (* skip the header *)
  else
    let* s := index record 3 in
    let* yVal := must (ParseFloat s) in
    let* s := index record 0 in
    let* tvVal := must (ParseFloat s) in
    ret (points ++ [(yVal, [tvVal])]).

Definition train_points (trainingData : list (list string))
  : M (list (float64 * list float64)) :=
  range trainingData train_body [].

Definition train : M Model :=
  let* r := os_Open trainingDataSet in
  let* f := must r in
  let* trainingData := must (csv_ReadAll 4 f) in
  let* points := train_points trainingData in
  let r := Run points in
  exec fmt_Print (NL +:+ "Regression Formula:" +:+ NL +:+ Formula r
                  +:+ NL +:+ NL) in
  ret r.

(** The body of the loop of [test], and the loop: the value of [mAE] when it
    ends.  [n] is [len(testData)]. *)
Definition test_body (r : Model) (n : Z) (i : Z) (record : list string)
    (mAE : float64) : M float64 :=
  if decide (i = 0) then ret mAE           (* skip the header *)
  else
    let* s := index record 3 in
    let* yObserved := must (ParseFloat s) in
    let* s := index record 0 in
    let* tvVal := must (ParseFloat s) in
    let* yPredicted := must (Predict r [tvVal]) in
    ret (mAE + Qabs (yObserved - yPredicted) / float64_of_int n)%Q.

Definition test_mAE (r : Model) (testData : list (list string)) : M float64 :=
  range testData (test_body r (len testData)) 0%Q.

Definition test (r : Model) : M unit :=
  let* o := os_Open testDataSet in
  let* f := must o in
  let* testData := must (csv_ReadAll 4 f) in
  let* mAE := test_mAE r testData in
  fmt_Print ("MAE = " +:+ FormatFloat mAE 2 +:+ NL +:+ NL).

Definition visualizeRegression (r : Model) : M unit :=
  let* o := os_Open dataset in
  let* f := must o in
  let advertDF := ReadCSV f in
  let* yVals := col_floats advertDF "Sales" in
  let* pts := make (0%Q, 0%Q) (Nrow advertDF) in
  let* ptsPred := make (0%Q, 0%Q) (Nrow advertDF) in
  let* tv := col_floats advertDF "TV" in
  let* both :=
    range tv
      (fun i floatVal '(pts, ptsPred) =>
         let* pts := store pts i (floatVal, 0%Q) in
         let* y := index yVals i in
         let* pts := store pts i (floatVal, y) in
         let* ptsPred := store ptsPred i (floatVal, 0%Q) in
         let* p := must (Predict r [floatVal]) in
         let* ptsPred := store ptsPred i (floatVal, p) in
         ret (pts, ptsPred)) (pts, ptsPred) in
  exec check (NewScatter (fst both)) in
  exec check (NewLine (snd both)) in
  let* err := plot_Save "regression_line.png" in
  check err.

Definition main : M unit :=
  exec dataProfiling in
  exec chooseIndependentVariable in
  exec splitData in
  let* r := train in
  exec test r in
  visualizeRegression r.
End Script.
End LinearRegression.

(** ** Package strings, for a one-character separator *)

(** [strings.Split(s, sep)] *)
Fixpoint strings_Split (s : string) (sep : ascii) : list string :=
  match s with
  | EmptyString => [EmptyString]
  | String c s' =>
      if decide (c = sep) then EmptyString :: strings_Split s' sep
      else match strings_Split s' sep with
           | hd :: tl => String c hd :: tl
           | [] => [String c EmptyString]
           end
  end.

(** [strings.TrimSuffix(s, suffix)] *)
Fixpoint strings_TrimSuffix (s : string) (suffix : ascii) : string :=
  match s with
  | EmptyString => EmptyString
  | String c s' =>
      match s' with
      | EmptyString => if decide (c = suffix) then EmptyString else s
      | String _ _ => String c (strings_TrimSuffix s' suffix)
      end
  end.

(** ** gonum mat64 and x/exp/rand *)

Record Dense : Type := mkDense {
  mrows : Z;
  mcols : Z;
  mdata : list float64                 (* row-major *)
}.

(** [mat64.NewDense(r, c, data)] panics when [data] has not [r*c] entries. *)
Definition mat64_NewDense (r c : Z) (data : list float64) : M Dense :=
  if decide (int_mul r c = len data) then ret (mkDense r c data) else panic.

(** [mat64.Row(nil, i, m)]: a copy of row [i]; a panic out of range. *)
Definition mat64_Row (i : Z) (m : Dense) : M (list float64) :=
  if decide (0 <= i < mrows m)
  then ret (take (Z.to_nat (mcols m))
                 (drop (Z.to_nat (i * mcols m)) (mdata m)))
  else panic.

Class ExpRand : Type := {
  (* the k-th Float64() of rand.New(rand.NewSource(seed)) *)
  Float64 : Z -> nat -> float64
}.

(** ** The logistic-regression script (loan data) *)

Module LogisticRegression.
Section Script.
Context `{Strconv, Math, Float64Ops, CsvWriter, Gota, Plot, ExpRand}.

Definition scoreMax : float64 := 830%Q.
Definition scoreMin : float64 := 640%Q.

Definition rawDataSet : string := "../dataset/loan_data.csv".
Definition cleanDataSet : string := "../dataset/clean_loan_data.csv".
Definition trainingDataSet : string := "../dataset/training.csv".
Definition testDataSet : string := "../dataset/test.csv".

(** [(score - scoreMin) / (scoreMax - scoreMin)] *)
Definition normalize (score : float64) : float64 :=
  ((score - scoreMin) / (scoreMax - scoreMin))%Q.

(** The body of the cleaning loop for one data row: the record written. *)
Definition cleanRecord (record : list string) : M (list string) :=
  let outRecord := [EmptyString; EmptyString] in
  let* s := index record 0 in
  let* lo := index (strings_Split s "-") 0 in
  let* score := must (ParseFloat lo) in
  let* outRecord := store outRecord 0 (FormatFloat (normalize score) 4) in
  let* s := index record 1 in
  let* rate := must (ParseFloat (strings_TrimSuffix s "%")) in
  if Qle_bool rate 12%Q then store outRecord 1 "1.0"
  else store outRecord 1 "0.0".

(** The cleaner.  [written] is what went to the csv.Writer so far; a run
    that stops in the loop leaves in the file what the writer had written
    through by then. *)
Definition clean_body (out : string) (idx : Z) (record : list string)
    (written : list (list string)) : M (list (list string)) :=
  if decide (idx = 0) then
    (* the header row *)
    let* err := csv_Write out (written ++ [record]) in
    exec check err in
    ret (written ++ [record])
  else
    let* outRecord := cleanRecord record in
    let* err := csv_Write out (written ++ [outRecord]) in
    exec check err in
    ret (written ++ [outRecord]).

Definition dataProfiling : M unit :=
  let* o := os_Open rawDataSet in
  let* f := must o in
  let* rawCSVData := must (csv_ReadAll 2 f) in
  let* o := os_Create cleanDataSet in
  let* out := must o in
  let* written := range rawCSVData (clean_body out) [] in
  exec csv_Flush out written in
  let* err := csv_Error in
  check err.

Definition savePlotPng : M unit :=
  let* o := os_Open cleanDataSet in
  let* loanDataFile := must o in
  let loanDF := ReadCSV loanDataFile in
  let loanSummary := Describe loanDF in
  exec fmt_Print loanSummary in
  range (Names loanDF)
    (fun _ colName _ =>
       let* plotVals := make 0%Q (Nrow loanDF) in
       let* col := match Col_Float loanDF colName with
                   | Some v => ret v | None => panic end in
       let* plotVals :=
         range col (fun i floatVal vals => store vals i floatVal) plotVals in
       exec check (NewHist plotVals 16) in
       let* err := plot_Save (colName +:+ "_hist.png") in
       check err) tt.

Definition splitData : M unit :=
  splitData_at cleanDataSet trainingDataSet "test.csv".

Definition logistic (x : float64) : float64 := (1 / (1 + Exp (- x)))%Q.

(** One pass of the inner loop: the row [idx] of [features] with
    [labels[idx]]. *)
Definition updateRow (features : Dense) (learningRate : float64)
    (idx : Z) (label : float64) (st : list float64 * float64)
  : M (list float64 * float64) :=
  let '(weights, sumError) := st in
  let* featureRow := mat64_Row idx features in
  let* f0 := index featureRow 0 in
  let* w0 := index weights 0 in
  let* f1 := index featureRow 1 in
  let* w1 := index weights 1 in
  let pred := logistic (f0 * w0 * f1 * w1)%Q in
  let predError := (label - pred)%Q in
  let sumError := (sumError + predError ^ 2)%Q in
  let* weights :=
    for_upto_M (len featureRow)
      (fun j weights =>
         let* wj := index weights j in
         let* fj := index featureRow j in
         store weights j
           (wj + learningRate * predError * pred * (1 - pred) * fj)%Q)
      weights in
  ret (weights, sumError).

(** The optimisation loop, from the initial weights on. *)
Definition descend (features : Dense) (labels : list float64)
    (numSteps : Z) (learningRate : float64) (weights : list float64)
  : M (list float64) :=
  for_upto_M numSteps
    (fun _ weights =>
       let* st := range labels (updateRow features learningRate)
                    (weights, 0%Q) in
       ret (fst st)) weights.

Definition logisticRegression (features : Dense) (labels : list float64)
    (numSteps : Z) (learningRate : float64) : M (list float64) :=
  let numWeights := mcols features in
  let* weights := make 0%Q numWeights in
  let* seed := time_Now_UnixNano in
  let* weights :=
    range weights
      (fun idx _ ws => store ws idx (Float64 seed (Z.to_nat idx)))
      weights in
  descend features labels numSteps learningRate weights.

(** The body of the loop of [train]: the feature slice, the label slice and
    [featureIndex]. *)
Definition train_body (idx : Z) (record : list string)
    (st : list float64 * list float64 * Z)
  : M (list float64 * list float64 * Z) :=
  let '(featureData, labels, featureIndex) := st in
  if decide (idx = 0) then ret (featureData, labels, featureIndex)
  else
    let* s := index record 0 in
    let* featureVal := must (ParseFloat s) in
    let* featureData := store featureData featureIndex featureVal in
    let* featureData := store featureData (int_add featureIndex 1) 1%Q in
    let featureIndex := int_add featureIndex 2 in
    let* s := index record 1 in
    let* labelVal := must (ParseFloat s) in
    let* labels := store labels idx labelVal in
    ret (featureData, labels, featureIndex).

Definition train : M unit :=
  let* o := os_Open trainingDataSet in
  let* f := must o in
  let* rawCSVData := must (csv_ReadAll 2 f) in
  let* featureData := make 0%Q (int_mul 2 (len rawCSVData)) in
  let* labels := make 0%Q (len rawCSVData) in
  let* st := range rawCSVData train_body (featureData, labels, 0) in
  let '(featureData, labels, _) := st in
  let* features := mat64_NewDense (len rawCSVData) 2 featureData in
  let* weights := logisticRegression features labels 100 (3 # 10) in
  let* m1 := index weights 0 in
  let* m2 := index weights 1 in
  fmt_Print (NL +:+ "p = 1 / ( 1 + exp(- m1 * FICO.score - m2) )" +:+ NL
             +:+ NL +:+ "m1 = " +:+ FormatFloat m1 2 +:+ NL
             +:+ "m2 = " +:+ FormatFloat m2 2 +:+ NL +:+ NL).

Definition predict (score : float64) : float64 :=
  let p :=
    f64_div 1%Q
      (f64_add 1%Q
         (Exp (f64_add (f64_mul (f64_lit (- (1365 # 100))%Q) score)
                       (f64_lit (489 # 100)%Q)))) in
  if Qle_bool (1 # 2) p then 1%Q else 0%Q.

(** The reading loop of [test]: reader errors other than io.EOF are not
    looked at, so each line is taken with the fields the reader returns.
    [read_body] is one pass, from [reader.Read()] to the next. *)
Definition read_body (_ : Z) (ln : csv_line)
    (st : Z * list float64 * list float64)
  : M (Z * list float64 * list float64) :=
  let '(line, observed, predicted) := st in
  let record := line_fields ln in
  if decide (line = 1) then ret (int_add line 1, observed, predicted)
  else
    let* s := index record 1 in
    match ParseFloat s with
    | inl _ =>
        exec log_Printf "Parsing line %d failed, unexpected type" line in
        ret (line, observed, predicted)
    | inr observedVal =>
        let* s := index record 0 in
        match ParseFloat s with
        | inl _ =>
            exec log_Printf "Parsing line %d failed, unexpected type" line in
            ret (line, observed, predicted)
        | inr score =>
            let predictedVal := predict score in
            ret (int_add line 1, observed ++ [observedVal],
                 predicted ++ [predictedVal])
        end
    end.

Definition readLoop (f : list csv_line)
  : M (Z * list float64 * list float64) :=
  range f read_body (1, [], []).

Definition count_body (predicted : list float64) (idx : Z) (oVal : float64)
    (truePosNeg : Z) : M Z :=
  let* p := index predicted idx in
  if Qeq_bool oVal p then ret (int_add truePosNeg 1) else ret truePosNeg.

Definition countCorrect (observed predicted : list float64) : M Z :=
  range observed (count_body predicted) 0.

Definition test : M unit :=
  let* o := os_Open testDataSet in
  let* f := must o in
  let* st := readLoop f in
  let '(_, observed, predicted) := st in
  let* truePosNeg := countCorrect observed predicted in
  let accuracy :=
    float64_div (float64_of_int truePosNeg) (float64_of_int (len observed)) in
  fmt_Print (NL +:+ "Accuracy = " +:+ fmt_f accuracy 2 +:+ NL +:+ NL).

Definition main : M unit :=
  exec dataProfiling in
  exec savePlotPng in
  exec splitData in
  exec train in
  test.
End Script.
End LogisticRegression.

(** ** golearn, and the two random-number packages

    golearn takes its random numbers from the global generator of math/rand
    (fold assignment, bagging, feature choice, the pruning split of ID3).  The
    state of that generator is [math_rand]; x/exp/rand is another package with
    a generator of its own, [exp_rand].  The run time seeds math/rand afresh in
    every process unless the program calls [rand.Seed].  What a
    cross-validation returns is not decided by that generator alone: it also
    depends on choices the run time makes per process ([runtime]), which no
    call of the scripts fixes. *)

Class Golearn : Type := {
  Instances : Type;
  ConfusionMatrix : Type;
  Classifier : Type;
  parseInstances : list csv_line -> bool -> error + Instances;
  parseTemplated : list csv_line -> bool -> Instances -> error + Instances;
  BinaryConvert : Instances -> Instances;      (* the trained filter, applied *)
  NBModel : Type;
  NBFit : Instances -> NBModel;
  NBPredict : NBModel -> Instances -> error + Instances;
  GetConfusionMatrix : Instances -> Instances -> error + ConfusionMatrix;
  GetAccuracy : ConfusionMatrix -> float64;
  NewID3DecisionTree : float64 -> Classifier;
  NewRandomForest : Z -> Z -> Classifier;
  (* data, classifier, folds; the generator state of math/rand, which goes
     in and comes out; the choices of the run time *)
  crossFold : Instances -> Classifier -> Z -> Z -> Z
              -> (error + list ConfusionMatrix) * Z;
  GetCrossValidatedMetric : list ConfusionMatrix
                            -> (ConfusionMatrix -> float64)
                            -> float64 * float64
}.

(** [rand.Seed(seed)] of math/rand: the global generator restarts from the
    state the seed determines. *)
Definition math_rand_Seed (seed : Z) : M unit :=
  fun w => (Ret tt, set_math_rand seed w).

(** [rand.Seed(seed)] of golang.org/x/exp/rand. *)
Definition exp_rand_Seed (seed : Z) : M unit :=
  fun w => (Ret tt, set_exp_rand seed w).

Section GolearnCalls.
Context `{Golearn}.

Definition ParseCSVToInstances (path : string) (hasHeaders : bool)
  : M (error + Instances) :=
  let* o := os_Open path in
  match o with
  | inl e => ret (inl e)
  | inr f => ret (parseInstances f hasHeaders)
  end.

Definition ParseCSVToTemplatedInstances (path : string) (hasHeaders : bool)
    (template : Instances) : M (error + Instances) :=
  let* o := os_Open path in
  match o with
  | inl e => ret (inl e)
  | inr f => ret (parseTemplated f hasHeaders template)
  end.

Definition GenerateCrossFoldValidationConfusionMatrices
    (data : Instances) (cls : Classifier) (folds : Z)
  : M (error + list ConfusionMatrix) :=
  fun w => let '(r, g) :=
             crossFold data cls folds (math_rand w) (runtime w) in
           (Ret r, set_math_rand g w).
End GolearnCalls.

Section Printing.
Context `{Strconv}.

(** [fmt.Printf("\nAccuracy\n%.2f (+/- %.2f)\n\n", mean, stdev*2)] *)
Definition printAccuracy (mean stdev : float64) : M unit :=
  fmt_Print (NL +:+ "Accuracy" +:+ NL +:+ FormatFloat mean 2 +:+ " (+/- "
             +:+ FormatFloat (stdev * 2)%Q 2 +:+ ")" +:+ NL +:+ NL).
End Printing.

(** classification/decision-tree/main.go; it imports math/rand. *)
Module DecisionTree.
Section Script.
Context `{Strconv, Math, Golearn}.

Definition main : M unit :=
  let* o := ParseCSVToInstances "../dataset/iris.csv" true in
  let* irisData := must o in
  exec math_rand_Seed 44111342 in
  let decisionTree := NewID3DecisionTree (6 # 10) in
  let* o := GenerateCrossFoldValidationConfusionMatrices
              irisData decisionTree 5 in
  let* cv := must o in
  let '(mean, variance) := GetCrossValidatedMetric cv GetAccuracy in
  let stdev := Sqrt variance in
  printAccuracy mean stdev.
End Script.
End DecisionTree.

(** classification/randrom-forest/main.go; it imports
    golang.org/x/exp/rand. *)
Module RandomForest.
Section Script.
Context `{Strconv, Math, Golearn}.

Definition main : M unit :=
  let* o := ParseCSVToInstances "../dataset/iris.csv" true in
  let* irisData := must o in
  exec exp_rand_Seed 44111342 in
  let rf := NewRandomForest 10 2 in
  let* o := GenerateCrossFoldValidationConfusionMatrices irisData rf 5 in
  let* cv := must o in
  let '(mean, variance) := GetCrossValidatedMetric cv GetAccuracy in
  let stdev := Sqrt variance in
  printAccuracy mean stdev.
End Script.
End RandomForest.

(** The naive-Bayes script. *)
Module NaiveBayes.
Section Script.
Context `{Strconv, Golearn}.

Definition convertToBinary (src : Instances) : Instances := BinaryConvert src.

Definition train : M unit :=
  let* o := ParseCSVToInstances "../dataset/training.csv" true in
  let* trainingData := must o in
  let nb := NBFit (convertToBinary trainingData) in
  let* o := ParseCSVToTemplatedInstances "../dataset/test.csv" true
              trainingData in
  let* testData := must o in
  let* predictions := must (NBPredict nb (convertToBinary testData)) in
  let* cm := must (GetConfusionMatrix testData predictions) in
  let accuracy := GetAccuracy cm in
  fmt_Print (NL +:+ "Accuracy: " +:+ FormatFloat accuracy 2 +:+ NL +:+ NL).

Definition main : M unit := train.
End Script.
End NaiveBayes.

(** ** Reference implementations of the interfaces

    Small executable instances, used to run the scripts on concrete files.
    They are stand-ins, not the Go libraries: no property of a library is
    taken from them. *)

Module Reference.

Definition digit_of (c : ascii) : option Z :=
  let n := Z.of_nat (nat_of_ascii c) in
  if decide (48 <= n <= 57) then Some (n - 48) else None.

(** Reads a run of decimal digits: value so far, digits read, rest. *)
Fixpoint digits (s : string) (acc : Z) (cnt : nat) : Z * nat * string :=
  match s with
  | EmptyString => (acc, cnt, s)
  | String c s' =>
      match digit_of c with
      | Some d => digits s' (10 * acc + d) (Datatypes.S cnt)
      | None => (acc, cnt, s)
      end
  end.

Definition unsigned_decimal (s : string) : option Q :=
  let '(a, ca, rest) := digits s 0 0 in
  match rest with
  | EmptyString => if decide (ca = 0%nat) then None else Some (inject_Z a)
  | String c rest' =>
      if decide (c = "."%char) then
        let '(b, cb, rest'') := digits rest' a 0 in
        match rest'' with
        | EmptyString =>
            if decide ((ca + cb)%nat = 0%nat) then None
            else Some (Qred (b # Pos.of_nat (10 ^ cb)))
        | String _ _ => None
        end
      else None
  end.

(** The plain decimal numerals of [strconv.ParseFloat]: an optional sign,
    digits, an optional fraction.  (No exponent, no hexadecimal, no
    infinities.) *)
Definition parse_decimal (s : string) : error + float64 :=
  let body sign t :=
    match unsigned_decimal t with
    | Some q => inr (sign * q)%Q
    | None => inl (ErrSyntax s)
    end in
  match s with
  | String "-" t => body (-1)%Q t
  | String "+" t => body 1%Q t
  | _ => body 1%Q s
  end.

Fixpoint nat_digits (fuel : nat) (n : Z) (acc : string) : string :=
  match fuel with
  | O => acc
  | Datatypes.S k =>
      let acc' := String (ascii_of_nat (48 + Z.to_nat (n mod 10))) acc in
      if decide (n / 10 = 0) then acc' else nat_digits k (n / 10) acc'
  end.

Definition show_nat (n : Z) : string := nat_digits (S (Z.to_nat n)) n "".

Fixpoint zeros (n : nat) : string :=
  match n with O => "" | Datatypes.S k => String "0" (zeros k) end.

Definition pad_left (width : nat) (s : string) : string :=
  zeros (width - String.length s) +:+ s.

(** Fixed notation with [prec] decimals, rounding half away from zero. *)
Definition format_fixed (x : float64) (prec : nat) : string :=
  let scale := 10 ^ Z.of_nat prec in
  let r := Qfloor (Qabs x * inject_Z scale + (1 # 2))%Q in
  let sign := if decide (Qnum x < 0 /\ r <> 0) then "-" else "" in
  let frac := pad_left prec (show_nat (r mod scale)) in
  sign +:+ show_nat (r / scale)
       +:+ (if decide (prec = 0%nat) then "" else "." +:+ frac).

#[local] Instance strconv : Strconv :=
  {| ParseFloat := parse_decimal; FormatFloat := format_fixed |}.

(** (1 + x/256)^256 for the exponential, by eight squarings, and two Newton
    steps for the square root. *)
Definition square (q : Q) : Q := Qred (q * q)%Q.

#[local] Instance math : Math :=
  {| Exp := fun x => Nat.iter 8 square (Qred (1 + x / 256)%Q);
     Sqrt := fun x =>
       let step g := Qred ((g + x / g) / 2)%Q in
       if Qeq_bool x 0 then 0%Q else step (step 1%Q) |}.

Definition is_float (s : string) : bool :=
  match parse_decimal s with inr _ => true | inl _ => false end.

Definition column (j : nat) (rs : list (list string)) : list string :=
  omap (fun r => r !! j) rs.

Definition infer (rs : list (list string)) : list ColType :=
  match rs with
  | [] => []
  | r :: _ =>
      (fun j => if forallb is_float (column j rs) then TFloat else TString)
        <$> seq 0 (length r)
  end.

Definition cell_text (t : ColType) (s : string) : string :=
  match t, parse_decimal s with
  | TFloat, inr q => format_fixed q 6
  | _, _ => s
  end.

Definition cell_float (s : string) : float64 :=
  match parse_decimal s with inr q => q | inl _ => 0%Q end.

Fixpoint position (name : string) (names : list string) : option nat :=
  match names with
  | [] => None
  | n :: ns => if decide (n = name) then Some 0%nat
               else S <$> position name ns
  end.

#[local] Instance gota : Gota :=
  {| inferTypes := infer;
     elemString := cell_text;
     Col_Float := fun df name =>
       match Err df with
       | Some _ => None
       | None => j ← position name (columns df);
                 Some (cell_float <$> column j (rows df))
       end;
     Describe := fun df => "summary of " +:+ show_nat (len (rows df))
                           +:+ " rows" |}.

#[local] Instance plot : Plot :=
  {| NewHist := fun vals n =>
       if decide (vals = []) then Some (ErrLib "histogram: no data") else None;
     NewScatter := fun _ => None;
     NewLine := fun _ => None |}.

(** Least squares for one variable: (intercept, slope). *)
Definition fit (pts : list (float64 * list float64)) : Q * Q :=
  let xs := (fun p => default 0%Q (snd p !! 0%nat)) <$> pts in
  let ys := fst <$> pts in
  let sum := foldr Qplus 0%Q in
  let n := inject_Z (len pts) in
  let sx := sum xs in
  let sy := sum ys in
  let sxy := sum (zip_with Qmult xs ys) in
  let sxx := sum (zip_with Qmult xs xs) in
  let slope := Qred ((n * sxy - sx * sy) / (n * sxx - sx * sx))%Q in
  (Qred ((sy - slope * sx) / n)%Q, slope).

#[local] Instance regression : Regression :=
  {| Model := Q * Q;
     Run := fit;
     Formula := fun m => "Predicted = " +:+ format_fixed (fst m) 4
                         +:+ " + TV*" +:+ format_fixed (snd m) 4;
     Predict := fun m vars =>
       match vars with
       | [x] => inr (Qred (fst m + snd m * x)%Q)
       | _ => inl (ErrLib "invalid number of variables")
       end |}.

#[local] Instance exprand : ExpRand :=
  {| Float64 := fun seed k =>
       (((seed + 7919 * Z.of_nat (S k)) mod 1000) # 1000)%Q |}.

(** Exact arithmetic for the rounded operations, and a csv.Writer whose
    buffer never fills (as for a file of less than 4096 bytes). *)
#[local] Instance float64ops : Float64Ops :=
  {| f64_lit := fun q => q;
     f64_mul := fun x y => Qred (x * y)%Q;
     f64_add := fun x y => Qred (x + y)%Q;
     f64_div := fun x y => Qred (x / y)%Q |}.

#[local] Instance csvwriter : CsvWriter :=
  {| written_through := fun _ => [] |}.

(** A stand-in for golearn, to let the drivers run: a single confusion
    matrix (correct, total) made from the two numbers the cross-validation
    depends on. *)
#[local] Instance golearn : Golearn :=
  {| Instances := list (list string);
     ConfusionMatrix := Z * Z;
     Classifier := Z;
     parseInstances := fun f _ => csv_ReadAll 0 f;
     parseTemplated := fun f _ _ => csv_ReadAll 0 f;
     BinaryConvert := id;
     NBModel := list (list string);
     NBFit := id;
     NBPredict := fun _ t => inr t;
     GetConfusionMatrix := fun t p => inr (len p, len t);
     GetAccuracy := fun cm => (fst cm # Z.to_pos (snd cm))%Q;
     NewID3DecisionTree := fun _ => 0;
     NewRandomForest := fun size _ => size;
     crossFold := fun data _ folds g h =>
       (inr [(((g + h) mod 5) + 5, 10)], (g * 25214903917 + 11) mod 2 ^ 48);
     GetCrossValidatedMetric := fun cms f =>
       (default 0%Q (head (f <$> cms)), 0%Q) |}.

End Reference.

(** ** Closed forms used in the statements *)

(** The rows the split sends to the training and to the test file. *)
Definition trainingRows (rs : list (list string)) : list (list string) :=
  take (Z.to_nat ((4 * len rs + 4) / 5)) rs.
Definition testRows (rs : list (list string)) : list (list string) :=
  drop (Z.to_nat ((4 * len rs + 4) / 5)) rs.

(** A world with no files. *)
Definition emptyWorld : World := mkWorld ∅ ∅ [] [] [] 0 0 0 0.

Definition withFile (path : string) (f : list csv_line) (w : World) : World :=
  set_fs (<[path := f]> (fs w)) w.

(** Eleven advertising rows under their header. *)
Definition advert11 : list csv_line :=
  Fields ["TV"; "Radio"; "Newspaper"; "Sales"]
  :: map (fun k => Fields [Reference.show_nat (Z.of_nat k); "2"; "3";
                           Reference.show_nat (Z.of_nat (2 * k + 1))])
         (seq 1 11).

Definition advertDF11 : DataFrame := @ReadCSV Reference.gota advert11.

Definition advertWorld : World :=
  withFile LinearRegression.dataset advert11 emptyWorld.

(** The success value of a call that returns [(value, error)]. *)
Definition ok {A} (r : error + A) : option A :=
  match r with inl _ => None | inr a => Some a end.

Section RegressionViews.
Context `{Strconv, Regression}.

(** The data point a training record stands for. *)
Definition point_of (record : list string) : option (float64 * list float64) :=
  s ← record !! 3%nat; yVal ← ok (ParseFloat s);
  s ← record !! 0%nat; tvVal ← ok (ParseFloat s);
  Some (yVal, [tvVal]).

(** Observed and predicted value of a test record. *)
Definition observed_predicted (r : Model) (record : list string)
  : option (float64 * float64) :=
  s ← record !! 3%nat; yObserved ← ok (ParseFloat s);
  s ← record !! 0%nat; tvVal ← ok (ParseFloat s);
  yPredicted ← ok (Predict r [tvVal]);
  Some (yObserved, yPredicted).

Definition abs_error (op : float64 * float64) : float64 :=
  Qabs (fst op - snd op).
End RegressionViews.

Definition Qsum (l : list Q) : Q := foldr Qplus 0%Q l.

(** The mean absolute error of the specification: the sum of
    |observed - predicted| over the test rows, divided by their number. *)
Definition mean_absolute_error (rows : list (float64 * float64)) : Q :=
  (Qsum (abs_error <$> rows) / inject_Z (len rows))%Q.

(** A test file with one data row: TV = 0, Sales = 2. *)
Definition oneRowTest : list csv_line :=
  [Fields ["TV"; "Radio"; "Newspaper"; "Sales"]; Fields ["0"; "0"; "0"; "2"]].

Definition oneRowWorld : World :=
  withFile LinearRegression.testDataSet oneRowTest emptyWorld.

(** The fitted line y = 0 + 0 * TV of the reference regression. *)
Definition flatModel : @Model Reference.regression := (0%Q, 0%Q).

(** Two raw loan rows, at the two sides of the rate threshold. *)
Definition loanRowAt12 : list string := ["640-644"; "12.0%"].
Definition loanRowAbove12 : list string := ["830-834"; "12.1%"].

Section GradientViews.
Context `{Math}.

(** The weights after one training row (f0, f1, label). *)
Definition gd_row (learningRate : float64) (ws : float64 * float64)
    (row : float64 * float64 * float64) : float64 * float64 :=
  let '(f0, f1, label) := row in
  let '(w0, w1) := ws in
  let pred := LogisticRegression.logistic (f0 * w0 * f1 * w1)%Q in
  ((w0 + learningRate * (label - pred) * pred * (1 - pred) * f0)%Q,
   (w1 + learningRate * (label - pred) * pred * (1 - pred) * f1)%Q).

(** One iteration: every row once, in order. *)
Definition gd_epoch (learningRate : float64)
    (rows : list (float64 * float64 * float64)) (ws : float64 * float64)
  : float64 * float64 :=
  fold_left (gd_row learningRate) rows ws.
End GradientViews.

(** A two-column matrix from its rows, and a weight pair as a slice. *)
Definition flat (rows : list (float64 * float64)) : list float64 :=
  flat_map (fun r => [fst r; snd r]) rows.

Definition dense2 (rows : list (float64 * float64)) : Dense :=
  mkDense (len rows) 2 (flat rows).

Definition weights_of (ws : float64 * float64) : list float64 :=
  [fst ws; snd ws].

(** Three score rows with the intercept column, and their labels. *)
Definition toyRows : list (float64 * float64) :=
  [(0%Q, 1%Q); ((1 # 2)%Q, 1%Q); (1%Q, 1%Q)].
Definition toyLabels : list float64 := [0%Q; 0%Q; 1%Q].



Section EvaluationViews.
Context `{Strconv, Math, Float64Ops}.

(** Observed label and predicted class of a test line, when both of its
    fields parse. *)
Definition evalRow (ln : csv_line) : option (float64 * float64) :=
  s ← line_fields ln !! 1%nat; observedVal ← ok (ParseFloat s);
  s ← line_fields ln !! 0%nat; score ← ok (ParseFloat s);
  Some (observedVal, LogisticRegression.predict score).

(** The rows that enter the accuracy. *)
Definition kept (rest : list csv_line) : list (float64 * float64) :=
  omap evalRow rest.

(** The log lines of the rows left out; [line] is the line counter. *)
Fixpoint skip_log (line : Z) (rest : list csv_line) : list logline :=
  match rest with
  | [] => []
  | ln :: rest' =>
      match evalRow ln with
      | Some _ => skip_log (line + 1) rest'
      | None => LogPrintf "Parsing line %d failed, unexpected type" line
                :: skip_log line rest'
      end
  end.
End EvaluationViews.

(** The number of rows whose predicted class is the observed one. *)
Definition hits (ops : list (float64 * float64)) : Z :=
  len (filter (fun op => Qeq_bool (fst op) (snd op) = true) ops).

(** The accuracy over the rows that enter it, as printed: the share of the
    hits, and NaN (0/0) when no row enters. *)
Definition accuracy_text `{Strconv} (ops : list (float64 * float64))
  : string :=
  match ops with
  | [] => "NaN"
  | _ :: _ =>
      FormatFloat (float64_of_int (hits ops) / float64_of_int (len ops))%Q 2
  end.

(** A linear-regression test file whose first data row has no number for
    Sales. *)
Definition badSalesTest : list csv_line :=
  [Fields ["TV"; "Radio"; "Newspaper"; "Sales"];
   Fields ["10"; "0"; "0"; "abc"];
   Fields ["0"; "0"; "0"; "2"]].

Definition badSalesWorld : World :=
  withFile LinearRegression.testDataSet badSalesTest emptyWorld.

(** A loan test file with one unparsable label among three rows. *)
Definition loanTest : list csv_line :=
  [Fields ["FICO.Range"; "Interest.Rate"];
   Fields ["0.9000"; "1.0"];
   Fields ["0.5000"; "n/a"];
   Fields ["0.1000"; "0.0"]].

Definition loanTestWorld : World :=
  withFile LogisticRegression.testDataSet loanTest emptyWorld.

(** [m] run in [w] stops in [log.Fatal]: one error is logged, and the world
    is otherwise [w1] ([w] and the files created before the failure). *)
Definition aborts {A} (m : M A) (w w1 : World) : Prop :=
  exists e, m w = (Fatal, set_logged (logged w1 ++ [LogFatal e]) w1).

Section LoanViews.
Context `{Strconv}.

(** The record the cleaner writes for a raw loan record. *)
Definition clean_of (record : list string) : option (list string) :=
  f0 ← record !! 0%nat; lo ← head (strings_Split f0 "-");
  score ← ok (ParseFloat lo);
  f1 ← record !! 1%nat; rate ← ok (ParseFloat (strings_TrimSuffix f1 "%"));
  Some [FormatFloat (LogisticRegression.normalize score) 4;
        if Qle_bool rate 12 then "1.0" else "0.0"].

(** The records the cleaner has written when it meets the first row that
    does not clean (all of them when every row cleans). *)
Fixpoint cleaned_before (rest : list (list string)) : list (list string) :=
  match rest with
  | [] => []
  | record :: rest' =>
      match clean_of record with
      | Some out => out :: cleaned_before rest'
      | None => []
      end
  end.

(** Score and label of a cleaned loan record. *)
Definition loan_point (record : list string) : option (float64 * float64) :=
  s ← record !! 0%nat; featureVal ← ok (ParseFloat s);
  s ← record !! 1%nat; labelVal ← ok (ParseFloat s);
  Some (featureVal, labelVal).
End LoanViews.

(** Files with a line the CSV reader rejects, and with a field that is not a
    number. *)
Definition garbledAdvert : list csv_line :=
  [Fields ["TV"; "Radio"; "Newspaper"; "Sales"]; Garbled ["230.1"]].

Definition garbledWorld : World :=
  withFile LinearRegression.dataset garbledAdvert emptyWorld.

Definition badTraining : list csv_line :=
  [Fields ["TV"; "Radio"; "Newspaper"; "Sales"];
   Fields ["230.1"; "37.8"; "69.2"; "22.1"];
   Fields ["44.5"; "39.3"; "45.1"; "ten"]].

Definition badTrainingWorld : World :=
  withFile LinearRegression.trainingDataSet badTraining emptyWorld.

Definition badLoan : list csv_line :=
  [Fields ["FICO.Range"; "Interest.Rate"];
   Fields ["735-739"; "8.90%"];
   Fields ["7x5-719"; "12.12%"]].

Definition badLoanWorld : World :=
  withFile LogisticRegression.rawDataSet badLoan emptyWorld.

Definition badLoanTraining : list csv_line :=
  [Fields ["FICO.Range"; "Interest.Rate"];
   Fields ["0.5000"; "1.0"];
   Fields ["0.2000"; "high"]].

Definition badLoanTrainingWorld : World :=
  withFile LogisticRegression.trainingDataSet badLoanTraining emptyWorld.

(** A cleaned training file with two data rows. *)
Definition loanTraining2 : list (list string) :=
  [["FICO.Range"; "Interest.Rate"]; ["0.5000"; "1.0"]; ["0.2000"; "0.0"]].

(** ** Further closed forms and sample files *)

(** Two records that agree on the TV and the Sales field. *)
Definition same_tv_sales (r1 r2 : list string) : Prop :=
  r1 !! 0%nat = r2 !! 0%nat /\ r1 !! 3%nat = r2 !! 3%nat.

(** A test file with three data rows, and the line y = 1 + 2 * TV. *)
Definition threeRowTest : list csv_line :=
  [Fields ["TV"; "Radio"; "Newspaper"; "Sales"];
   Fields ["1"; "0"; "0"; "4"];
   Fields ["2"; "9"; "9"; "5"];
   Fields ["3"; "0"; "0"; "5"]].

Definition threeRowWorld : World :=
  withFile LinearRegression.testDataSet threeRowTest emptyWorld.

Definition slopeModel : @Model Reference.regression := (1%Q, 2%Q).

(** Two training files that differ in the Radio and Newspaper fields only. *)
Definition trainingA : list (list string) :=
  [["TV"; "Radio"; "Newspaper"; "Sales"];
   ["230.1"; "37.8"; "69.2"; "22.1"];
   ["44.5"; "39.3"; "45.1"; "10.4"]].
Definition trainingB : list (list string) :=
  [["TV"; "radio"; "paper"; "Sales"];
   ["230.1"; "n/a"; ""; "22.1"];
   ["44.5"; "?"; "45,1"; "10.4"]].

(** Whether the character occurs in the string. *)
Fixpoint has_char (c : ascii) (s : string) : bool :=
  match s with
  | EmptyString => false
  | String a s' => if decide (a = c) then true else has_char c s'
  end.

(** A raw loan file with three rows. *)
Definition loanRaw : list csv_line :=
  [Fields ["FICO.Range"; "Interest.Rate"];
   Fields ["735-739"; "8.90%"];
   Fields ["640-644"; "12.0%"];
   Fields ["830-834"; "15.31%"]].

Definition loanRawWorld : World :=
  withFile LogisticRegression.rawDataSet loanRaw emptyWorld.

(** The examples the loan trainer works on, for the (score, label) points of
    the training file in file order: matrix row [k] holds the score of data
    row [k + 1] and the intercept 1, the label slice holds the label of data
    row [k] at index [k] (index 0 is the header's and stays 0), and the
    matrix ends with a row of zeros. *)
Definition train_rows (pts : list (float64 * float64))
  : list (float64 * float64) :=
  ((fun p => (fst p, 1%Q)) <$> pts) ++ [(0%Q, 0%Q)].

Definition train_labels (pts : list (float64 * float64)) : list float64 :=
  0%Q :: (snd <$> pts).

Definition train_examples (pts : list (float64 * float64))
  : list (float64 * float64 * float64) :=
  zip (train_rows pts) (train_labels pts).

(** What [train] of the loan script prints for the weights [ws]. *)
Definition formula_text `{Strconv} (ws : float64 * float64) : string :=
  NL +:+ "p = 1 / ( 1 + exp(- m1 * FICO.score - m2) )" +:+ NL
  +:+ NL +:+ "m1 = " +:+ FormatFloat (fst ws) 2 +:+ NL
  +:+ "m2 = " +:+ FormatFloat (snd ws) 2 +:+ NL +:+ NL.

Definition loanTrainingWorld : World :=
  withFile LogisticRegression.trainingDataSet (Fields <$> loanTraining2)
    emptyWorld.

(** A loan test file with a one-field line after a row that does not
    parse, and one with two rows in a row that do not parse. *)
Definition loanTestShort : list csv_line :=
  [Fields ["FICO.Range"; "Interest.Rate"];
   Fields ["0.9000"; "1.0"];
   Fields ["0.5000"; "n/a"];
   Fields ["0.7000"];
   Fields ["0.1000"; "0.0"]].

Definition loanTestShortWorld : World :=
  withFile LogisticRegression.testDataSet loanTestShort emptyWorld.

Definition loanTestTwoBad : list csv_line :=
  [Fields ["FICO.Range"; "Interest.Rate"];
   Fields ["0.9000"; "1.0"];
   Fields ["0.5000"; "n/a"];
   Fields ["high"; "1.0"];
   Fields ["0.1000"; "0.0"]].

Definition loanTestTwoBadWorld : World :=
  withFile LogisticRegression.testDataSet loanTestTwoBad emptyWorld.

(** [m] leaves every CSV file outside [paths] as it finds it, however it
    ends. *)
Definition writes_only {A} (paths : gset string) (m : M A) : Prop :=
  forall (w : World) (p : string),
    p ∉ paths -> fs (snd (m w)) !! p = fs w !! p.

(** The name of the histogram and of the scatter plot of a column. *)
Definition hist_png (colName : string) : string := colName +:+ "_hist.png".
Definition scatter_png (colName : string) : string :=
  colName +:+ "_scatter.png".

(** An advertising dataset with two rows. *)
Definition advert2 : list csv_line :=
  [Fields ["TV"; "Radio"; "Newspaper"; "Sales"];
   Fields ["1"; "2"; "3"; "4"];
   Fields ["2"; "2"; "3"; "6"]].

Definition advert2World : World :=
  withFile LinearRegression.dataset advert2 emptyWorld.

Section PlotViews.
Context `{Gota, Plot}.

(** A column with its values, as many as the frame has rows, and a
    histogram of them that can be made. *)
Definition plottable (df : DataFrame) (colName : string) : Prop :=
  exists v, Col_Float df colName = Some v /\ len v = Nrow df
            /\ NewHist v 16 = None.
End PlotViews.

(** A raw loan file with the two rows at the sides of the rate threshold,
    which are also the two ends of the score scale. *)
Definition loanBoundary : list csv_line :=
  [Fields ["FICO.Range"; "Interest.Rate"];
   Fields loanRowAt12;
   Fields loanRowAbove12].

Definition loanBoundaryWorld : World :=
  withFile LogisticRegression.rawDataSet loanBoundary emptyWorld.

(** * Properties *)

(** ** The monad *)

Lemma bind_ret {A B} (m : M A) (k : A -> M B) (w w' : World) (a : A) :
  m w = (Ret a, w') -> bind m k w = k a w'.
Proof. intros E. unfold bind. now rewrite E. Qed.

(** ** Go integers in range *)

Lemma wrap64_id (z : Z) : - 2 ^ 63 <= z < 2 ^ 63 -> wrap64 z = z.
Proof.
  intros Hz. unfold wrap64.
  rewrite Z.mod_small by lia. lia.
Qed.

Lemma splitCounts_closed (n : Z) :
  0 <= n < 2 ^ 61 ->
  splitCounts n = ((4 * n + 4) / 5, n / 5).
Proof.
  intros Hn. unfold splitCounts, int_quot, int_mul, int_add.
  assert (Hq4 : 0 <= 4 * n / 5 <= 2 ^ 62).
  { split; [apply Z.div_pos; lia|apply Z.div_le_upper_bound; lia]. }
  assert (Hq1 : 0 <= n / 5 <= 2 ^ 61).
  { split; [apply Z.div_pos; lia|apply Z.div_le_upper_bound; lia]. }
  rewrite (wrap64_id (4 * n)) by lia.
  rewrite !Z.quot_div_nonneg by lia.
  rewrite (wrap64_id (4 * n / 5)), (wrap64_id (n / 5)) by lia.
  rewrite (wrap64_id (4 * n / 5 + n / 5)) by lia.
  rewrite (wrap64_id (4 * n / 5 + 1)) by lia.
  case_decide as Hlt; f_equal; revert Hlt; clear; intros;
    Z.div_mod_to_equations; lia.
Qed.

Lemma ceil_four_fifths (n : Z) :
  Qceiling ((8 # 10) * inject_Z n) = (4 * n + 4) / 5.
Proof.
  unfold Qceiling, Qfloor, Qopp, Qmult, inject_Z. simpl.
  Z.div_mod_to_equations. lia.
Qed.

(** ** Filling a slice by index *)

Lemma fill_from (f : Z -> Z) (k : nat) :
  forall (j : nat) (l : list Z),
    (j + k <= length l)%nat ->
    count_from (Z.of_nat j) k (fun i idx => <[Z.to_nat i := f i]> idx) l
    = take j l ++ ((fun m => f (Z.of_nat m)) <$> seq j k) ++ drop (j + k) l.
Proof.
  induction k as [|k IH]; intros j l Hlen; simpl.
  - rewrite Nat.add_0_r. now rewrite take_drop.
  - replace (Z.of_nat j + 1) with (Z.of_nat (S j)) by lia.
    rewrite IH by (rewrite length_insert; lia).
    rewrite Nat2Z.id.
    destruct (lookup_lt_is_Some_2 l j) as [x Hx]; [lia|].
    rewrite (take_S_r (<[j:=f (Z.of_nat j)]> l) j (f (Z.of_nat j)))
      by (apply list_lookup_insert_eq; lia).
    rewrite take_insert_ge by lia.
    rewrite drop_insert_lt by lia.
    rewrite <- app_assoc. simpl.
    now replace (S (j + k))%nat with (j + S k)%nat by lia.
Qed.

Lemma fill_all (f : Z -> Z) (n : Z) :
  0 <= n ->
  for_upto n (fun i idx => <[Z.to_nat i := f i]> idx)
    (replicate (Z.to_nat n) 0)
  = (fun m => f (Z.of_nat m)) <$> seq 0 (Z.to_nat n).
Proof.
  intros Hn. unfold for_upto.
  change 0 with (Z.of_nat 0) at 1.
  rewrite (fill_from f (Z.to_nat n) 0 (replicate (Z.to_nat n) 0))
    by (rewrite length_replicate; lia).
  simpl. rewrite drop_ge by (rewrite length_replicate; lia).
  now rewrite app_nil_r.
Qed.

Section SplitFacts.
Context `{Gota}.

Lemma splitIndices_ranges (n : Z) (w : World) :
  0 <= n < 2 ^ 61 ->
  let t := Z.to_nat ((4 * n + 4) / 5) in
  let e := Z.to_nat (n / 5) in
  splitIndices n w
  = (Ret (Z.of_nat <$> seq 0 t, Z.of_nat <$> seq t e), w).
Proof.
  intros Hn t e. unfold splitIndices.
  rewrite (splitCounts_closed n Hn).
  assert (Ht : 0 <= (4 * n + 4) / 5) by (apply Z.div_pos; lia).
  assert (He : 0 <= n / 5) by (apply Z.div_pos; lia).
  unfold make_ints, bind, ret.
  repeat (case_decide; [|lia]).
  rewrite (fill_all (fun i => i)) by lia.
  rewrite (fill_all (fun i => int_add ((4 * n + 4) / 5) i)) by lia.
  do 3 f_equal.
  fold e.
  replace (seq t e) with (Nat.add t <$> seq 0 e)
    by (rewrite fmap_add_seq; f_equal; lia).
  rewrite <- list_fmap_compose.
  apply list_fmap_ext. intros i m Hm. simpl.
  apply lookup_seq in Hm as [-> Hm].
  assert ((4 * n + 4) / 5 <= 2 ^ 62) by (apply Z.div_le_upper_bound; lia).
  assert (n / 5 <= 2 ^ 61) by (apply Z.div_le_upper_bound; lia).
  unfold int_add. rewrite wrap64_id; unfold t, e in *; lia.
Qed.

Lemma select_range {A} (l : list A) (k : nat) :
  forall j, (j + k <= length l)%nat ->
  mapM (fun i => if decide (0 <= i) then l !! Z.to_nat i else None)
       (Z.of_nat <$> seq j k)
  = Some (take k (drop j l)).
Proof.
  induction k as [|k IH]; intros j Hlen; [reflexivity|].
  destruct (lookup_lt_is_Some_2 l j) as [x Hx]; [lia|].
  cbn [seq fmap list_fmap mapM].
  case_decide; [|lia]. rewrite Nat2Z.id, Hx.
  specialize (IH (S j)). cbn [fmap] in IH. rewrite IH by lia.
  rewrite (drop_S l x j Hx). reflexivity.
Qed.

Lemma splitFrames_rows (df : DataFrame) (w : World) :
  Err df = None -> Nrow df < 2 ^ 61 ->
  splitFrames df w
  = (Ret (mkDF (columns df) (coltypes df) (trainingRows (rows df)) None,
          mkDF (columns df) (coltypes df) (testRows (rows df)) None), w).
Proof.
  intros Herr Hn. unfold splitFrames.
  assert (Hr : 0 <= Nrow df < 2 ^ 61) by (unfold Nrow, len in *; lia).
  rewrite (bind_ret _ _ w w _ (splitIndices_ranges (Nrow df) w Hr)).
  unfold ret, Subset. cbn [fst snd]. rewrite Herr.
  set (n := Nrow df) in *.
  assert (Hsum : (4 * n + 4) / 5 + n / 5 = n)
    by (clear -Hr; Z.div_mod_to_equations; lia).
  assert (Ht : 0 <= (4 * n + 4) / 5) by (apply Z.div_pos; lia).
  assert (He : 0 <= n / 5) by (apply Z.div_pos; lia).
  assert (Hlen : (Z.to_nat ((4 * n + 4) / 5) + Z.to_nat (n / 5))%nat
                 = length (rows df)) by (unfold n, Nrow, len in *; lia).
  rewrite (select_range (rows df) _ 0) by lia.
  rewrite (select_range (rows df) _ (Z.to_nat ((4 * n + 4) / 5))) by lia.
  unfold trainingRows, testRows. fold (Nrow df). fold n.
  rewrite drop_0. do 4 f_equal.
  apply take_ge. rewrite length_drop. lia.
Qed.

Lemma create_and_write (df : DataFrame) (path : string) (w : World) :
  Err df = None -> path ∉ readonly w ->
  (let* r := os_Create path in
   let* out := must r in
   let* err := WriteCSV df out in
   check err) w
  = (Ret tt, set_fs (<[path := Records df]> (fs w)) w).
Proof.
  intros Herr Hw.
  unfold bind, os_Create, must, ret, WriteCSV, write_lines, check.
  rewrite decide_False by assumption. rewrite Herr.
  unfold set_fs; cbn. rewrite lookup_insert_eq, insert_insert_eq.
  reflexivity.
Qed.

Lemma splitData_at_files (source trainingPath testPath : string)
    (w : World) (f : list csv_line) :
  fs w !! source = Some f ->
  Err (ReadCSV f) = None ->
  Nrow (ReadCSV f) < 2 ^ 61 ->
  trainingPath ∉ readonly w ->
  testPath ∉ readonly w ->
  let df := ReadCSV f in
  splitData_at source trainingPath testPath w
  = (Ret tt,
     set_fs (<[testPath :=
                 Records (mkDF (columns df) (coltypes df)
                               (testRows (rows df)) None)]>
             (<[trainingPath :=
                  Records (mkDF (columns df) (coltypes df)
                                (trainingRows (rows df)) None)]> (fs w))) w).
Proof.
  intros Hf Herr Hn Htr Hte df. unfold splitData_at.
  assert (Ho : os_Open source w = (Ret (inr f), w))
    by (unfold os_Open; now rewrite Hf).
  rewrite (bind_ret _ _ w w _ Ho). cbn [must].
  rewrite (bind_ret _ _ w w f eq_refl).
  rewrite (bind_ret _ _ w w _ (splitFrames_rows (ReadCSV f) w Herr Hn)).
  fold df. unfold range. cbn [range_from fst snd].
  rewrite decide_True by reflexivity.
  erewrite bind_ret by (apply create_and_write; [reflexivity|assumption]).
  rewrite decide_False by discriminate.
  rewrite decide_True by reflexivity.
  erewrite bind_ret by (apply create_and_write; [reflexivity|assumption]).
  reflexivity.
Qed.
End SplitFacts.

(** ** The splitter *)

(** C1.  A dataset of N rows (N below 2^61, so that [4 * N] fits an [int]) is
    split into ceil(0.8 N) training rows and the N - ceil(0.8 N) remaining
    test rows; the two counts the splitter computes are these sizes and add up
    to N.  For N = 10 the counts are 8 and 2, for N = 11 they are 9 and 2. *)
Theorem split_sizes `{Gota} (df : DataFrame) (w : World) :
  Err df = None -> Nrow df < 2 ^ 61 ->
  exists trainingDF testDF,
    splitFrames df w = (Ret (trainingDF, testDF), w)
    /\ splitCounts (Nrow df) = (Nrow trainingDF, Nrow testDF)
    /\ Nrow trainingDF = Qceiling ((8 # 10) * inject_Z (Nrow df))
    /\ Nrow testDF = Nrow df - Nrow trainingDF
    /\ Nrow trainingDF + Nrow testDF = Nrow df
    /\ rows trainingDF ++ rows testDF = rows df
    /\ splitCounts 10 = (8, 2) /\ splitCounts 11 = (9, 2).
Proof.
  intros Herr Hn.
  assert (Hr : 0 <= Nrow df < 2 ^ 61) by (unfold Nrow, len in *; lia).
  assert (Hsum : (4 * Nrow df + 4) / 5 + Nrow df / 5 = Nrow df)
    by (clear -Hr; Z.div_mod_to_equations; lia).
  assert (Ht : 0 <= (4 * Nrow df + 4) / 5) by (apply Z.div_pos; lia).
  assert (He : 0 <= Nrow df / 5) by (apply Z.div_pos; lia).
  set (trainingDF := mkDF (columns df) (coltypes df) (trainingRows (rows df))
                          None).
  set (testDF := mkDF (columns df) (coltypes df) (testRows (rows df)) None).
  assert (Ntr : Nrow trainingDF = (4 * Nrow df + 4) / 5).
  { unfold Nrow, len in *. cbn [rows trainingDF]. unfold trainingRows, len.
    rewrite length_take. lia. }
  assert (Nte : Nrow testDF = Nrow df / 5).
  { unfold Nrow, len in *. cbn [rows testDF]. unfold testRows, len.
    rewrite length_drop. lia. }
  exists trainingDF, testDF.
  split; [apply (splitFrames_rows df w Herr Hn)|].
  rewrite Ntr, Nte, (splitCounts_closed _ Hr), ceil_four_fifths.
  repeat split; try reflexivity; try lia.
  apply take_drop.
Qed.

Lemma split_sizes_witness :
  exists trainingDF testDF,
    splitFrames advertDF11 emptyWorld
    = (Ret (trainingDF, testDF), emptyWorld)
    /\ splitCounts (Nrow advertDF11)
       = (Nrow trainingDF, Nrow testDF)
    /\ Nrow trainingDF
       = Qceiling ((8 # 10) * inject_Z (Nrow advertDF11))
    /\ Nrow testDF = Nrow advertDF11 - Nrow trainingDF
    /\ Nrow trainingDF + Nrow testDF = Nrow advertDF11
    /\ rows trainingDF ++ rows testDF = rows advertDF11
    /\ splitCounts 10 = (8, 2) /\ splitCounts 11 = (9, 2).
Proof.
  apply (@split_sizes Reference.gota advertDF11 emptyWorld).
  - reflexivity.
  - vm_compute. reflexivity.
Defined.

(** C4.  The splitter takes the rows in file order, without any random
    choice: the training indices are 0 .. trainingNum-1, the test indices
    trainingNum .. trainingNum+testNum-1, two disjoint contiguous ranges that
    together cover every row once; the two files written hold the first
    trainingNum rows and the rest.  What is written depends on the input file
    alone, so two runs on the same file write the same two files. *)
Theorem split_contiguous `{Gota} (source trainingPath testPath : string)
    (w : World) (f : list csv_line) :
  fs w !! source = Some f ->
  Err (ReadCSV f) = None ->
  Nrow (ReadCSV f) < 2 ^ 61 ->
  trainingPath ∉ readonly w ->
  testPath ∉ readonly w ->
  let df := ReadCSV f in
  let trainingNum := Z.to_nat (fst (splitCounts (Nrow df))) in
  let testNum := Z.to_nat (snd (splitCounts (Nrow df))) in
  let trainingIdx := Z.of_nat <$> seq 0 trainingNum in
  let testIdx := Z.of_nat <$> seq trainingNum testNum in
  splitIndices (Nrow df) w = (Ret (trainingIdx, testIdx), w)
  /\ trainingIdx ++ testIdx = Z.of_nat <$> seq 0 (length (rows df))
  /\ NoDup (trainingIdx ++ testIdx)
  /\ rows (Subset df trainingIdx) = take trainingNum (rows df)
  /\ rows (Subset df testIdx) = drop trainingNum (rows df)
  /\ splitData_at source trainingPath testPath w
     = (Ret tt,
        set_fs (<[testPath := Records (Subset df testIdx)]>
                (<[trainingPath := Records (Subset df trainingIdx)]> (fs w)))
               w)
  /\ forall w2 : World,
       fs w2 !! source = Some f ->
       trainingPath ∉ readonly w2 -> testPath ∉ readonly w2 ->
       fs (snd (splitData_at source trainingPath testPath w2)) !! trainingPath
       = fs (snd (splitData_at source trainingPath testPath w)) !! trainingPath
       /\ fs (snd (splitData_at source trainingPath testPath w2)) !! testPath
          = fs (snd (splitData_at source trainingPath testPath w)) !! testPath.
Proof.
  intros Hf Herr Hn Htr Hte df trainingNum testNum. fold df in Herr, Hn.
  assert (Hr : 0 <= Nrow df < 2 ^ 61) by (unfold Nrow, len in *; lia).
  assert (HtN : trainingNum = Z.to_nat ((4 * Nrow df + 4) / 5))
    by (unfold trainingNum; now rewrite (splitCounts_closed _ Hr)).
  assert (HeN : testNum = Z.to_nat (Nrow df / 5))
    by (unfold testNum; now rewrite (splitCounts_closed _ Hr)).
  clearbody trainingNum testNum. subst trainingNum testNum.
  set (n := Nrow df) in *.
  assert (Hsum : (4 * n + 4) / 5 + n / 5 = n)
    by (clear -Hr; Z.div_mod_to_equations; lia).
  assert (Ht : 0 <= (4 * n + 4) / 5) by (apply Z.div_pos; lia).
  assert (He : 0 <= n / 5) by (apply Z.div_pos; lia).
  set (t := Z.to_nat ((4 * n + 4) / 5)).
  set (e := Z.to_nat (n / 5)).
  assert (Hlen : (t + e)%nat = length (rows df)).
  { unfold t, e, n, Nrow, len in *. lia. }
  intros trainingIdx testIdx.
  assert (Hcover : trainingIdx ++ testIdx
                   = Z.of_nat <$> seq 0 (length (rows df))).
  { unfold trainingIdx, testIdx.
    rewrite <- fmap_app, <- Hlen. f_equal.
    symmetry. apply (seq_app t e 0). }
  assert (Htake : rows (Subset df trainingIdx) = take t (rows df)).
  { unfold Subset, trainingIdx. rewrite Herr.
    rewrite (select_range (rows df) t 0) by lia. now rewrite drop_0. }
  assert (Hdrop : rows (Subset df testIdx) = drop t (rows df)).
  { unfold Subset, testIdx. rewrite Herr.
    rewrite (select_range (rows df) e t) by lia. cbn [rows].
    apply take_ge. rewrite length_drop. lia. }
  assert (Hsub : forall idx rs, rows (Subset df idx) = rs ->
                   Err (Subset df idx) = None ->
                   Subset df idx = mkDF (columns df) (coltypes df) rs None).
  { intros idx rs <-. unfold Subset. rewrite Herr.
    destruct (mapM _ idx); [reflexivity|discriminate]. }
  assert (Hetr : Err (Subset df trainingIdx) = None).
  { unfold Subset, trainingIdx. rewrite Herr.
    now rewrite (select_range (rows df) t 0) by lia. }
  assert (Hete : Err (Subset df testIdx) = None).
  { unfold Subset, testIdx. rewrite Herr.
    now rewrite (select_range (rows df) e t) by lia. }
  assert (Hfiles : forall w0, fs w0 !! source = Some f ->
            trainingPath ∉ readonly w0 -> testPath ∉ readonly w0 ->
            splitData_at source trainingPath testPath w0
            = (Ret tt,
               set_fs (<[testPath := Records (Subset df testIdx)]>
                       (<[trainingPath := Records (Subset df trainingIdx)]>
                          (fs w0))) w0)).
  { intros w0 Hf0 Htr0 Hte0.
    rewrite (splitData_at_files source trainingPath testPath w0 f
               Hf0 Herr Hn Htr0 Hte0).
    fold df. rewrite (Hsub _ _ Htake Hetr), (Hsub _ _ Hdrop Hete).
    reflexivity. }
  split; [apply (splitIndices_ranges n w Hr)|].
  split; [exact Hcover|].
  split.
  { rewrite Hcover. apply NoDup_fmap_2; [intros ? ?; lia|apply NoDup_seq]. }
  split; [exact Htake|]. split; [exact Hdrop|].
  split; [apply Hfiles; assumption|].
  intros w2 Hf2 Htr2 Hte2.
  rewrite (Hfiles w Hf Htr Hte), (Hfiles w2 Hf2 Htr2 Hte2).
  cbn [snd set_fs fs].
  destruct (decide (testPath = trainingPath)) as [->|Hne].
  - rewrite !lookup_insert_eq. split; reflexivity.
  - rewrite !lookup_insert_eq.
    rewrite !(lookup_insert_ne _ testPath trainingPath) by assumption.
    rewrite !lookup_insert_eq. split; reflexivity.
Qed.

Lemma split_contiguous_witness :
  let df := advertDF11 in
  let trainingIdx := Z.of_nat <$> seq 0 9 in
  let testIdx := Z.of_nat <$> seq 9 2 in
  splitIndices 11 advertWorld = (Ret (trainingIdx, testIdx), advertWorld)
  /\ trainingIdx ++ testIdx = Z.of_nat <$> seq 0 11
  /\ NoDup (trainingIdx ++ testIdx)
  /\ rows (Subset df trainingIdx) = take 9 (rows df)
  /\ rows (Subset df testIdx) = drop 9 (rows df).
Proof.
  pose proof (@split_contiguous Reference.gota LinearRegression.dataset
                LinearRegression.trainingDataSet LinearRegression.testDataSet
                advertWorld advert11) as W.
  destruct W as (W1 & W2 & W3 & W4 & W5 & _).
  - reflexivity.
  - reflexivity.
  - vm_compute. reflexivity.
  - apply not_elem_of_empty.
  - apply not_elem_of_empty.
  - exact (conj W1 (conj W2 (conj W3 (conj W4 W5)))).
Defined.

(** ** Reading the regression files *)

Lemma index_nat {A} (l : list A) (i : Z) (k : nat) (w : World) :
  i = Z.of_nat k ->
  index l i w
  = match l !! k with Some a => (Ret a, w) | None => (Panic, w) end.
Proof.
  intros ->. unfold index. rewrite decide_True by lia. rewrite Nat2Z.id.
  now destruct (l !! k).
Qed.

Lemma index_Some {A} (l : list A) (i : Z) (a : A) (w : World) :
  0 <= i -> l !! Z.to_nat i = Some a -> index l i w = (Ret a, w).
Proof. intros Hi Ha. unfold index. rewrite decide_True by lia. now rewrite Ha. Qed.

Lemma store_ok {A} (l : list A) (i : Z) (v : A) (w : World) :
  0 <= i < len l -> store l i v w = (Ret (<[Z.to_nat i := v]> l), w).
Proof. intros Hi. unfold store. now rewrite decide_True by lia. Qed.

Lemma must_ok {A} (r : error + A) (w : World) :
  must r w = match r with
             | inr a => (Ret a, w)
             | inl e => (Fatal, set_logged (logged w ++ [LogFatal e]) w)
             end.
Proof. now destruct r. Qed.

Section RegressionFacts.
Context `{Strconv, Regression}.

Lemma train_body_step (i : Z) (record : list string) points (w : World) :
  i <> 0 ->
  match point_of record with
  | Some p => LinearRegression.train_body i record points w = (Ret (points ++ [p]), w)
  | None => forall x w', LinearRegression.train_body i record points w <> (Ret x, w')
  end.
Proof.
  intros Hi. unfold LinearRegression.train_body, point_of.
  rewrite decide_False by assumption.
  unfold bind.
  rewrite (index_nat record 3 3 w eq_refl).
  destruct (record !! 3%nat) as [s3|]; cbn; [|congruence].
  rewrite must_ok.
  destruct (ParseFloat s3) as [e|y]; cbn; [congruence|].
  rewrite (index_nat record 0 0 w eq_refl).
  destruct (record !! 0%nat) as [s0|]; cbn; [|congruence].
  rewrite must_ok.
  destruct (ParseFloat s0) as [e|x]; cbn; [congruence|].
  reflexivity.
Qed.

Lemma train_loop (rest : list (list string)) :
  forall (i : Z) points (w : World),
    0 < i ->
    match mapM point_of rest with
    | Some pts => range_from i rest LinearRegression.train_body points w
                  = (Ret (points ++ pts), w)
    | None => forall x w', range_from i rest LinearRegression.train_body points w <> (Ret x, w')
    end.
Proof.
  induction rest as [|record rest IH]; intros i points w Hi.
  - cbn. now rewrite app_nil_r.
  - cbn [mapM range_from].
    pose proof (train_body_step i record points w) as Hs.
    destruct (point_of record) as [p|]; cbn.
    + specialize (IH (i + 1) (points ++ [p]) w).
      rewrite (bind_ret _ _ w w _ (Hs ltac:(lia))).
      destruct (mapM point_of rest) as [pts|]; cbn.
      * rewrite IH by lia. now rewrite <- app_assoc.
      * apply IH. lia.
    + intros x w'. unfold bind.
      specialize (Hs ltac:(lia)).
      destruct (LinearRegression.train_body i record points w) as [[a| |] w1] eqn:E;
        [exfalso; eapply Hs; reflexivity|congruence|congruence].
Qed.

Lemma test_body_step (r : Model) (n i : Z) (record : list string)
    (mAE : float64) (w : World) :
  i <> 0 ->
  match observed_predicted r record with
  | Some op => LinearRegression.test_body r n i record mAE w
               = (Ret (mAE + abs_error op / float64_of_int n)%Q, w)
  | None => forall x w',
      LinearRegression.test_body r n i record mAE w <> (Ret x, w')
  end.
Proof.
  intros Hi. unfold LinearRegression.test_body, observed_predicted.
  rewrite decide_False by assumption.
  unfold bind.
  rewrite (index_nat record 3 3 w eq_refl).
  destruct (record !! 3%nat) as [s3|]; cbn; [|congruence].
  rewrite must_ok.
  destruct (ParseFloat s3) as [e|y]; cbn; [congruence|].
  rewrite (index_nat record 0 0 w eq_refl).
  destruct (record !! 0%nat) as [s0|]; cbn; [|congruence].
  rewrite must_ok.
  destruct (ParseFloat s0) as [e|x]; cbn; [congruence|].
  rewrite must_ok.
  destruct (Predict r [x]) as [e|p]; cbn; [congruence|].
  reflexivity.
Qed.

Lemma test_loop (r : Model) (n : Z) (rest : list (list string)) :
  forall (i : Z) (mAE : float64) (w : World),
    0 < i ->
    match mapM (observed_predicted r) rest with
    | Some ops =>
        range_from i rest (LinearRegression.test_body r n) mAE w
        = (Ret (fold_left
                  (fun acc op => (acc + abs_error op / float64_of_int n)%Q)
                  ops mAE), w)
    | None => forall x w',
        range_from i rest (LinearRegression.test_body r n) mAE w <> (Ret x, w')
    end.
Proof.
  induction rest as [|record rest IH]; intros i mAE w Hi.
  - reflexivity.
  - cbn [mapM range_from].
    pose proof (test_body_step r n i record mAE w) as Hs.
    destruct (observed_predicted r record) as [op|];
      cbn -[abs_error float64_of_int Qplus Qdiv].
    + specialize (IH (i + 1) (mAE + abs_error op / float64_of_int n)%Q w).
      rewrite (bind_ret _ _ w w _ (Hs ltac:(lia))).
      destruct (mapM (observed_predicted r) rest) as [ops|];
        cbn -[abs_error float64_of_int Qplus Qdiv].
      * now rewrite IH by lia.
      * apply IH. lia.
    + intros x w'. unfold bind.
      specialize (Hs ltac:(lia)).
      destruct (LinearRegression.test_body r n i record mAE w)
        as [[a| |] w1] eqn:E;
        [exfalso; eapply Hs; reflexivity|congruence|congruence].
Qed.

Lemma train_points_header (header : list string) rest (w : World) :
  LinearRegression.train_points (header :: rest) w
  = range_from 1 rest LinearRegression.train_body [] w.
Proof. reflexivity. Qed.

Lemma test_mAE_header (r : Model) (header : list string) rest (w : World) :
  LinearRegression.test_mAE r (header :: rest) w
  = range_from 1 rest
      (LinearRegression.test_body r (len (header :: rest))) 0%Q w.
Proof. reflexivity. Qed.

(** C10.  The record at index 0 gives no data point to the fit and no term to
    the error: [train] hands over exactly the points of the records at index
    1 and above, in order, [test] adds exactly their absolute errors, and
    neither result depends on what the header record holds. *)
Theorem header_row_excluded (r : Model) (header : list string)
    (rest : list (list string)) (w : World) :
  (forall pts w',
      LinearRegression.train_points (header :: rest) w = (Ret pts, w')
      <-> w' = w /\ mapM point_of rest = Some pts)
  /\ (forall mAE w',
        LinearRegression.test_mAE r (header :: rest) w = (Ret mAE, w')
        <-> w' = w
            /\ exists ops,
                 mapM (observed_predicted r) rest = Some ops
                 /\ mAE = fold_left
                            (fun acc op =>
                               (acc + abs_error op
                                      / float64_of_int (len (header :: rest)))%Q)
                            ops 0%Q)
  /\ (forall header' : list string,
        LinearRegression.train_points (header' :: rest) w
        = LinearRegression.train_points (header :: rest) w
        /\ LinearRegression.test_mAE r (header' :: rest) w
           = LinearRegression.test_mAE r (header :: rest) w).
Proof.
  split; [|split].
  - intros pts w'. rewrite train_points_header.
    pose proof (train_loop rest 1 [] w ltac:(lia)) as L.
    destruct (mapM point_of rest) as [pts0|].
    + rewrite L. cbn. split.
      * intros [= <- <-]. now split.
      * intros [-> [= ->]]. reflexivity.
    + split; [intros E; now apply L in E|intros [_ [=]]].
  - intros mAE w'. rewrite test_mAE_header.
    pose proof (test_loop r (len (header :: rest)) rest 1 0%Q w ltac:(lia))
      as L.
    destruct (mapM (observed_predicted r) rest) as [ops0|].
    + rewrite L. split.
      * intros [= <- <-]. split; [reflexivity|]. now exists ops0.
      * intros [-> (ops & [= <-] & ->)]. reflexivity.
    + split; [intros E; now apply L in E|intros [_ (ops & [=] & _)]].
  - intros header'. split; [reflexivity|].
    rewrite !test_mAE_header. reflexivity.
Qed.
End RegressionFacts.

(** ** The mean absolute error *)

Lemma mae_fold (d : Q) (ops : list (float64 * float64)) :
  forall m : Q,
    (fold_left (fun acc op => acc + abs_error op / d) ops m
     == m + Qsum (abs_error <$> ops) / d)%Q.
Proof.
  induction ops as [|op ops IH]; intros m; cbn [fold_left fmap list_fmap].
  - unfold Qsum. cbn. unfold Qdiv. ring.
  - rewrite IH. unfold Qsum. cbn [foldr]. unfold Qdiv. ring.
Qed.

(** What [test] computes: the sum of the absolute errors of the data rows
    over the number of records, the header record included. *)
Lemma test_mAE_value `{Strconv, Regression} (r : Model)
    (header : list string) (rest : list (list string)) (w w' : World)
    (mAE : float64) :
  LinearRegression.test_mAE r (header :: rest) w = (Ret mAE, w') ->
  exists ops,
    mapM (observed_predicted r) rest = Some ops
    /\ length ops = length rest
    /\ (mAE == Qsum (abs_error <$> ops) / inject_Z (len rest + 1))%Q.
Proof.
  intros E. rewrite test_mAE_header in E.
  pose proof (test_loop r (len (header :: rest)) rest 1 0%Q w ltac:(lia)) as L.
  destruct (mapM (observed_predicted r) rest) as [ops|] eqn:Hops;
    [|now apply L in E].
  rewrite L in E. injection E as <- <-.
  exists ops. split; [reflexivity|]. split.
  - apply length_mapM in Hops. congruence.
  - rewrite mae_fold. unfold float64_of_int, len. cbn [length].
    rewrite Nat2Z.inj_succ, <- Z.add_1_r. ring.
Qed.

(** C2, at a test file with one data row (observed 2, predicted 0): the
    mean absolute error is 2, and [test] prints 1.00, the error divided by
    the two records of the file. *)
Theorem test_divides_by_record_count :
  @LinearRegression.test Reference.strconv Reference.regression
     flatModel oneRowWorld
  = (Ret tt, set_stdout ["MAE = 1.00" +:+ NL +:+ NL] oneRowWorld)
  /\ mapM (@observed_predicted Reference.strconv Reference.regression
             flatModel) [["0"; "0"; "0"; "2"]]
     = Some [(2%Q, 0%Q)]
  /\ (mean_absolute_error [(2%Q, 0%Q)] == 2)%Q
  /\ @FormatFloat Reference.strconv (mean_absolute_error [(2%Q, 0%Q)]) 2
     = "2.00".
Proof.
  split; [vm_compute; reflexivity|].
  split; [vm_compute; reflexivity|].
  split; [vm_compute; reflexivity|].
  vm_compute; reflexivity.
Qed.

(** ** The loan-data cleaner *)

Lemma strings_Split_head (s : string) (sep : ascii) :
  exists lo rest, strings_Split s sep = lo :: rest.
Proof.
  induction s as [|c s IH]; cbn; [eauto|].
  case_decide; [eauto|].
  destruct IH as (lo & rest & ->). eauto.
Qed.

Section CleanerFacts.
Context `{Strconv}.

Lemma cleanRecord_ok (record : list string) (w : World)
    (f0 f1 lo : string) (score rate : float64) :
  record !! 0%nat = Some f0 ->
  record !! 1%nat = Some f1 ->
  head (strings_Split f0 "-") = Some lo ->
  ParseFloat lo = inr score ->
  ParseFloat (strings_TrimSuffix f1 "%") = inr rate ->
  LogisticRegression.cleanRecord record w
  = (Ret [FormatFloat (LogisticRegression.normalize score) 4;
          if Qle_bool rate 12 then "1.0" else "0.0"], w).
Proof.
  intros H0 H1 Hlo Hs Hr. unfold LogisticRegression.cleanRecord, bind.
  rewrite (index_nat record 0 0 w eq_refl), H0.
  rewrite (index_nat _ 0 0 w eq_refl).
  destruct (strings_Split f0 "-") as [|lo' rest]; [discriminate|].
  injection Hlo as ->. cbn [lookup list_lookup].
  rewrite must_ok, Hs.
  unfold store at 1. rewrite decide_True by (unfold len; cbn; lia).
  cbn [ret]. rewrite (index_nat record 1 1 w eq_refl), H1.
  rewrite must_ok, Hr.
  destruct (Qle_bool rate 12); unfold store;
    rewrite decide_True by (unfold len; rewrite length_insert; cbn; lia);
    reflexivity.
Qed.

End CleanerFacts.

(** ** The gradient-descent trainer *)

Lemma flat_row (rows : list (float64 * float64)) :
  forall (k : nat) (f0 f1 : float64),
    rows !! k = Some (f0, f1) ->
    take 2 (drop (2 * k) (flat rows)) = [f0; f1].
Proof.
  induction rows as [|r rows IH]; intros k f0 f1 Hk; [discriminate|].
  destruct k as [|k].
  - injection Hk as ->. reflexivity.
  - replace (2 * S k)%nat with (S (S (2 * k))) by lia.
    cbn [flat flat_map app drop]. apply IH. exact Hk.
Qed.

Section TrainerFacts.
Context `{Math, ExpRand}.

Lemma weight_step (weights featureRow : list float64) (j : Z)
    (c wj fj : float64) (w : World) :
  0 <= j ->
  weights !! Z.to_nat j = Some wj ->
  featureRow !! Z.to_nat j = Some fj ->
  (let* wj := index weights j in
   let* fj := index featureRow j in
   store weights j (wj + c * fj)%Q) w
  = (Ret (<[Z.to_nat j := (wj + c * fj)%Q]> weights), w).
Proof.
  intros Hj Hw Hf.
  erewrite bind_ret by (apply index_Some; eassumption).
  erewrite bind_ret by (apply index_Some; eassumption).
  apply store_ok. apply lookup_lt_Some in Hw. unfold len. lia.
Qed.

Lemma updateRow_ok (rows : list (float64 * float64)) (learningRate : float64)
    (k : nat) (label sumError : float64) (ws : float64 * float64)
    (f0 f1 : float64) (w : World) :
  rows !! k = Some (f0, f1) ->
  exists sumError',
    LogisticRegression.updateRow (dense2 rows) learningRate (Z.of_nat k) label
      (weights_of ws, sumError) w
    = (Ret (weights_of (gd_row learningRate ws (f0, f1, label)), sumError'),
       w).
Proof.
  intros Hk. destruct ws as [w0 w1].
  eexists. unfold LogisticRegression.updateRow, weights_of. cbn [fst snd].
  unfold bind at 1. unfold mat64_Row, dense2. cbn [mrows mcols mdata].
  rewrite decide_True
    by (apply lookup_lt_Some in Hk; unfold len; lia).
  replace (Z.to_nat (Z.of_nat k * 2)) with (2 * k)%nat by lia.
  change (Z.to_nat 2) with 2%nat.
  rewrite (flat_row rows k f0 f1 Hk). cbn [ret].
  do 4 (erewrite bind_ret by (apply index_Some; [lia|reflexivity])).
  erewrite bind_ret; [reflexivity|].
  unfold for_upto_M.
  change (Z.to_nat (len [f0; f1])) with 2%nat. cbn [count_from_M].
  erewrite bind_ret;
    [|apply (weight_step _ _ 0 _ w0 f0); [lia|reflexivity|reflexivity]].
  erewrite bind_ret;
    [|apply (weight_step _ _ (0 + 1) _ w1 f1); [lia|reflexivity|reflexivity]].
  reflexivity.
Qed.

Lemma epoch_ok (rows : list (float64 * float64)) (learningRate : float64)
    (w : World) (labels : list float64) :
  forall (k : nat) (ws : float64 * float64) (sumError : float64),
    (k + length labels <= length rows)%nat ->
    exists sumError',
      range_from (Z.of_nat k) labels
        (LogisticRegression.updateRow (dense2 rows) learningRate)
        (weights_of ws, sumError) w
      = (Ret (weights_of
                (gd_epoch learningRate (zip (drop k rows) labels) ws),
              sumError'), w).
Proof.
  induction labels as [|label labels IH]; intros k ws sumError Hlen.
  - exists sumError. cbn [range_from]. unfold gd_epoch.
    now rewrite zip_with_nil_r.
  - cbn [length] in Hlen.
    destruct (lookup_lt_is_Some_2 rows k) as [[f0 f1] Hk]; [lia|].
    destruct (updateRow_ok rows learningRate k label sumError ws f0 f1 w Hk)
      as [se1 Hstep].
    destruct (IH (S k) (gd_row learningRate ws (f0, f1, label)) se1
                ltac:(lia)) as [se2 Hrest].
    exists se2. cbn [range_from].
    rewrite (bind_ret _ _ w w _ Hstep).
    replace (Z.of_nat k + 1) with (Z.of_nat (S k)) by lia.
    rewrite Hrest. rewrite (drop_S rows (f0, f1) k Hk). reflexivity.
Qed.

Lemma descend_ok (rows : list (float64 * float64)) (labels : list float64)
    (learningRate : float64) (w : World) (fuel : nat) :
  length rows = length labels ->
  forall (i : Z) (ws : float64 * float64),
    count_from_M i fuel
      (fun _ weights =>
         let* st := range labels
                      (LogisticRegression.updateRow (dense2 rows) learningRate)
                      (weights, 0%Q) in
         ret (fst st)) (weights_of ws) w
    = (Ret (weights_of
              (Nat.iter fuel (gd_epoch learningRate (zip rows labels)) ws)),
       w).
Proof.
  intros Hlen. induction fuel as [|fuel IH]; intros i ws; [reflexivity|].
  cbn [count_from_M].
  destruct (epoch_ok rows learningRate w labels 0 ws 0%Q ltac:(cbn; lia))
    as [se Hepoch].
  rewrite drop_0 in Hepoch. unfold range.
  erewrite bind_ret;
    [|erewrite bind_ret by exact Hepoch; reflexivity].
  cbn [fst]. rewrite IH. now rewrite Nat.iter_succ_r.
Qed.

Lemma initial_weights (w : World) :
  (let* weights := make 0%Q 2 in
   let* seed := time_Now_UnixNano in
   range weights
     (fun idx _ ws => store ws idx (Float64 seed (Z.to_nat idx))) weights) w
  = (Ret (weights_of (Float64 (clock w) 0, Float64 (clock w) 1)), w).
Proof. reflexivity. Qed.

End TrainerFacts.

(** The slices [train] fills for a file with two data rows: the features
    start at row 0 of the matrix, the labels at index 1 (the index of the
    record), and the matrix has one row more than there are data rows. *)
Example train_slices :
  fst (range loanTraining2
         (@LogisticRegression.train_body Reference.strconv)
         (replicate 6 0%Q, replicate 3 0%Q, 0) emptyWorld)
  = Ret ([(1 # 2)%Q; 1%Q; (1 # 5)%Q; 1%Q; 0%Q; 0%Q], [0%Q; 1%Q; 0%Q], 4).
Proof. vm_compute. reflexivity. Qed.

(** ** Seeding in the golearn drivers *)

Section SeedFacts.
Context `{Strconv, Math, Golearn}.



End SeedFacts.


(** ** The evaluation of the loan model *)

Lemma set_logged_same (w : World) : set_logged (logged w) w = w.
Proof. now destruct w. Qed.

Lemma hits_cons (o p : float64) (ops : list (float64 * float64)) :
  hits ((o, p) :: ops) = (if Qeq_bool o p then 1 else 0) + hits ops.
Proof.
  unfold hits, len. rewrite filter_cons. cbn [fst snd].
  destruct (Qeq_bool o p); case_decide; try congruence; cbn [length].
  - rewrite Nat2Z.inj_succ, <- Z.add_1_l. reflexivity.
  - reflexivity.
Qed.

Lemma hits_bounds (ops : list (float64 * float64)) : 0 <= hits ops <= len ops.
Proof.
  unfold hits, len. split; [apply Nat2Z.is_nonneg|].
  apply Nat2Z.inj_le, length_filter.
Qed.

Section EvaluationFacts.
Context `{Strconv, Math, Float64Ops}.

Lemma read_body_step (i line : Z) (ln : csv_line)
    (observed predicted : list float64) (w : World) :
  line <> 1 -> -2 ^ 63 <= line < 2 ^ 63 - 1 ->
  (2 <= length (line_fields ln))%nat ->
  LogisticRegression.read_body i ln (line, observed, predicted) w
  = match evalRow ln with
    | Some op => (Ret (line + 1, observed ++ [fst op], predicted ++ [snd op]),
                  w)
    | None =>
        (Ret (line, observed, predicted),
         set_logged
           (logged w
            ++ [LogPrintf "Parsing line %d failed, unexpected type" line]) w)
    end.
Proof.
  intros Hl Hr Hf. unfold LogisticRegression.read_body, evalRow.
  rewrite decide_False by assumption.
  destruct (lookup_lt_is_Some_2 (line_fields ln) 1) as [s1 E1]; [lia|].
  destruct (lookup_lt_is_Some_2 (line_fields ln) 0) as [s0 E0]; [lia|].
  rewrite E1. cbn [mbind option_bind]. 
  erewrite bind_ret by (apply index_Some; [lia|exact E1]).
  destruct (ParseFloat s1) as [e|observedVal]; cbn [ok mbind option_bind];
    [reflexivity|].
  rewrite E0. cbn [mbind option_bind].
  erewrite bind_ret by (apply index_Some; [lia|exact E0]).
  destruct (ParseFloat s0) as [e|score]; cbn [ok mbind option_bind];
    [reflexivity|].
  unfold ret, int_add. rewrite wrap64_id by lia. reflexivity.
Qed.

Lemma kept_cons (ln : csv_line) (rest : list csv_line) :
  kept (ln :: rest)
  = match evalRow ln with Some op => op :: kept rest | None => kept rest end.
Proof. reflexivity. Qed.

Lemma read_loop (rest : list csv_line) :
  forall (i line : Z) (observed predicted : list float64) (w : World),
    2 <= line -> line + len rest < 2 ^ 63 ->
    Forall (fun ln => (2 <= length (line_fields ln))%nat) rest ->
    range_from i rest LogisticRegression.read_body
      (line, observed, predicted) w
    = (Ret (line + len (kept rest),
            observed ++ (fst <$> kept rest),
            predicted ++ (snd <$> kept rest)),
       set_logged (logged w ++ skip_log line rest) w).
Proof.
  induction rest as [|ln rest IH];
    intros i line observed predicted w Hl Hb Hf.
  - cbn [range_from kept omap skip_log fmap list_fmap len length Z.of_nat].
    rewrite !app_nil_r, Z.add_0_r, set_logged_same. reflexivity.
  - inversion Hf as [|? ? Hln Hrest]; subst.
    unfold len in Hb. cbn [length] in Hb.
    cbn [range_from].
    pose proof (read_body_step i line ln observed predicted w
                  ltac:(lia) ltac:(lia) Hln) as Hs.
    rewrite kept_cons. cbn [skip_log].
    destruct (evalRow ln) as [[o p]|]; cbn [fst snd] in Hs |- *;
      rewrite (bind_ret _ _ _ _ _ Hs).
    + rewrite IH by (try assumption; unfold len; lia).
      cbn [fmap list_fmap fst snd].
      rewrite <- !app_assoc. cbn [app]. do 4 f_equal.
      unfold len. cbn [length]. lia.
    + rewrite IH by (try assumption; unfold len; lia).
      cbn [logged set_logged].
      rewrite <- app_assoc. reflexivity.
Qed.

Lemma count_body_step (predicted : list float64) (idx : Z)
    (oVal p : float64) (c : Z) (w : World) :
  0 <= idx -> predicted !! Z.to_nat idx = Some p ->
  LogisticRegression.count_body predicted idx oVal c w
  = (Ret (if Qeq_bool oVal p then int_add c 1 else c), w).
Proof.
  intros Hi Hp. unfold LogisticRegression.count_body.
  erewrite bind_ret by (apply index_Some; eassumption).
  now destruct (Qeq_bool oVal p).
Qed.

Lemma count_loop (todo : list (float64 * float64)) :
  forall (done : list (float64 * float64)) (c : Z) (w : World),
    0 <= c -> c + len todo < 2 ^ 63 ->
    range_from (len done) (fst <$> todo)
      (LogisticRegression.count_body (snd <$> (done ++ todo))) c w
    = (Ret (c + hits todo), w).
Proof.
  induction todo as [|[o p] todo IH]; intros done c w Hc Hb.
  - cbn. unfold hits, len. cbn. now rewrite Z.add_0_r.
  - unfold len in Hb. cbn [length] in Hb.
    cbn [fmap list_fmap range_from fst].
    erewrite bind_ret.
    2:{ apply (count_body_step _ _ o p); [unfold len; lia|].
        unfold len. rewrite Nat2Z.id, list_lookup_fmap.
        rewrite lookup_app_r by lia. rewrite Nat.sub_diag. reflexivity. }
    replace (len done + 1) with (len (done ++ [(o, p)]))
      by (unfold len; rewrite length_app; cbn; lia).
    replace (done ++ (o, p) :: todo) with ((done ++ [(o, p)]) ++ todo)
      by now rewrite <- app_assoc.
    rewrite hits_cons.
    pose proof (hits_bounds todo) as Hh.
    specialize (IH (done ++ [(o, p)])). cbn [fmap] in IH.
    destruct (Qeq_bool o p).
    + unfold int_add. rewrite wrap64_id by lia.
      rewrite IH by (unfold len; lia). do 2 f_equal. lia.
    + rewrite IH by (unfold len; lia). do 2 f_equal.
Qed.
End EvaluationFacts.

(** ** Aborting on a malformed record *)

Lemma csv_records_width (ls : list csv_line) :
  forall (n : nat) (rs : list (list string)),
    (0 < n)%nat -> csv_records n ls = inr rs ->
    Forall (fun r => length r = n) rs.
Proof.
  induction ls as [|[r|p] ls IH]; intros n rs Hn E; cbn in E.
  - injection E as <-. constructor.
  - destruct n as [|n]; [lia|].
    case_decide as Hr; [|discriminate].
    destruct (csv_records (S n) ls) as [e|rs'] eqn:E'; [discriminate|].
    injection E as <-. constructor; [assumption|].
    apply (IH (S n)); [lia|assumption].
  - discriminate.
Qed.

Section AbortFacts.
Context `{Strconv, Regression}.

Lemma train_body_abort (i : Z) (record : list string)
    (points : list (float64 * list float64)) (w : World) :
  i <> 0 -> length record = 4%nat -> point_of record = None ->
  aborts (LinearRegression.train_body i record points) w w.
Proof.
  intros Hi Hlen Hp. unfold aborts, LinearRegression.train_body.
  rewrite decide_False by assumption.
  destruct (lookup_lt_is_Some_2 record 3) as [s3 E3]; [lia|].
  destruct (lookup_lt_is_Some_2 record 0) as [s0 E0]; [lia|].
  unfold point_of in Hp. rewrite E3 in Hp. cbn [mbind option_bind] in Hp.
  erewrite bind_ret by (apply index_Some; [lia|exact E3]).
  destruct (ParseFloat s3) as [e|y] eqn:P3.
  { exists e. reflexivity. }
  cbn [ok mbind option_bind] in Hp. rewrite E0 in Hp.
  cbn [mbind option_bind] in Hp.
  erewrite bind_ret by reflexivity.
  erewrite bind_ret by (apply index_Some; [lia|exact E0]).
  destruct (ParseFloat s0) as [e|x] eqn:P0; [|discriminate].
  exists e. reflexivity.
Qed.

Lemma train_loop_abort (rest : list (list string)) :
  forall (i : Z) (points : list (float64 * list float64)) (w : World),
    0 < i -> Forall (fun r => length r = 4%nat) rest ->
    mapM point_of rest = None ->
    aborts (range_from i rest LinearRegression.train_body points) w w.
Proof.
  induction rest as [|record rest IH]; intros i points w Hi Hf Hm;
    [discriminate|].
  inversion Hf as [|? ? Hlen Hrest]; subst.
  cbn [mapM] in Hm. cbn [range_from]. unfold aborts.
  pose proof (train_body_step i record points w ltac:(lia)) as Hs.
  destruct (point_of record) as [p|] eqn:Hp.
  - rewrite (bind_ret _ _ _ _ _ Hs).
    apply IH; [lia|assumption|].
    cbn [mbind option_bind] in Hm.
    destruct (mapM point_of rest); [discriminate|reflexivity].
  - destruct (train_body_abort i record points w ltac:(lia) Hlen Hp)
      as [e He].
    exists e. unfold bind. now rewrite He.
Qed.

Lemma test_body_abort (r : Model) (n i : Z) (record : list string)
    (mAE : float64) (w : World) :
  i <> 0 -> length record = 4%nat -> observed_predicted r record = None ->
  aborts (LinearRegression.test_body r n i record mAE) w w.
Proof.
  intros Hi Hlen Hp. unfold aborts, LinearRegression.test_body.
  rewrite decide_False by assumption.
  destruct (lookup_lt_is_Some_2 record 3) as [s3 E3]; [lia|].
  destruct (lookup_lt_is_Some_2 record 0) as [s0 E0]; [lia|].
  unfold observed_predicted in Hp. rewrite E3 in Hp.
  cbn [mbind option_bind] in Hp.
  erewrite bind_ret by (apply index_Some; [lia|exact E3]).
  destruct (ParseFloat s3) as [e|y] eqn:P3.
  { exists e. reflexivity. }
  cbn [ok mbind option_bind] in Hp. rewrite E0 in Hp.
  cbn [mbind option_bind] in Hp.
  erewrite bind_ret by reflexivity.
  erewrite bind_ret by (apply index_Some; [lia|exact E0]).
  destruct (ParseFloat s0) as [e|x] eqn:P0.
  { exists e. reflexivity. }
  cbn [ok mbind option_bind] in Hp.
  erewrite bind_ret by reflexivity.
  destruct (Predict r [x]) as [e|p] eqn:Pp; [|discriminate].
  exists e. reflexivity.
Qed.

Lemma test_loop_abort (r : Model) (n : Z) (rest : list (list string)) :
  forall (i : Z) (mAE : float64) (w : World),
    0 < i -> Forall (fun r => length r = 4%nat) rest ->
    mapM (observed_predicted r) rest = None ->
    aborts (range_from i rest (LinearRegression.test_body r n) mAE) w w.
Proof.
  induction rest as [|record rest IH]; intros i mAE w Hi Hf Hm;
    [discriminate|].
  inversion Hf as [|? ? Hlen Hrest]; subst.
  cbn [mapM] in Hm. cbn [range_from]. unfold aborts.
  pose proof (test_body_step r n i record mAE w ltac:(lia)) as Hs.
  destruct (observed_predicted r record) as [op|] eqn:Hp.
  - rewrite (bind_ret _ _ _ _ _ Hs).
    apply IH; [lia|assumption|].
    cbn [mbind option_bind] in Hm.
    destruct (mapM (observed_predicted r) rest); [discriminate|reflexivity].
  - destruct (test_body_abort r n i record mAE w ltac:(lia) Hlen Hp)
      as [e He].
    exists e. unfold bind. now rewrite He.
Qed.

(** The linear-regression [test] stops on the first record it cannot read. *)
Lemma linear_test_aborts (r : Model) (w : World) (f : list csv_line)
    (header : list string) (recs : list (list string)) :
  fs w !! LinearRegression.testDataSet = Some f ->
  csv_ReadAll 4 f = inr (header :: recs) ->
  mapM (observed_predicted r) recs = None ->
  aborts (LinearRegression.test r) w w.
Proof.
  intros Hf Hcsv Hm. unfold LinearRegression.test.
  pose proof (csv_records_width f 4 _ ltac:(lia) Hcsv) as Hw.
  inversion Hw as [|? ? _ Hrest]; subst.
  destruct (test_loop_abort r (len (header :: recs)) recs 1 0%Q w
              ltac:(lia) Hrest Hm) as [e He].
  exists e. unfold bind, os_Open. rewrite Hf. cbn [must ret].
  rewrite Hcsv. cbn [must ret].
  rewrite test_mAE_header, He. reflexivity.
Qed.
End AbortFacts.

(** ** Rows with unparsable fields at evaluation *)

Section ToleranceFacts.
Context `{Strconv, Math, Float64Ops}.

Lemma skip_or_keep (rest : list csv_line) :
  forall line : Z,
    (length (skip_log line rest) + length (kept rest))%nat = length rest.
Proof.
  induction rest as [|ln rest IH]; intros line; [reflexivity|].
  rewrite kept_cons. cbn [skip_log].
  destruct (evalRow ln); cbn [length].
  - rewrite Nat.add_succ_r. f_equal. apply IH.
  - cbn [Nat.add]. f_equal. apply IH.
Qed.

Lemma kept_length (rest : list csv_line) : len (kept rest) <= len rest.
Proof.
  unfold len. apply Nat2Z.inj_le.
  rewrite <- (skip_or_keep rest 2). apply Nat.le_add_l.
Qed.

Lemma accuracy_printed (ops : list (float64 * float64)) :
  fmt_f (float64_div (float64_of_int (hits ops)) (float64_of_int (len ops))) 2
  = accuracy_text ops.
Proof.
  unfold float64_div, float64_of_int, accuracy_text.
  destruct ops as [|op ops]; [reflexivity|].
  assert (E : Qeq_bool (inject_Z (len (op :: ops))) 0 = false).
  { apply not_true_is_false. intros E. apply Qeq_bool_iff in E.
    unfold Qeq, len in E. cbn in E. lia. }
  rewrite E. reflexivity.
Qed.

Lemma logistic_test_ok (w : World) (header : csv_line)
    (rest : list csv_line) :
  fs w !! LogisticRegression.testDataSet = Some (header :: rest) ->
  Forall (fun ln => (2 <= length (line_fields ln))%nat) rest ->
  len rest < 2 ^ 62 ->
  LogisticRegression.test w
  = (Ret tt,
     set_stdout
       (stdout w
        ++ [NL +:+ "Accuracy = " +:+ accuracy_text (kept rest)
            +:+ NL +:+ NL])
       (set_logged (logged w ++ skip_log 2 rest) w)).
Proof.
  intros Hf Hw Hn. unfold LogisticRegression.test.
  unfold bind at 1. unfold os_Open. rewrite Hf.
  unfold bind at 1. cbn [must ret].
  unfold LogisticRegression.readLoop, range. cbn [range_from].
  erewrite bind_ret.
  2:{ erewrite bind_ret by reflexivity.
      change (int_add 1 1) with 2.
      apply (read_loop rest (0 + 1) 2 [] [] w); [lia|lia|assumption]. }
  cbn [app].
  unfold LogisticRegression.countCorrect, range.
  pose proof (kept_length rest) as Hk.
  erewrite bind_ret.
  2:{ apply (count_loop (kept rest) [] 0); lia. }
  rewrite Z.add_0_l. unfold len at 1. rewrite length_fmap.
  fold (len (kept rest)). rewrite accuracy_printed. reflexivity.
Qed.
End ToleranceFacts.

(** C3 (as amended).  In the evaluation of the loan model a data row (with
    its two fields) whose label or score does not parse is logged and left
    out, and the run goes on: the accuracy printed is that of the rows that
    parse (NaN when there is none), and every row is either among them or
    has its log line.  The evaluation of the advertising model is not
    tolerant: it stops in log.Fatal on such a row. *)
Theorem evaluation_tolerance `{Strconv, Math, Float64Ops, Regression}
    (w : World) (header : csv_line) (rest : list csv_line)
    (r : Model) (w0 : World) (f : list csv_line) (header0 : list string)
    (recs : list (list string)) :
  fs w !! LogisticRegression.testDataSet = Some (header :: rest) ->
  Forall (fun ln => (2 <= length (line_fields ln))%nat) rest ->
  len rest < 2 ^ 62 ->
  fs w0 !! LinearRegression.testDataSet = Some f ->
  csv_ReadAll 4 f = inr (header0 :: recs) ->
  mapM (observed_predicted r) recs = None ->
  LogisticRegression.test w
  = (Ret tt,
     set_stdout
       (stdout w
        ++ [NL +:+ "Accuracy = " +:+ accuracy_text (kept rest)
            +:+ NL +:+ NL])
       (set_logged (logged w ++ skip_log 2 rest) w))
  /\ (length (skip_log 2 rest) + length (kept rest))%nat = length rest
  /\ aborts (LinearRegression.test r) w0 w0.
Proof.
  intros Hf Hw Hn Hf0 Hcsv Hm. split; [|split].
  - apply (logistic_test_ok w header rest); assumption.
  - apply skip_or_keep.
  - apply (linear_test_aborts r w0 f header0 recs); assumption.
Qed.

Lemma evaluation_tolerance_witness :
  @LogisticRegression.test Reference.strconv Reference.math
     Reference.float64ops loanTestWorld
  = (Ret tt,
     set_stdout [NL +:+ "Accuracy = 1.00" +:+ NL +:+ NL]
       (set_logged [LogPrintf "Parsing line %d failed, unexpected type" 3]
          loanTestWorld))
  /\ aborts (@LinearRegression.test Reference.strconv Reference.regression
               flatModel) badSalesWorld badSalesWorld.
Proof.
  destruct (@evaluation_tolerance Reference.strconv Reference.math
              Reference.float64ops Reference.regression loanTestWorld
              (Fields ["FICO.Range"; "Interest.Rate"]) (tail loanTest)
              flatModel badSalesWorld badSalesTest
              ["TV"; "Radio"; "Newspaper"; "Sales"]
              [["10"; "0"; "0"; "abc"]; ["0"; "0"; "0"; "2"]])
    as (W1 & _ & W3).
  - reflexivity.
  - repeat constructor.
  - vm_compute. reflexivity.
  - reflexivity.
  - reflexivity.
  - reflexivity.
  - split; [|exact W3]. rewrite W1. vm_compute. reflexivity.
Defined.

(** C3 as stated fails for the advertising model: on a test file whose
    first data row has no number for Sales, [test] stops with exit status 1
    after logging the parse error, and prints no metric. *)
Lemma linear_test_stops_at_bad_row :
  @LinearRegression.test Reference.strconv Reference.regression
     flatModel badSalesWorld
  = (Fatal, set_logged [LogFatal (ErrSyntax "abc")] badSalesWorld)
  /\ exit_status (fst (@LinearRegression.test Reference.strconv
                         Reference.regression flatModel badSalesWorld)) = 1
  /\ stdout (snd (@LinearRegression.test Reference.strconv
                    Reference.regression flatModel badSalesWorld)) = [].
Proof. repeat split; vm_compute; reflexivity. Qed.

(** ** Failures that end the run *)

Lemma open_missing {A} (path : string) (k : list csv_line -> M A) (w : World) :
  fs w !! path = None ->
  aborts (let* o := os_Open path in let* f := must o in k f) w w.
Proof.
  intros Hf. exists (ErrOpen path). unfold bind, os_Open. now rewrite Hf.
Qed.

Lemma os_Open_present (path : string) (w : World) (f : list csv_line) :
  fs w !! path = Some f -> os_Open path w = (Ret (inr f), w).
Proof. intros Hf. unfold os_Open. now rewrite Hf. Qed.

(** Steps over [f, err := os.Open(path)] and its error check. *)
Ltac open_file Hf :=
  erewrite bind_ret by (apply os_Open_present; exact Hf);
  erewrite bind_ret by reflexivity.

Section LinearAbort.
Context `{Strconv, Gota, Plot, Regression}.

(** [train] of the advertising script: a file that does not parse, or a
    record whose Sales or TV field is not a number. *)
Lemma linear_train_csv (w : World) (f : list csv_line) (e : error) :
  fs w !! LinearRegression.trainingDataSet = Some f ->
  csv_ReadAll 4 f = inl e ->
  aborts LinearRegression.train w w.
Proof.
  intros Hf Hc. unfold aborts, LinearRegression.train.
  open_file Hf. rewrite Hc. exists e. reflexivity.
Qed.

Lemma linear_train_field (w : World) (f : list csv_line)
    (header : list string) (rest : list (list string)) :
  fs w !! LinearRegression.trainingDataSet = Some f ->
  csv_ReadAll 4 f = inr (header :: rest) ->
  mapM point_of rest = None ->
  aborts LinearRegression.train w w.
Proof.
  intros Hf Hc Hm.
  pose proof (csv_records_width f 4 _ ltac:(lia) Hc) as Hw.
  inversion Hw as [|? ? _ Hrest]; subst.
  destruct (train_loop_abort rest 1 [] w ltac:(lia) Hrest Hm) as [e He].
  exists e. unfold LinearRegression.train.
  open_file Hf. rewrite Hc.
  erewrite bind_ret by reflexivity.
  rewrite <- (train_points_header header) in He.
  unfold bind. now rewrite He.
Qed.

(** The profiling stage of the advertising script does not look at the
    error of the dataframe it loads. *)
Lemma linear_profiling_load_failure (w : World) (f : list csv_line)
    (e : error) :
  fs w !! LinearRegression.dataset = Some f ->
  csv_ReadAll 0 f = inl e ->
  LinearRegression.dataProfiling w
  = (Ret tt, set_stdout (stdout w ++ [Describe (errDF e)]) w).
Proof.
  intros Hf Hc. unfold LinearRegression.dataProfiling.
  open_file Hf.
  unfold ReadCSV. rewrite Hc. reflexivity.
Qed.

(** A completed [test] has printed the metric. *)
Lemma linear_test_prints (r : Model) (w w' : World) :
  LinearRegression.test r w = (Ret tt, w') ->
  exists mAE : float64,
    w' = set_stdout (stdout w ++ ["MAE = " +:+ FormatFloat mAE 2
                                  +:+ NL +:+ NL]) w.
Proof.
  unfold LinearRegression.test, bind, os_Open.
  destruct (fs w !! LinearRegression.testDataSet) as [f|]; cbn [must ret];
    [|discriminate].
  destruct (csv_ReadAll 4 f) as [e|testData]; cbn [must ret];
    [discriminate|].
  destruct testData as [|header rest].
  - cbn. intros [= <-]. now exists 0%Q.
  - rewrite test_mAE_header.
    pose proof (test_loop r (len (header :: rest)) rest 1 0%Q w ltac:(lia))
      as L.
    destruct (mapM (observed_predicted r) rest) as [ops|].
    + rewrite L. unfold fmt_Print. intros [= <-]. eauto.
    + destruct (range_from 1 rest
                  (LinearRegression.test_body r (len (header :: rest))) 0%Q w)
        as [[mAE| |] w1];
        [exfalso; now apply (L mAE w1)|discriminate|discriminate].
Qed.
End LinearAbort.

Section SplitAbort.
Context `{Gota}.

(** The splitter notices a load failure when it writes the first file. *)
Lemma split_load_failure (source trainingPath testPath : string)
    (w : World) (f : list csv_line) (e : error) :
  fs w !! source = Some f ->
  csv_ReadAll 0 f = inl e ->
  trainingPath ∉ readonly w ->
  splitData_at source trainingPath testPath w
  = (Fatal,
     set_logged (logged w ++ [LogFatal e])
       (set_fs (<[trainingPath := []]> (fs w)) w)).
Proof.
  intros Hf Hc Hw. unfold splitData_at.
  open_file Hf.
  unfold ReadCSV. rewrite Hc.
  erewrite bind_ret.
  2:{ unfold splitFrames.
      erewrite bind_ret
        by (apply (splitIndices_ranges 0 w); lia).
      reflexivity. }
  unfold range. cbn [range_from fst snd].
  rewrite decide_True by reflexivity.
  unfold bind, os_Create. rewrite decide_False by assumption.
  reflexivity.
Qed.
End SplitAbort.

Section LoanAbort.
Context `{Strconv, Math, Float64Ops, CsvWriter, Gota, Plot, ExpRand}.

Lemma cleanRecord_view (record : list string) (w : World) :
  length record = 2%nat ->
  match clean_of record with
  | Some out => LogisticRegression.cleanRecord record w = (Ret out, w)
  | None => aborts (LogisticRegression.cleanRecord record) w w
  end.
Proof.
  intros Hlen. unfold clean_of.
  destruct (lookup_lt_is_Some_2 record 0) as [f0 E0]; [lia|].
  destruct (lookup_lt_is_Some_2 record 1) as [f1 E1]; [lia|].
  rewrite E0. cbn [mbind option_bind].
  destruct (strings_Split_head f0 "-") as (lo & tl & Hsplit).
  rewrite Hsplit. cbn [head mbind option_bind].
  destruct (ParseFloat lo) as [e|score] eqn:Ps; cbn [ok mbind option_bind].
  { exists e. unfold LogisticRegression.cleanRecord.
    erewrite bind_ret by (apply index_Some; [lia|exact E0]).
    erewrite bind_ret
      by (apply index_Some; [lia|rewrite Hsplit; reflexivity]).
    rewrite Ps. reflexivity. }
  rewrite E1. cbn [mbind option_bind].
  destruct (ParseFloat (strings_TrimSuffix f1 "%")) as [e|rate] eqn:Pr;
    cbn [ok mbind option_bind].
  { exists e. unfold LogisticRegression.cleanRecord.
    erewrite bind_ret by (apply index_Some; [lia|exact E0]).
    erewrite bind_ret
      by (apply index_Some; [lia|rewrite Hsplit; reflexivity]).
    rewrite Ps. erewrite bind_ret by reflexivity.
    erewrite bind_ret by (apply store_ok; unfold len; cbn; lia).
    erewrite bind_ret by (apply index_Some; [lia|exact E1]).
    rewrite Pr. reflexivity. }
  apply (cleanRecord_ok record w f0 f1 lo score rate); try assumption.
  now rewrite Hsplit.
Qed.

Lemma csv_Write_over (out : string) (records : list (list string))
    (c : list csv_line) (w : World) :
  csv_Write out records (withFile out c w)
  = (Ret None, withFile out (written_through records) w).
Proof.
  unfold csv_Write, withFile, set_fs. cbn. now rewrite insert_insert_eq.
Qed.

Lemma clean_body_step (out : string) (i : Z) (record outRecord : list string)
    (written : list (list string)) (c : list csv_line) (w : World) :
  0 < i -> length record = 2%nat -> clean_of record = Some outRecord ->
  LogisticRegression.clean_body out i record written (withFile out c w)
  = (Ret (written ++ [outRecord]),
     withFile out (written_through (written ++ [outRecord])) w).
Proof.
  intros Hi Hlen Hc. unfold LogisticRegression.clean_body.
  rewrite decide_False by lia.
  pose proof (cleanRecord_view record (withFile out c w) Hlen) as Hs.
  rewrite Hc in Hs.
  erewrite bind_ret by exact Hs.
  erewrite bind_ret by apply csv_Write_over.
  reflexivity.
Qed.

Lemma clean_loop_ok (out : string) (rest : list (list string)) :
  forall (i : Z) (written outs : list (list string)) (c : list csv_line)
         (w : World),
    0 < i -> Forall (fun r => length r = 2%nat) rest ->
    mapM clean_of rest = Some outs ->
    exists c',
      range_from i rest (LogisticRegression.clean_body out) written
        (withFile out c w)
      = (Ret (written ++ outs), withFile out c' w).
Proof.
  induction rest as [|record rest IH]; intros i written outs c w Hi Hf Hm.
  - injection Hm as <-. exists c. cbn. now rewrite app_nil_r.
  - apply Forall_cons in Hf as [Hlen Hrest].
    cbn [mapM] in Hm. cbn [range_from].
    destruct (clean_of record) as [out1|] eqn:Hc; [|discriminate].
    cbn [mbind option_bind] in Hm.
    destruct (mapM clean_of rest) as [outs'|] eqn:Hm'; [|discriminate].
    injection Hm as <-.
    destruct (IH (i + 1) (written ++ [out1]) outs'
                (written_through (written ++ [out1])) w
                ltac:(lia) Hrest eq_refl) as [c' Hloop].
    exists c'.
    erewrite bind_ret
      by (apply (clean_body_step out i record out1); assumption).
    rewrite Hloop. now rewrite <- app_assoc.
Qed.

Lemma clean_loop_abort (out : string) (rest : list (list string)) :
  forall (i : Z) (written : list (list string)) (w : World),
    0 < i -> Forall (fun r => length r = 2%nat) rest ->
    mapM clean_of rest = None ->
    aborts (range_from i rest (LogisticRegression.clean_body out) written)
      (withFile out (written_through written) w)
      (withFile out (written_through (written ++ cleaned_before rest)) w).
Proof.
  induction rest as [|record rest IH]; intros i written w Hi Hf Hm;
    [discriminate|].
  apply Forall_cons in Hf as [Hlen Hrest].
  cbn [mapM] in Hm. cbn [range_from cleaned_before].
  destruct (clean_of record) as [out1|] eqn:Hc.
  - cbn [mbind option_bind] in Hm.
    destruct (IH (i + 1) (written ++ [out1]) w ltac:(lia) Hrest)
      as [e He].
    { destruct (mapM clean_of rest); [discriminate|reflexivity]. }
    exists e.
    erewrite bind_ret
      by (apply (clean_body_step out i record out1); assumption).
    rewrite He. now rewrite <- app_assoc.
  - rewrite app_nil_r.
    pose proof (cleanRecord_view record
                  (withFile out (written_through written) w) Hlen) as Hs.
    rewrite Hc in Hs. destruct Hs as [e He]. exists e.
    unfold bind, LogisticRegression.clean_body.
    rewrite decide_False by lia. unfold bind. now rewrite He.
Qed.

(** The cleaner up to the loop over the data rows: the output file is
    created and the header has gone to the writer. *)
Lemma cleaner_start {A} (k : string -> list (list string) -> M A)
    (w : World)
    (f : list csv_line) (header : list string) (rest : list (list string)) :
  fs w !! LogisticRegression.rawDataSet = Some f ->
  csv_ReadAll 2 f = inr (header :: rest) ->
  LogisticRegression.cleanDataSet ∉ readonly w ->
  (let* o := os_Open LogisticRegression.rawDataSet in
   let* f := must o in
   let* rawCSVData := must (csv_ReadAll 2 f) in
   let* o := os_Create LogisticRegression.cleanDataSet in
   let* out := must o in
   let* written :=
     range rawCSVData (LogisticRegression.clean_body out) [] in
   k out written) w
  = (let* written :=
       range_from 1 rest
         (LogisticRegression.clean_body LogisticRegression.cleanDataSet)
         [header] in
     k LogisticRegression.cleanDataSet written)
      (withFile LogisticRegression.cleanDataSet (written_through [header]) w).
Proof.
  intros Hf Hc Hw.
  open_file Hf. rewrite Hc. erewrite bind_ret by reflexivity.
  erewrite bind_ret
    by (unfold os_Create; rewrite decide_False by assumption; reflexivity).
  erewrite bind_ret by reflexivity.
  unfold range. cbn [range_from].
  unfold bind at 1. unfold bind at 1.
  unfold LogisticRegression.clean_body at 1.
  rewrite decide_True by reflexivity.
  change (set_fs (<[LogisticRegression.cleanDataSet := []]> (fs w)) w)
    with (withFile LogisticRegression.cleanDataSet [] w).
  erewrite bind_ret by apply csv_Write_over.
  erewrite bind_ret by reflexivity.
  reflexivity.
Qed.

(** The cleaner: a file that does not parse, or a row whose score or rate is
    not a number.  The output file has been created by then, and holds what
    the writer had written through when the run stopped. *)
Lemma cleaner_csv (w : World) (f : list csv_line) (e : error) :
  fs w !! LogisticRegression.rawDataSet = Some f ->
  csv_ReadAll 2 f = inl e ->
  aborts LogisticRegression.dataProfiling w w.
Proof.
  intros Hf Hc. unfold aborts, LogisticRegression.dataProfiling.
  open_file Hf. rewrite Hc. exists e. reflexivity.
Qed.

Lemma cleaner_field (w : World) (f : list csv_line)
    (header : list string) (rest : list (list string)) :
  fs w !! LogisticRegression.rawDataSet = Some f ->
  csv_ReadAll 2 f = inr (header :: rest) ->
  mapM clean_of rest = None ->
  LogisticRegression.cleanDataSet ∉ readonly w ->
  aborts LogisticRegression.dataProfiling w
    (set_fs (<[LogisticRegression.cleanDataSet :=
                 written_through (header :: cleaned_before rest)]> (fs w)) w).
Proof.
  intros Hf Hc Hm Hw.
  pose proof (csv_records_width f 2 _ ltac:(lia) Hc) as Hwd.
  apply Forall_cons in Hwd as [_ Hrest].
  destruct (clean_loop_abort LogisticRegression.cleanDataSet rest 1 [header]
              w ltac:(lia) Hrest Hm) as [e He].
  exists e. unfold LogisticRegression.dataProfiling.
  rewrite (cleaner_start
             (fun out written =>
                exec csv_Flush out written in
                let* err := csv_Error in
                check err) w f header rest Hf Hc Hw).
  unfold bind. rewrite He. reflexivity.
Qed.

(** The cleaner on a file whose rows all clean. *)
Lemma cleaner_run (w : World) (f : list csv_line)
    (header : list string) (rest outs : list (list string)) :
  fs w !! LogisticRegression.rawDataSet = Some f ->
  csv_ReadAll 2 f = inr (header :: rest) ->
  mapM clean_of rest = Some outs ->
  LogisticRegression.cleanDataSet ∉ readonly w ->
  LogisticRegression.dataProfiling w
  = (Ret tt,
     set_fs (<[LogisticRegression.cleanDataSet := Fields <$> header :: outs]>
               (fs w)) w).
Proof.
  intros Hf Hc Hm Hw.
  pose proof (csv_records_width f 2 _ ltac:(lia) Hc) as Hwd.
  apply Forall_cons in Hwd as [_ Hrest].
  destruct (clean_loop_ok LogisticRegression.cleanDataSet rest 1 [header]
              outs (written_through [header]) w ltac:(lia) Hrest Hm)
    as [c' Hloop].
  unfold LogisticRegression.dataProfiling.
  rewrite (cleaner_start
             (fun out written =>
                exec csv_Flush out written in
                let* err := csv_Error in
                check err) w f header rest Hf Hc Hw).
  erewrite bind_ret by exact Hloop.
  unfold bind, csv_Flush, csv_Error, check, ret, withFile, set_fs. cbn.
  now rewrite insert_insert_eq.
Qed.

Lemma loan_train_step (L i fi : Z) (record : list string)
    (featureData labels : list float64) (w : World) :
  0 < i < L -> L < 2 ^ 61 ->
  len featureData = 2 * L -> len labels = L -> fi = 2 * (i - 1) ->
  length record = 2%nat ->
  match loan_point record with
  | Some _ =>
      exists featureData' labels',
        LogisticRegression.train_body i record (featureData, labels, fi) w
        = (Ret (featureData', labels', fi + 2), w)
        /\ len featureData' = 2 * L /\ len labels' = L
  | None =>
      aborts (LogisticRegression.train_body i record
                (featureData, labels, fi)) w w
  end.
Proof.
  intros Hi HL Hfd Hlb Hfi Hlen.
  unfold loan_point, LogisticRegression.train_body.
  rewrite decide_False by lia.
  destruct (lookup_lt_is_Some_2 record 0) as [s0 E0]; [lia|].
  destruct (lookup_lt_is_Some_2 record 1) as [s1 E1]; [lia|].
  rewrite E0. cbn [mbind option_bind].
  destruct (ParseFloat s0) as [e|featureVal] eqn:P0;
    cbn [ok mbind option_bind].
  { exists e.
    erewrite bind_ret by (apply index_Some; [lia|exact E0]).
    rewrite P0. reflexivity. }
  rewrite E1. cbn [mbind option_bind].
  assert (Hadd1 : int_add fi 1 = fi + 1)
    by (unfold int_add; apply wrap64_id; lia).
  assert (Hadd2 : int_add fi 2 = fi + 2)
    by (unfold int_add; apply wrap64_id; lia).
  destruct (ParseFloat s1) as [e|labelVal] eqn:P1;
    cbn [ok mbind option_bind].
  { exists e.
    erewrite bind_ret by (apply index_Some; [lia|exact E0]).
    rewrite P0. erewrite bind_ret by reflexivity.
    erewrite bind_ret by (apply store_ok; lia).
    erewrite bind_ret
      by (apply store_ok; unfold len in *; rewrite length_insert; lia).
    erewrite bind_ret by (apply index_Some; [lia|exact E1]).
    rewrite P1. reflexivity. }
  eexists _, _. split; [|split].
  - erewrite bind_ret by (apply index_Some; [lia|exact E0]).
    rewrite P0. erewrite bind_ret by reflexivity.
    erewrite bind_ret by (apply store_ok; lia).
    erewrite bind_ret
      by (apply store_ok; unfold len in *; rewrite length_insert; lia).
    erewrite bind_ret by (apply index_Some; [lia|exact E1]).
    rewrite P1. erewrite bind_ret by reflexivity.
    erewrite bind_ret by (apply store_ok; lia).
    rewrite Hadd2. reflexivity.
  - unfold len in *. rewrite !length_insert. assumption.
  - unfold len in *. rewrite length_insert. assumption.
Qed.

Lemma loan_train_loop_abort (L : Z) (rest : list (list string)) :
  forall (i fi : Z) (featureData labels : list float64) (w : World),
    0 < i -> i + len rest = L -> L < 2 ^ 61 ->
    len featureData = 2 * L -> len labels = L -> fi = 2 * (i - 1) ->
    Forall (fun r => length r = 2%nat) rest ->
    mapM loan_point rest = None ->
    aborts (range_from i rest LogisticRegression.train_body
              (featureData, labels, fi)) w w.
Proof.
  induction rest as [|record rest IH];
    intros i fi featureData labels w Hi Hsum HL Hfd Hlb Hfi Hf Hm;
    [discriminate|].
  apply Forall_cons in Hf as [Hlen Hrest].
  unfold len in Hsum. cbn [length] in Hsum.
  cbn [mapM] in Hm. cbn [range_from]. unfold aborts.
  pose proof (loan_train_step L i fi record featureData labels w
                ltac:(lia) HL Hfd Hlb Hfi Hlen) as Hs.
  destruct (loan_point record) as [p|].
  - destruct Hs as (fd' & lb' & Hstep & Hfd' & Hlb').
    rewrite (bind_ret _ _ _ _ _ Hstep).
    apply (IH (i + 1) (fi + 2) fd' lb' w); try assumption;
      try (unfold len; lia).
    cbn [mbind option_bind] in Hm.
    destruct (mapM loan_point rest); [discriminate|reflexivity].
  - destruct Hs as [e He]. exists e. unfold bind. now rewrite He.
Qed.

(** [train] of the loan script. *)
Lemma loan_train_csv (w : World) (f : list csv_line) (e : error) :
  fs w !! LogisticRegression.trainingDataSet = Some f ->
  csv_ReadAll 2 f = inl e ->
  aborts LogisticRegression.train w w.
Proof.
  intros Hf Hc. unfold aborts, LogisticRegression.train.
  open_file Hf. rewrite Hc. exists e. reflexivity.
Qed.

Lemma loan_train_field (w : World) (f : list csv_line)
    (header : list string) (rest : list (list string)) :
  fs w !! LogisticRegression.trainingDataSet = Some f ->
  csv_ReadAll 2 f = inr (header :: rest) ->
  len rest < 2 ^ 60 ->
  mapM loan_point rest = None ->
  aborts LogisticRegression.train w w.
Proof.
  intros Hf Hc Hn Hm.
  pose proof (csv_records_width f 2 _ ltac:(lia) Hc) as Hwd.
  inversion Hwd as [|? ? _ Hrest]; subst.
  set (L := len (header :: rest)).
  assert (HL : L = 1 + len rest)
    by (unfold L, len; cbn [length]; lia).
  assert (Hmul : int_mul 2 L = 2 * L)
    by (unfold int_mul; apply wrap64_id; unfold len in *; lia).
  destruct (loan_train_loop_abort L rest 1 0
              (replicate (Z.to_nat (2 * L)) 0%Q)
              (replicate (Z.to_nat L) 0%Q) w) as [e He];
    try assumption; try (unfold len in *; lia);
    try (unfold len in *; rewrite length_replicate; lia).
  exists e. unfold LogisticRegression.train.
  open_file Hf. rewrite Hc. erewrite bind_ret by reflexivity.
  fold L. rewrite Hmul.
  erewrite bind_ret
    by (unfold make; rewrite decide_True by (unfold len in *; lia);
        reflexivity).
  erewrite bind_ret
    by (unfold make; rewrite decide_True by (unfold len in *; lia);
        reflexivity).
  unfold range. cbn [range_from].
  unfold LogisticRegression.train_body at 1.
  rewrite decide_True by reflexivity.
  unfold bind at 1. unfold bind at 1. cbn [ret].
  change (0 + 1) with 1. now rewrite He.
Qed.
End LoanAbort.

Section BayesAbort.
Context `{Strconv, Golearn}.

Lemma bayes_train_open (w : World) :
  fs w !! "../dataset/training.csv" = None ->
  aborts NaiveBayes.train w w.
Proof.
  intros Hf. exists (ErrOpen "../dataset/training.csv").
  unfold NaiveBayes.train, ParseCSVToInstances, bind, os_Open.
  now rewrite Hf.
Qed.

Lemma bayes_train_csv (w : World) (f : list csv_line) (e : error) :
  fs w !! "../dataset/training.csv" = Some f ->
  parseInstances f true = inl e ->
  aborts NaiveBayes.train w w.
Proof.
  intros Hf Hp. exists e.
  unfold NaiveBayes.train, ParseCSVToInstances, bind, os_Open.
  rewrite Hf. cbn [ret]. now rewrite Hp.
Qed.
End BayesAbort.

Lemma aborts_outcome {A} (m : M A) (w w1 : World) :
  aborts m w w1 ->
  exit_status (fst (m w)) = 1
  /\ fs (snd (m w)) = fs w1
  /\ stdout (snd (m w)) = stdout w1
  /\ exists e, logged (snd (m w)) = logged w1 ++ [LogFatal e].
Proof. intros [e ->]. cbn. eauto. Qed.

Section CompletionFacts.
Context `{Strconv, Math, Float64Ops, CsvWriter, Gota, Plot, ExpRand, Golearn}.

(** The histogram stage of the loan script does not look at the error of
    the dataframe it loads either. *)
Lemma loan_histograms_load_failure (w : World) (f : list csv_line)
    (e : error) :
  fs w !! LogisticRegression.cleanDataSet = Some f ->
  csv_ReadAll 0 f = inl e ->
  LogisticRegression.savePlotPng w
  = (Ret tt, set_stdout (stdout w ++ [Describe (errDF e)]) w).
Proof.
  intros Hf Hc. unfold LogisticRegression.savePlotPng.
  open_file Hf.
  unfold ReadCSV. rewrite Hc. reflexivity.
Qed.

(** Nor does the scatter stage of the advertising script: with no columns
    to plot it returns, unless the library panics on the Sales column of a
    dataframe that did not load. *)
Lemma scatter_load_failure (w : World) (f : list csv_line)
    (e : error) :
  fs w !! LinearRegression.dataset = Some f ->
  csv_ReadAll 0 f = inl e ->
  LinearRegression.chooseIndependentVariable w = (Ret tt, w)
  \/ LinearRegression.chooseIndependentVariable w = (Panic, w).
Proof.
  intros Hf Hc. unfold LinearRegression.chooseIndependentVariable.
  open_file Hf.
  unfold ReadCSV. rewrite Hc.
  unfold bind, LinearRegression.col_floats.
  destruct (Col_Float (errDF e) "Sales"); [left|right]; reflexivity.
Qed.

(** A file that cannot be created. *)
Lemma cleaner_create (w : World) (f : list csv_line)
    (data : list (list string)) :
  fs w !! LogisticRegression.rawDataSet = Some f ->
  csv_ReadAll 2 f = inr data ->
  LogisticRegression.cleanDataSet ∈ readonly w ->
  aborts LogisticRegression.dataProfiling w w.
Proof.
  intros Hf Hc Hw. exists (ErrCreate LogisticRegression.cleanDataSet).
  unfold LogisticRegression.dataProfiling.
  open_file Hf. rewrite Hc. erewrite bind_ret by reflexivity.
  erewrite bind_ret
    by (unfold os_Create; rewrite decide_True by assumption; reflexivity).
  reflexivity.
Qed.

Lemma split_create (source trainingPath testPath : string) (w : World)
    (f : list csv_line) :
  fs w !! source = Some f ->
  Nrow (ReadCSV f) < 2 ^ 61 ->
  trainingPath ∈ readonly w ->
  aborts (splitData_at source trainingPath testPath) w w.
Proof.
  intros Hf Hn Hw. exists (ErrCreate trainingPath).
  unfold splitData_at.
  open_file Hf.
  erewrite bind_ret.
  2:{ unfold splitFrames.
      erewrite bind_ret
        by (apply (splitIndices_ranges (Nrow (ReadCSV f)) w);
            unfold Nrow, len in *; lia).
      reflexivity. }
  unfold range. cbn [range_from].
  unfold bind, os_Create. rewrite decide_True by assumption.
  reflexivity.
Qed.

(** The test file of the naive-Bayes script, which its [train] reads. *)
Lemma bayes_test_open (w : World) (f : list csv_line) (data : Instances) :
  fs w !! "../dataset/training.csv" = Some f ->
  parseInstances f true = inr data ->
  fs w !! "../dataset/test.csv" = None ->
  aborts NaiveBayes.train w w.
Proof.
  intros Hf Hp Hg. exists (ErrOpen "../dataset/test.csv").
  unfold NaiveBayes.train, ParseCSVToInstances, ParseCSVToTemplatedInstances,
    bind, os_Open.
  rewrite Hf. cbn [ret]. rewrite Hp. cbn [must ret]. now rewrite Hg.
Qed.

Lemma bayes_test_csv (w : World) (f g : list csv_line) (data : Instances)
    (e : error) :
  fs w !! "../dataset/training.csv" = Some f ->
  parseInstances f true = inr data ->
  fs w !! "../dataset/test.csv" = Some g ->
  parseTemplated g true data = inl e ->
  aborts NaiveBayes.train w w.
Proof.
  intros Hf Hp Hg Hq. exists e.
  unfold NaiveBayes.train, ParseCSVToInstances, ParseCSVToTemplatedInstances,
    bind, os_Open.
  rewrite Hf. cbn [ret]. rewrite Hp. cbn [must ret]. rewrite Hg.
  cbn [ret]. now rewrite Hq.
Qed.

(** A completed naive-Bayes run has printed the accuracy. *)
Lemma bayes_train_prints (w w' : World) :
  NaiveBayes.train w = (Ret tt, w') ->
  exists accuracy : float64,
    w' = set_stdout (stdout w ++ [NL +:+ "Accuracy: "
                                  +:+ FormatFloat accuracy 2
                                  +:+ NL +:+ NL]) w.
Proof.
  unfold NaiveBayes.train, ParseCSVToInstances, ParseCSVToTemplatedInstances,
    bind, os_Open.
  destruct (fs w !! "../dataset/training.csv") as [f|]; cbn [must ret];
    [|discriminate].
  destruct (parseInstances f true) as [e|trainingData]; cbn [must ret];
    [discriminate|].
  destruct (fs w !! "../dataset/test.csv") as [g|]; cbn [must ret];
    [|discriminate].
  destruct (parseTemplated g true trainingData) as [e|testData];
    cbn [must ret]; [discriminate|].
  destruct (NBPredict _ _) as [e|predictions]; cbn [must ret];
    [discriminate|].
  destruct (GetConfusionMatrix testData predictions) as [e|cm];
    cbn [must ret]; [discriminate|].
  unfold fmt_Print. intros [= <-]. eauto.
Qed.
End CompletionFacts.

(** C5 (as amended).  In profiling, splitting and training a file that
    cannot be opened or created ends the run in log.Fatal; so does a file
    the CSV
    reader rejects and a field that is not a number, wherever the script
    reads the file itself (the cleaner and the trainers) and in the
    splitters, which notice the dataframe's load error when they write the
    first file.  The run ends with one logged error and exit status 1,
    nothing is retried, and the files written before the failure stay as
    they are: the splitter's training file, created and empty, and the
    cleaner's output file, with what its writer had written through.  The
    stages that only load a dataframe never look at its error: on a file the
    CSV reader rejects, the profiling of the advertising script and the
    histograms of the loan script print a summary and return, and the
    scatter stage of the advertising script returns or panics in the
    dataframe library, with nothing logged.  An evaluation that completes
    (the MAE, the accuracy of the loan model, the accuracy of the naive-Bayes
    model) has exit status 0 and has printed its metric. *)
Theorem failures_are_fatal
    `{Strconv, Math, Float64Ops, CsvWriter, Gota, Plot, Regression, ExpRand,
      Golearn} :
  (* a file that cannot be opened *)
  (forall w, fs w !! LinearRegression.dataset = None ->
     aborts LinearRegression.dataProfiling w w
     /\ aborts LinearRegression.chooseIndependentVariable w w
     /\ aborts LinearRegression.splitData w w)
  /\ (forall w, fs w !! LinearRegression.trainingDataSet = None ->
        aborts LinearRegression.train w w)
  /\ (forall w, fs w !! LogisticRegression.rawDataSet = None ->
        aborts LogisticRegression.dataProfiling w w)
  /\ (forall w, fs w !! LogisticRegression.cleanDataSet = None ->
        aborts LogisticRegression.savePlotPng w w
        /\ aborts LogisticRegression.splitData w w)
  /\ (forall w, fs w !! LogisticRegression.trainingDataSet = None ->
        aborts LogisticRegression.train w w /\ aborts NaiveBayes.train w w)
  /\ (forall w f data,
        fs w !! "../dataset/training.csv" = Some f ->
        parseInstances f true = inr data ->
        fs w !! "../dataset/test.csv" = None ->
        aborts NaiveBayes.train w w)
  (* a file that cannot be created *)
  /\ (forall w f data,
        fs w !! LogisticRegression.rawDataSet = Some f ->
        csv_ReadAll 2 f = inr data ->
        LogisticRegression.cleanDataSet ∈ readonly w ->
        aborts LogisticRegression.dataProfiling w w)
  /\ (forall source trainingPath testPath w f,
        fs w !! source = Some f ->
        Nrow (ReadCSV f) < 2 ^ 61 ->
        trainingPath ∈ readonly w ->
        aborts (splitData_at source trainingPath testPath) w w)
  (* a file the CSV reader rejects *)
  /\ (forall w f e,
        fs w !! LinearRegression.trainingDataSet = Some f ->
        csv_ReadAll 4 f = inl e -> aborts LinearRegression.train w w)
  /\ (forall w f e,
        fs w !! LogisticRegression.rawDataSet = Some f ->
        csv_ReadAll 2 f = inl e -> aborts LogisticRegression.dataProfiling w w)
  /\ (forall w f e,
        fs w !! LogisticRegression.trainingDataSet = Some f ->
        csv_ReadAll 2 f = inl e -> aborts LogisticRegression.train w w)
  /\ (forall w f e,
        fs w !! "../dataset/training.csv" = Some f ->
        parseInstances f true = inl e -> aborts NaiveBayes.train w w)
  /\ (forall w f g data e,
        fs w !! "../dataset/training.csv" = Some f ->
        parseInstances f true = inr data ->
        fs w !! "../dataset/test.csv" = Some g ->
        parseTemplated g true data = inl e ->
        aborts NaiveBayes.train w w)
  /\ (forall source trainingPath testPath w f e,
        fs w !! source = Some f -> csv_ReadAll 0 f = inl e ->
        trainingPath ∉ readonly w ->
        aborts (splitData_at source trainingPath testPath) w
          (set_fs (<[trainingPath := []]> (fs w)) w))
  (* a field that is not a number *)
  /\ (forall w f header rest,
        fs w !! LinearRegression.trainingDataSet = Some f ->
        csv_ReadAll 4 f = inr (header :: rest) ->
        mapM point_of rest = None ->
        aborts LinearRegression.train w w)
  /\ (forall w f header rest,
        fs w !! LogisticRegression.rawDataSet = Some f ->
        csv_ReadAll 2 f = inr (header :: rest) ->
        mapM clean_of rest = None ->
        LogisticRegression.cleanDataSet ∉ readonly w ->
        aborts LogisticRegression.dataProfiling w
          (set_fs (<[LogisticRegression.cleanDataSet :=
                       written_through (header :: cleaned_before rest)]>
                     (fs w)) w))
  /\ (forall w f header rest,
        fs w !! LogisticRegression.trainingDataSet = Some f ->
        csv_ReadAll 2 f = inr (header :: rest) ->
        len rest < 2 ^ 60 ->
        mapM loan_point rest = None ->
        aborts LogisticRegression.train w w)
  (* how an aborted run ends *)
  /\ (forall (A : Type) (m : M A) w w1,
        aborts m w w1 ->
        exit_status (fst (m w)) = 1
        /\ fs (snd (m w)) = fs w1
        /\ stdout (snd (m w)) = stdout w1
        /\ exists e, logged (snd (m w)) = logged w1 ++ [LogFatal e])
  (* a dataframe whose load error is never looked at *)
  /\ (forall w f e,
        fs w !! LinearRegression.dataset = Some f ->
        csv_ReadAll 0 f = inl e ->
        LinearRegression.dataProfiling w
        = (Ret tt, set_stdout (stdout w ++ [Describe (errDF e)]) w))
  /\ (forall w f e,
        fs w !! LogisticRegression.cleanDataSet = Some f ->
        csv_ReadAll 0 f = inl e ->
        LogisticRegression.savePlotPng w
        = (Ret tt, set_stdout (stdout w ++ [Describe (errDF e)]) w))
  /\ (forall w f e,
        fs w !! LinearRegression.dataset = Some f ->
        csv_ReadAll 0 f = inl e ->
        LinearRegression.chooseIndependentVariable w = (Ret tt, w)
        \/ LinearRegression.chooseIndependentVariable w = (Panic, w))
  (* how a completed evaluation ends *)
  /\ (forall r w w',
        LinearRegression.test r w = (Ret tt, w') ->
        exit_status (fst (LinearRegression.test r w)) = 0
        /\ exists mAE : float64,
             w' = set_stdout (stdout w ++ ["MAE = " +:+ FormatFloat mAE 2
                                           +:+ NL +:+ NL]) w)
  /\ (forall w header rest,
        fs w !! LogisticRegression.testDataSet = Some (header :: rest) ->
        Forall (fun ln => (2 <= length (line_fields ln))%nat) rest ->
        len rest < 2 ^ 62 ->
        exit_status (fst (LogisticRegression.test w)) = 0
        /\ stdout (snd (LogisticRegression.test w))
           = stdout w ++ [NL +:+ "Accuracy = " +:+ accuracy_text (kept rest)
                          +:+ NL +:+ NL])
  /\ (forall w w',
        NaiveBayes.train w = (Ret tt, w') ->
        exit_status (fst (NaiveBayes.train w)) = 0
        /\ exists accuracy : float64,
             w' = set_stdout (stdout w ++ [NL +:+ "Accuracy: "
                                           +:+ FormatFloat accuracy 2
                                           +:+ NL +:+ NL]) w).
Proof.
  repeat match goal with |- _ /\ _ => split end.
  - intros w Hf. split; [|split].
    + unfold LinearRegression.dataProfiling. now apply open_missing.
    + unfold LinearRegression.chooseIndependentVariable.
      now apply open_missing.
    + unfold LinearRegression.splitData, splitData_at.
      now apply open_missing.
  - intros w Hf. unfold LinearRegression.train. now apply open_missing.
  - intros w Hf. unfold LogisticRegression.dataProfiling.
    now apply open_missing.
  - intros w Hf. split.
    + unfold LogisticRegression.savePlotPng. now apply open_missing.
    + unfold LogisticRegression.splitData, splitData_at.
      now apply open_missing.
  - intros w Hf. split.
    + unfold LogisticRegression.train. now apply open_missing.
    + now apply bayes_train_open.
  - intros w f data. apply bayes_test_open.
  - intros w f data. apply cleaner_create.
  - intros source trainingPath testPath w f. apply split_create.
  - intros w f e. apply linear_train_csv.
  - intros w f e. apply cleaner_csv.
  - intros w f e. apply loan_train_csv.
  - intros w f e. apply bayes_train_csv.
  - intros w f g data e. apply bayes_test_csv.
  - intros source trainingPath testPath w f e Hf Hc Hw. exists e.
    now apply (split_load_failure source trainingPath testPath w f e).
  - intros w f header rest. apply linear_train_field.
  - intros w f header rest. apply cleaner_field.
  - intros w f header rest. apply loan_train_field.
  - intros A m w w1. apply aborts_outcome.
  - intros w f e. apply linear_profiling_load_failure.
  - intros w f e. apply loan_histograms_load_failure.
  - intros w f e. apply scatter_load_failure.
  - intros r w w' E. split; [now rewrite E|].
    now apply (linear_test_prints r w w').
  - intros w header rest Hf Hw Hn.
    rewrite (logistic_test_ok w header rest Hf Hw Hn).
    split; reflexivity.
  - intros w w' E. split; [now rewrite E|].
    now apply bayes_train_prints.
Qed.

Lemma failures_are_fatal_witness :
  aborts (@LinearRegression.train Reference.strconv Reference.regression)
    emptyWorld emptyWorld
  /\ aborts (@LinearRegression.train Reference.strconv Reference.regression)
       badTrainingWorld badTrainingWorld
  /\ aborts (@LogisticRegression.dataProfiling Reference.strconv
               Reference.csvwriter)
       badLoanWorld
       (set_fs (<[LogisticRegression.cleanDataSet := []]> (fs badLoanWorld))
               badLoanWorld)
  /\ aborts (@LogisticRegression.train Reference.strconv Reference.math
               Reference.exprand)
       badLoanTrainingWorld badLoanTrainingWorld
  /\ aborts (@splitData_at Reference.gota LinearRegression.dataset
               LinearRegression.trainingDataSet LinearRegression.testDataSet)
       garbledWorld
       (set_fs (<[LinearRegression.trainingDataSet := []]> (fs garbledWorld))
               garbledWorld)
  /\ stdout (snd (@LogisticRegression.test Reference.strconv Reference.math
                    Reference.float64ops loanTestWorld))
     = [NL +:+ "Accuracy = 1.00" +:+ NL +:+ NL].
Proof.
  destruct (@failures_are_fatal Reference.strconv Reference.math
              Reference.float64ops Reference.csvwriter
              Reference.gota Reference.plot Reference.regression
              Reference.exprand Reference.golearn)
    as (_ & W2 & _ & _ & _ & _ & _ & _ & _ & _ & _ & _ & _ & W10 & W11
        & W12 & W13 & _ & _ & _ & _ & _ & W18 & _).
  split; [apply W2; reflexivity|].
  split.
  { apply (W11 badTrainingWorld badTraining
             ["TV"; "Radio"; "Newspaper"; "Sales"]
             [["230.1"; "37.8"; "69.2"; "22.1"];
              ["44.5"; "39.3"; "45.1"; "ten"]]);
      [reflexivity|reflexivity|vm_compute; reflexivity]. }
  split.
  { apply (W12 badLoanWorld badLoan ["FICO.Range"; "Interest.Rate"]
             [["735-739"; "8.90%"]; ["7x5-719"; "12.12%"]]);
      [reflexivity|reflexivity|vm_compute; reflexivity
      |apply not_elem_of_empty]. }
  split.
  { apply (W13 badLoanTrainingWorld badLoanTraining
             ["FICO.Range"; "Interest.Rate"]
             [["0.5000"; "1.0"]; ["0.2000"; "high"]]);
      [reflexivity|reflexivity|vm_compute; reflexivity
      |vm_compute; reflexivity]. }
  split.
  { apply (W10 LinearRegression.dataset LinearRegression.trainingDataSet
             LinearRegression.testDataSet garbledWorld garbledAdvert ErrCSV);
      [reflexivity|reflexivity|apply not_elem_of_empty]. }
  destruct (W18 loanTestWorld (Fields ["FICO.Range"; "Interest.Rate"])
              (tail loanTest)) as [_ W];
    [reflexivity|repeat constructor|vm_compute; reflexivity|].
  rewrite W. vm_compute. reflexivity.
Defined.

(** C5 as stated fails in the profiling stage of the advertising script: on
    a dataset the CSV reader rejects, [dataProfiling] logs nothing, prints
    the summary of an empty dataframe and returns. *)
Lemma profiling_survives_csv_failure :
  csv_ReadAll 0 garbledAdvert = inl ErrCSV
  /\ @LinearRegression.dataProfiling Reference.gota Reference.plot
       garbledWorld
     = (Ret tt, set_stdout ["summary of 0 rows"] garbledWorld)
  /\ exit_status (fst (@LinearRegression.dataProfiling Reference.gota
                         Reference.plot garbledWorld)) = 0
  /\ logged (snd (@LinearRegression.dataProfiling Reference.gota
                    Reference.plot garbledWorld)) = [].
Proof. repeat split; vm_compute; reflexivity. Qed.

(** * Further properties of the scripts *)

(** ** The advertising script: [train] and [test] *)

Section LinearExtras.
Context `{Strconv, Regression}.

(** X1.  When every data row of the test file parses and is predicted,
    [test] prints the sum of the absolute errors divided by the number of
    records of the file, header included: the mean absolute error of the N
    data rows scaled by N / (N + 1). *)
Theorem test_prints_scaled_mae (r : Model) (w : World) (f : list csv_line)
    (header : list string) (rest : list (list string))
    (ops : list (float64 * float64)) :
  fs w !! LinearRegression.testDataSet = Some f ->
  csv_ReadAll 4 f = inr (header :: rest) ->
  mapM (observed_predicted r) rest = Some ops ->
  exists mAE : float64,
    LinearRegression.test r w
    = (Ret tt,
       set_stdout (stdout w ++ ["MAE = " +:+ FormatFloat mAE 2 +:+ NL +:+ NL])
                  w)
    /\ (mAE == Qsum (abs_error <$> ops) / inject_Z (len rest + 1))%Q
    /\ (mAE == mean_absolute_error ops
               * (inject_Z (len rest) / inject_Z (len rest + 1)))%Q.
Proof.
  intros Hf Hc Hm.
  pose proof (test_loop r (len (header :: rest)) rest 1 0%Q w ltac:(lia)) as L.
  rewrite Hm in L.
  eexists. split; [|split].
  - unfold LinearRegression.test. open_file Hf. rewrite Hc.
    erewrite bind_ret by reflexivity.
    erewrite bind_ret by (rewrite test_mAE_header; exact L).
    reflexivity.
  - rewrite mae_fold. unfold float64_of_int, len. cbn [length].
    rewrite Nat2Z.inj_succ, <- Z.add_1_r. ring.
  - rewrite mae_fold. unfold float64_of_int, mean_absolute_error, len.
    cbn [length]. rewrite Nat2Z.inj_succ, <- Z.add_1_r.
    rewrite <- (length_mapM _ _ _ Hm).
    destruct ops as [|op ops].
    + destruct rest; [|discriminate (length_mapM _ _ _ Hm)].
      cbn. reflexivity.
    + rewrite (length_mapM _ _ _ Hm).
      set (S := Qsum (abs_error <$> op :: ops)).
      set (n := Z.of_nat (length (op :: ops))).
      assert (Hn : 0 < n) by (unfold n; cbn [length]; lia).
      assert (H1 : ~ (inject_Z n == 0)%Q)
        by (unfold Qeq, inject_Z; cbn; lia).
      assert (H2 : ~ (inject_Z (n + 1) == 0)%Q)
        by (unfold Qeq, inject_Z; cbn; lia).
      field. split; assumption.
Qed.
End LinearExtras.

Lemma test_prints_scaled_mae_witness :
  exists mAE : float64,
    @LinearRegression.test Reference.strconv Reference.regression
       slopeModel threeRowWorld
    = (Ret tt,
       set_stdout ["MAE = " +:+ Reference.format_fixed mAE 2 +:+ NL +:+ NL]
                  threeRowWorld)
    /\ (mAE == 3 / 4)%Q.
Proof.
  destruct (@test_prints_scaled_mae Reference.strconv Reference.regression
              slopeModel threeRowWorld threeRowTest
              ["TV"; "Radio"; "Newspaper"; "Sales"]
              [["1"; "0"; "0"; "4"]; ["2"; "9"; "9"; "5"];
               ["3"; "0"; "0"; "5"]]
              [(4%Q, 3%Q); (5%Q, 5%Q); (5%Q, 7%Q)])
    as (mAE & W1 & W2 & _);
    [reflexivity|reflexivity|vm_compute; reflexivity|].
  exists mAE. split; [exact W1|]. rewrite W2. reflexivity.
Defined.

Lemma index_same {A} (l1 l2 : list A) (i : Z) :
  l1 !! Z.to_nat i = l2 !! Z.to_nat i -> index l1 i = index l2 i.
Proof. intros E. unfold index. now rewrite E. Qed.

Section LinearOutcomes.
Context `{Strconv, Regression}.

Lemma linear_train_ok (w : World) (f : list csv_line)
    (header : list string) (rest : list (list string))
    (pts : list (float64 * list float64)) :
  fs w !! LinearRegression.trainingDataSet = Some f ->
  csv_ReadAll 4 f = inr (header :: rest) ->
  mapM point_of rest = Some pts ->
  LinearRegression.train w
  = (Ret (Run pts),
     set_stdout (stdout w ++ [NL +:+ "Regression Formula:" +:+ NL
                              +:+ Formula (Run pts) +:+ NL +:+ NL]) w).
Proof.
  intros Hf Hc Hm.
  pose proof (train_loop rest 1 [] w ltac:(lia)) as L. rewrite Hm in L.
  unfold LinearRegression.train. open_file Hf. rewrite Hc.
  erewrite bind_ret by reflexivity.
  erewrite bind_ret by (rewrite train_points_header; exact L).
  reflexivity.
Qed.

(** X2.  [train] and [test] of the advertising script never index a
    record out of range: with [FieldsPerRecord = 4] every record has its
    four fields, so, the library calls aside, they do not panic.  Each either stops in log.Fatal with one logged error
    and nothing printed, or returns after printing the formula of the model
    fitted on the parsed points, respectively the MAE line. *)
Theorem linear_train_test_outcomes (r : Model) (w : World) :
  (aborts LinearRegression.train w w
   \/ exists pts,
        LinearRegression.train w
        = (Ret (Run pts),
           set_stdout (stdout w ++ [NL +:+ "Regression Formula:" +:+ NL
                                    +:+ Formula (Run pts) +:+ NL +:+ NL]) w))
  /\ (aborts (LinearRegression.test r) w w
      \/ exists mAE : float64,
           LinearRegression.test r w
           = (Ret tt,
              set_stdout (stdout w ++ ["MAE = " +:+ FormatFloat mAE 2
                                       +:+ NL +:+ NL]) w))
  /\ fst (LinearRegression.train w) <> Panic
  /\ fst (LinearRegression.test r w) <> Panic.
Proof.
  assert (Htrain :
    aborts LinearRegression.train w w
    \/ exists pts,
         LinearRegression.train w
         = (Ret (Run pts),
            set_stdout (stdout w ++ [NL +:+ "Regression Formula:" +:+ NL
                                     +:+ Formula (Run pts) +:+ NL +:+ NL]) w)).
  { destruct (fs w !! LinearRegression.trainingDataSet) as [f|] eqn:Hf.
    2:{ left. unfold LinearRegression.train. now apply open_missing. }
    destruct (csv_ReadAll 4 f) as [e|[|header rest]] eqn:Hc.
    - left. exists e. unfold LinearRegression.train. open_file Hf.
      now rewrite Hc.
    - right. exists []. unfold LinearRegression.train. open_file Hf.
      now rewrite Hc.
    - destruct (mapM point_of rest) as [pts|] eqn:Hm.
      + right. exists pts. now apply (linear_train_ok w f header rest).
      + left.
        pose proof (csv_records_width f 4 _ ltac:(lia) Hc) as Hw.
        apply Forall_cons in Hw as [_ Hrest].
        destruct (train_loop_abort rest 1 [] w ltac:(lia) Hrest Hm)
          as [e He].
        exists e. unfold LinearRegression.train. open_file Hf. rewrite Hc.
        erewrite bind_ret by reflexivity.
        rewrite <- (train_points_header header) in He.
        unfold bind. now rewrite He. }
  assert (Htest :
    aborts (LinearRegression.test r) w w
    \/ exists mAE : float64,
         LinearRegression.test r w
         = (Ret tt,
            set_stdout (stdout w ++ ["MAE = " +:+ FormatFloat mAE 2
                                     +:+ NL +:+ NL]) w)).
  { destruct (fs w !! LinearRegression.testDataSet) as [f|] eqn:Hf.
    2:{ left. unfold LinearRegression.test. now apply open_missing. }
    destruct (csv_ReadAll 4 f) as [e|[|header rest]] eqn:Hc.
    - left. exists e. unfold LinearRegression.test. open_file Hf.
      now rewrite Hc.
    - right. exists 0%Q. unfold LinearRegression.test. open_file Hf.
      now rewrite Hc.
    - destruct (mapM (observed_predicted r) rest) as [ops|] eqn:Hm.
      + right.
        pose proof (test_loop r (len (header :: rest)) rest 1 0%Q w
                      ltac:(lia)) as L.
        rewrite Hm in L. eexists.
        unfold LinearRegression.test. open_file Hf. rewrite Hc.
        erewrite bind_ret by reflexivity.
        erewrite bind_ret by (rewrite test_mAE_header; exact L).
        reflexivity.
      + left. now apply (linear_test_aborts r w f header rest). }
  split; [exact Htrain|]. split; [exact Htest|]. split.
  - destruct Htrain as [[e ->]|[pts ->]]; discriminate.
  - destruct Htest as [[e ->]|[mAE ->]]; discriminate.
Qed.

Lemma train_body_same (i : Z) (r1 r2 : list string)
    (points : list (float64 * list float64)) :
  same_tv_sales r1 r2 ->
  LinearRegression.train_body i r1 points
  = LinearRegression.train_body i r2 points.
Proof.
  intros [E0 E3]. unfold LinearRegression.train_body.
  now rewrite (index_same r1 r2 3 E3), (index_same r1 r2 0 E0).
Qed.

Lemma test_body_same (r : Model) (n i : Z) (r1 r2 : list string)
    (mAE : float64) :
  same_tv_sales r1 r2 ->
  LinearRegression.test_body r n i r1 mAE
  = LinearRegression.test_body r n i r2 mAE.
Proof.
  intros [E0 E3]. unfold LinearRegression.test_body.
  now rewrite (index_same r1 r2 3 E3), (index_same r1 r2 0 E0).
Qed.

(** X3.  Only the TV and the Sales field of a record are read: two files
    whose records agree on these two fields, whatever their Radio and
    Newspaper fields hold, give [train] the same points (or the same
    failure) and [test] the same MAE. *)
Theorem only_tv_and_sales_are_read (r : Model)
    (data data' : list (list string)) (w : World) :
  Forall2 same_tv_sales data data' ->
  LinearRegression.train_points data w = LinearRegression.train_points data' w
  /\ LinearRegression.test_mAE r data w = LinearRegression.test_mAE r data' w.
Proof.
  intros Hsame.
  assert (Hlen : len data = len data')
    by (unfold len; now rewrite (Forall2_length _ _ _ Hsame)).
  unfold LinearRegression.train_points, LinearRegression.test_mAE, range.
  rewrite <- Hlen. generalize (len data) as n. intros n. clear Hlen.
  generalize (@nil (float64 * list float64)) as points.
  generalize 0%Q as mAE. generalize 0 as i. revert w.
  induction Hsame as [|r1 r2 data data' Hr Hrest IH];
    intros w i mAE points; [split; reflexivity|].
  cbn [range_from].
  rewrite (train_body_same i r1 r2 points Hr).
  rewrite (test_body_same r n i r1 r2 mAE Hr).
  unfold bind. split.
  - destruct (LinearRegression.train_body i r2 points w) as [[s| |] w1];
      try reflexivity.
    apply (IH w1 (i + 1) mAE s).
  - destruct (LinearRegression.test_body r n i r2 mAE w) as [[s| |] w1];
      try reflexivity.
    apply (IH w1 (i + 1) s points).
Qed.
End LinearOutcomes.

Lemma only_tv_and_sales_are_read_witness :
  @LinearRegression.train_points Reference.strconv trainingA emptyWorld
  = @LinearRegression.train_points Reference.strconv trainingB emptyWorld
  /\ @LinearRegression.test_mAE Reference.strconv Reference.regression
       slopeModel trainingA emptyWorld
     = @LinearRegression.test_mAE Reference.strconv Reference.regression
         slopeModel trainingB emptyWorld.
Proof.
  apply (@only_tv_and_sales_are_read Reference.strconv Reference.regression
           slopeModel trainingA trainingB emptyWorld).
  repeat constructor.
Defined.

(** ** The loan script: the cleaner *)

Lemma split_low_bound (lo hi : string) :
  has_char "-" lo = false ->
  head (strings_Split (lo +:+ String "-" hi) "-") = Some lo
  /\ head (strings_Split lo "-") = Some lo.
Proof.
  induction lo as [|c lo IH]; intros Hno.
  - split; reflexivity.
  - cbn [has_char] in Hno.
    destruct (decide (c = "-"%char)) as [|Hc]; [discriminate|].
    destruct (IH Hno) as [IH1 IH2].
    change (String c lo +:+ String "-" hi)
      with (String c (lo +:+ String "-" hi)).
    cbn [strings_Split].
    rewrite !decide_False by assumption.
    destruct (strings_Split (lo +:+ String "-" hi) "-") as [|h1 t1];
      [discriminate|].
    destruct (strings_Split lo "-") as [|h2 t2]; [discriminate|].
    cbn [head] in *. injection IH1 as ->. injection IH2 as ->.
    split; reflexivity.
Qed.

Lemma trim_percent (s : string) : strings_TrimSuffix (s +:+ "%") "%" = s.
Proof.
  induction s as [|c s IH]; [reflexivity|].
  change (String c s +:+ "%") with (String c (s +:+ "%")).
  cbn [strings_TrimSuffix]. rewrite IH.
  destruct s; reflexivity.
Qed.

Section CleanerExtras.
Context `{Strconv, CsvWriter}.

Lemma cleanRecord_core (a b lo : string) (w : World) :
  head (strings_Split a "-") = Some lo ->
  LogisticRegression.cleanRecord [a; b] w
  = match ParseFloat lo with
    | inl e => log_Fatal e w
    | inr score =>
        match ParseFloat (strings_TrimSuffix b "%") with
        | inl e => log_Fatal e w
        | inr rate =>
            (Ret [FormatFloat (LogisticRegression.normalize score) 4;
                  if Qle_bool rate 12 then "1.0" else "0.0"], w)
        end
    end.
Proof.
  intros Hlo. unfold LogisticRegression.cleanRecord.
  erewrite bind_ret by (apply index_Some; [lia|reflexivity]).
  destruct (strings_Split a "-") as [|lo' tl] eqn:Hs; [discriminate|].
  injection Hlo as ->.
  erewrite bind_ret by (apply index_Some; [lia|reflexivity]).
  destruct (ParseFloat lo) as [e|score]; [reflexivity|].
  erewrite bind_ret by reflexivity.
  erewrite bind_ret by (apply store_ok; unfold len; cbn; lia).
  erewrite bind_ret by (apply index_Some; [lia|reflexivity]).
  destruct (ParseFloat (strings_TrimSuffix b "%")) as [e|rate];
    [reflexivity|].
  erewrite bind_ret by reflexivity.
  destruct (Qle_bool rate 12); unfold store;
    rewrite decide_True by (unfold len; rewrite length_insert; cbn; lia);
    reflexivity.
Qed.

(** X4.  The cleaner reads the low end of the score range and nothing after
    the first "-": the upper bound may be anything, or be missing with its
    dash.  One trailing "%" of the rate is dropped, so a rate written
    without it is read the same. *)
Theorem cleaner_reads_low_bound_only (lo hi hi' rate : string) (w : World) :
  has_char "-" lo = false ->
  strings_TrimSuffix rate "%" = rate ->
  LogisticRegression.cleanRecord [lo +:+ String "-" hi; rate] w
  = LogisticRegression.cleanRecord [lo +:+ String "-" hi'; rate] w
  /\ LogisticRegression.cleanRecord [lo +:+ String "-" hi; rate] w
     = LogisticRegression.cleanRecord [lo; rate] w
  /\ LogisticRegression.cleanRecord [lo; rate +:+ "%"] w
     = LogisticRegression.cleanRecord [lo; rate] w.
Proof.
  intros Hno Hrate.
  destruct (split_low_bound lo hi Hno) as [E1 E2].
  destruct (split_low_bound lo hi' Hno) as [E1' _].
  rewrite (cleanRecord_core _ rate lo w E1).
  rewrite (cleanRecord_core _ rate lo w E1').
  rewrite (cleanRecord_core lo rate lo w E2).
  rewrite (cleanRecord_core lo (rate +:+ "%") lo w E2).
  rewrite trim_percent, Hrate. repeat split.
Qed.

Lemma clean_of_shape (record out : list string) :
  clean_of record = Some out ->
  exists score, out = [score; "1.0"] \/ out = [score; "0.0"].
Proof.
  unfold clean_of. intros E.
  destruct (record !! 0%nat) as [f0|]; [|discriminate].
  cbn [mbind option_bind] in E.
  destruct (head (strings_Split f0 "-")) as [lo|]; [|discriminate].
  cbn [mbind option_bind] in E.
  destruct (ParseFloat lo) as [e|score]; [discriminate|].
  cbn [ok mbind option_bind] in E.
  destruct (record !! 1%nat) as [f1|]; [|discriminate].
  cbn [mbind option_bind] in E.
  destruct (ParseFloat (strings_TrimSuffix f1 "%")) as [e|rate];
    [discriminate|].
  cbn [ok mbind option_bind] in E. injection E as <-.
  eexists. destruct (Qle_bool rate 12); [left|right]; reflexivity.
Qed.

(** X5.  When every row of the raw loan file cleans, the cleaner replaces
    the output file by the header followed by one cleaned record per data
    row, in order; each record has a score text and the label "1.0" or
    "0.0", so the file written reads back as two-field records. *)
Theorem cleaner_writes_rows (w : World) (f : list csv_line)
    (header : list string) (rest outs : list (list string)) :
  fs w !! LogisticRegression.rawDataSet = Some f ->
  csv_ReadAll 2 f = inr (header :: rest) ->
  mapM clean_of rest = Some outs ->
  LogisticRegression.cleanDataSet ∉ readonly w ->
  LogisticRegression.dataProfiling w
  = (Ret tt,
     set_fs (<[LogisticRegression.cleanDataSet := Fields <$> header :: outs]>
               (fs w)) w)
  /\ length outs = length rest
  /\ Forall (fun out => exists score,
               out = [score; "1.0"] \/ out = [score; "0.0"]) outs
  /\ csv_ReadAll 2 (Fields <$> header :: outs) = inr (header :: outs).
Proof.
  intros Hf Hc Hm Hw.
  pose proof (csv_records_width f 2 _ ltac:(lia) Hc) as Hwd.
  apply Forall_cons in Hwd as [Hh Hrest].
  assert (Hshape : Forall (fun out => exists score,
                     out = [score; "1.0"] \/ out = [score; "0.0"]) outs).
  { apply mapM_Some_1 in Hm. clear -Hm.
    induction Hm as [|r out rs os Hr _ IH]; constructor; [|assumption].
    now apply (clean_of_shape r). }
  split; [|split; [|split]].
  - apply (cleaner_run w f header rest outs); assumption.
  - symmetry. apply (length_mapM _ _ _ Hm).
  - exact Hshape.
  - unfold csv_ReadAll. cbn [fmap list_fmap csv_records].
    rewrite decide_True by assumption.
    assert (Hall : csv_records 2 (Fields <$> outs) = inr outs).
    { clear -Hshape. induction Hshape as [|out outs' [s [->| ->]] _ IH];
        [reflexivity| |]; cbn [fmap list_fmap csv_records];
        rewrite decide_True by reflexivity;
        change (list_fmap _ _ Fields outs') with (Fields <$> outs');
        now rewrite IH. }
    change (list_fmap _ _ Fields outs) with (Fields <$> outs).
    now rewrite Hall.
Qed.
Lemma cleaned_row (rest outs : list (list string)) (k : nat)
    (record : list string) :
  mapM clean_of rest = Some outs ->
  rest !! k = Some record ->
  exists out, outs !! k = Some out /\ clean_of record = Some out.
Proof.
  intros Hm Hk. apply mapM_Some_1 in Hm.
  destruct (Forall2_lookup_l _ _ _ _ _ Hm Hk) as (out & Ho & Hc).
  eauto.
Qed.

(** C7.  In the file the cleaner writes, the score of a data row whose FICO
    score parses as s is the text of (s - 640) / 190, the normalisation with
    scoreMin = 640 and scoreMax = 830: the k-th data row of the raw file is
    line k + 1 of the clean file, and its first field is that text; 640 is
    sent to 0 and 830 to 1. *)
Theorem normalized_score (w : World) (f : list csv_line)
    (header : list string) (rest outs : list (list string)) (k : nat)
    (record : list string) (f0 lo : string) (s : float64) :
  fs w !! LogisticRegression.rawDataSet = Some f ->
  csv_ReadAll 2 f = inr (header :: rest) ->
  mapM clean_of rest = Some outs ->
  LogisticRegression.cleanDataSet ∉ readonly w ->
  rest !! k = Some record ->
  record !! 0%nat = Some f0 ->
  head (strings_Split f0 "-") = Some lo ->
  ParseFloat lo = inr s ->
  (exists (lines : list csv_line) (label : string),
     fst (LogisticRegression.dataProfiling w) = Ret tt
     /\ fs (snd (LogisticRegression.dataProfiling w))
          !! LogisticRegression.cleanDataSet = Some lines
     /\ lines !! S k
        = Some (Fields [FormatFloat (LogisticRegression.normalize s) 4;
                        label]))
  /\ (LogisticRegression.normalize s == (s - 640) / 190)%Q
  /\ (LogisticRegression.normalize 640 == 0)%Q
  /\ (LogisticRegression.normalize 830 == 1)%Q.
Proof.
  intros Hf Hc Hm Hw Hk Hf0 Hlo Hs. split.
  - destruct (cleaned_row rest outs k record Hm Hk) as (out & Ho & Hclean).
    unfold clean_of in Hclean. rewrite Hf0 in Hclean.
    cbn [mbind option_bind] in Hclean. rewrite Hlo in Hclean.
    cbn [mbind option_bind] in Hclean. rewrite Hs in Hclean.
    cbn [ok mbind option_bind] in Hclean.
    destruct (record !! 1%nat) as [f1|]; [|discriminate].
    cbn [mbind option_bind] in Hclean.
    destruct (ParseFloat (strings_TrimSuffix f1 "%")) as [e|rate];
      [discriminate|].
    cbn [ok mbind option_bind] in Hclean. injection Hclean as <-.
    rewrite (cleaner_run w f header rest outs Hf Hc Hm Hw).
    exists (Fields <$> header :: outs),
      (if Qle_bool rate 12 then "1.0" else "0.0").
    split; [reflexivity|]. split.
    + cbn [snd fs set_fs]. apply lookup_insert_eq.
    + change ((Fields <$> outs) !! k
              = Some (Fields [FormatFloat (LogisticRegression.normalize s) 4;
                              if Qle_bool rate 12 then "1.0" else "0.0"])).
      rewrite list_lookup_fmap, Ho. reflexivity.
  - unfold LogisticRegression.normalize, LogisticRegression.scoreMin,
      LogisticRegression.scoreMax.
    split; [|split; reflexivity].
    assert (E : (830 - 640 == 190)%Q) by reflexivity.
    now rewrite E.
Qed.

(** C8.  In the file the cleaner writes, the label of a data row whose
    interest rate parses as r is "1.0" when r <= 12 and "0.0" otherwise: the
    k-th data row of the raw file is line k + 1 of the clean file, and its
    second field is that label; the bound is inclusive: 12.0 gives "1.0" and
    12.1 gives "0.0". *)
Theorem rate_label (w : World) (f : list csv_line)
    (header : list string) (rest outs : list (list string)) (k : nat)
    (record : list string) (f1 : string) (r : float64) :
  fs w !! LogisticRegression.rawDataSet = Some f ->
  csv_ReadAll 2 f = inr (header :: rest) ->
  mapM clean_of rest = Some outs ->
  LogisticRegression.cleanDataSet ∉ readonly w ->
  rest !! k = Some record ->
  record !! 1%nat = Some f1 ->
  ParseFloat (strings_TrimSuffix f1 "%") = inr r ->
  exists (lines : list csv_line) (score label : string),
    fst (LogisticRegression.dataProfiling w) = Ret tt
    /\ fs (snd (LogisticRegression.dataProfiling w))
         !! LogisticRegression.cleanDataSet = Some lines
    /\ lines !! S k = Some (Fields [score; label])
    /\ ((r <= 12)%Q -> label = "1.0")
    /\ ((12 < r)%Q -> label = "0.0")
    /\ ((r == 12.0)%Q -> label = "1.0")
    /\ ((r == 12.1)%Q -> label = "0.0").
Proof.
  intros Hf Hc Hm Hw Hk Hf1 Hr.
  destruct (cleaned_row rest outs k record Hm Hk) as (out & Ho & Hclean).
  unfold clean_of in Hclean.
  destruct (record !! 0%nat) as [f0|]; [|discriminate].
  cbn [mbind option_bind] in Hclean.
  destruct (head (strings_Split f0 "-")) as [lo|]; [|discriminate].
  cbn [mbind option_bind] in Hclean.
  destruct (ParseFloat lo) as [e|s]; [discriminate|].
  cbn [ok mbind option_bind] in Hclean. rewrite Hf1 in Hclean.
  cbn [mbind option_bind] in Hclean. rewrite Hr in Hclean.
  cbn [ok mbind option_bind] in Hclean. injection Hclean as <-.
  rewrite (cleaner_run w f header rest outs Hf Hc Hm Hw).
  exists (Fields <$> header :: outs),
    (FormatFloat (LogisticRegression.normalize s) 4),
    (if Qle_bool r 12 then "1.0" else "0.0").
  split; [reflexivity|]. split; [|split].
  - cbn [snd fs set_fs]. apply lookup_insert_eq.
  - change ((Fields <$> outs) !! k
            = Some (Fields [FormatFloat (LogisticRegression.normalize s) 4;
                            if Qle_bool r 12 then "1.0" else "0.0"])).
    rewrite list_lookup_fmap, Ho. reflexivity.
  - destruct (Qle_bool r 12) eqn:E.
    + apply Qle_bool_iff in E.
      repeat split; intros Hc'; try reflexivity.
      * exfalso. apply (Qlt_not_le _ _ Hc' E).
      * exfalso. rewrite Hc' in E. revert E. apply Qlt_not_le. reflexivity.
    + assert (N : ~ (r <= 12)%Q) by (rewrite <- Qle_bool_iff; congruence).
      repeat split; intros Hc'; try reflexivity.
      * contradiction.
      * exfalso. apply N. rewrite Hc'. discriminate.
Qed.
End CleanerExtras.

Lemma cleaner_reads_low_bound_only_witness :
  @LogisticRegression.cleanRecord Reference.strconv ["735-739"; "8.90"]
     emptyWorld
  = @LogisticRegression.cleanRecord Reference.strconv ["735-x"; "8.90"]
      emptyWorld
  /\ @LogisticRegression.cleanRecord Reference.strconv ["735"; "8.90%"]
       emptyWorld
     = (Ret ["0.5000"; "1.0"], emptyWorld).
Proof.
  destruct (@cleaner_reads_low_bound_only Reference.strconv
              "735" "739" "x" "8.90" emptyWorld) as (W1 & _ & W3);
    [reflexivity|reflexivity|].
  split; [exact W1|].
  etransitivity; [exact W3|]. vm_compute. reflexivity.
Defined.

Lemma cleaner_writes_rows_witness :
  @LogisticRegression.dataProfiling Reference.strconv Reference.csvwriter
    loanRawWorld
  = (Ret tt,
     withFile LogisticRegression.cleanDataSet
       [Fields ["FICO.Range"; "Interest.Rate"];
        Fields ["0.5000"; "1.0"]; Fields ["0.0000"; "1.0"];
        Fields ["1.0000"; "0.0"]] loanRawWorld).
Proof.
  destruct (@cleaner_writes_rows Reference.strconv Reference.csvwriter
              loanRawWorld loanRaw
              ["FICO.Range"; "Interest.Rate"]
              [["735-739"; "8.90%"]; ["640-644"; "12.0%"];
               ["830-834"; "15.31%"]]
              [["0.5000"; "1.0"]; ["0.0000"; "1.0"]; ["1.0000"; "0.0"]])
    as (W1 & _);
    [reflexivity|reflexivity|vm_compute; reflexivity
    |apply not_elem_of_empty|].
  exact W1.
Defined.

Lemma normalized_score_witness :
  exists (lines : list csv_line) (label : string),
    fs (snd (@LogisticRegression.dataProfiling Reference.strconv
               Reference.csvwriter loanBoundaryWorld))
      !! LogisticRegression.cleanDataSet = Some lines
    /\ lines !! 1%nat = Some (Fields ["0.0000"; label]).
Proof.
  destruct (@normalized_score Reference.strconv Reference.csvwriter
              loanBoundaryWorld loanBoundary ["FICO.Range"; "Interest.Rate"]
              [loanRowAt12; loanRowAbove12]
              [["0.0000"; "1.0"]; ["1.0000"; "0.0"]] 0 loanRowAt12
              "640-644" "640" 640%Q)
    as ((lines & label & _ & W1 & W2) & _);
    [reflexivity|reflexivity|vm_compute; reflexivity|apply not_elem_of_empty
    |reflexivity|reflexivity|reflexivity|reflexivity|].
  exists lines, label. split; [exact W1|exact W2].
Defined.

Lemma rate_label_witness :
  exists (lines : list csv_line) (score label : string),
    fs (snd (@LogisticRegression.dataProfiling Reference.strconv
               Reference.csvwriter loanBoundaryWorld))
      !! LogisticRegression.cleanDataSet = Some lines
    /\ lines !! 2%nat = Some (Fields [score; label])
    /\ label = "0.0".
Proof.
  destruct (@rate_label Reference.strconv Reference.csvwriter
              loanBoundaryWorld loanBoundary ["FICO.Range"; "Interest.Rate"]
              [loanRowAt12; loanRowAbove12]
              [["0.0000"; "1.0"]; ["1.0000"; "0.0"]] 1 loanRowAbove12
              "12.1%" 12.1%Q)
    as (lines & score & label & _ & W1 & W2 & _ & _ & _ & W6);
    [reflexivity|reflexivity|vm_compute; reflexivity|apply not_elem_of_empty
    |reflexivity|reflexivity|reflexivity|].
  exists lines, score, label. split; [exact W1|]. split; [exact W2|].
  apply W6. reflexivity.
Defined.

(** ** The loan script: training *)

Lemma flat_snoc (rows : list (float64 * float64)) (r : float64 * float64) :
  flat (rows ++ [r]) = flat rows ++ [fst r; snd r].
Proof.
  unfold flat. rewrite flat_map_app. reflexivity.
Qed.

Lemma flat_length (rows : list (float64 * float64)) :
  length (flat rows) = (2 * length rows)%nat.
Proof.
  induction rows as [|r rows IH]; [reflexivity|].
  unfold flat in *. cbn [flat_map app length]. rewrite IH. lia.
Qed.

Section LoanTraining.
Context `{Strconv, Math, ExpRand}.

Lemma loan_train_step_ok (i fi : Z) (record : list string)
    (featureData labels : list float64) (f l : float64) (w : World) :
  0 < i < len labels -> 0 <= fi -> fi + 1 < len featureData ->
  fi < 2 ^ 61 ->
  loan_point record = Some (f, l) ->
  LogisticRegression.train_body i record (featureData, labels, fi) w
  = (Ret (<[Z.to_nat (fi + 1) := 1%Q]> (<[Z.to_nat fi := f]> featureData),
          <[Z.to_nat i := l]> labels, fi + 2), w).
Proof.
  intros Hi Hfi Hfd Hbig Hp.
  unfold loan_point in Hp.
  destruct (record !! 0%nat) as [s0|] eqn:E0; [|discriminate].
  cbn [mbind option_bind] in Hp.
  destruct (ParseFloat s0) as [e|f'] eqn:P0; [discriminate|].
  cbn [ok mbind option_bind] in Hp.
  destruct (record !! 1%nat) as [s1|] eqn:E1; [|discriminate].
  cbn [mbind option_bind] in Hp.
  destruct (ParseFloat s1) as [e|l'] eqn:P1; [discriminate|].
  cbn [ok mbind option_bind] in Hp. injection Hp as -> ->.
  assert (Hadd1 : int_add fi 1 = fi + 1)
    by (unfold int_add; apply wrap64_id; lia).
  assert (Hadd2 : int_add fi 2 = fi + 2)
    by (unfold int_add; apply wrap64_id; lia).
  unfold LogisticRegression.train_body.
  rewrite decide_False by lia.
  erewrite bind_ret by (apply index_Some; [lia|exact E0]).
  rewrite P0. erewrite bind_ret by reflexivity.
  erewrite bind_ret by (apply store_ok; lia).
  erewrite bind_ret
    by (apply store_ok; unfold len in *; rewrite length_insert; lia).
  erewrite bind_ret by (apply index_Some; [lia|exact E1]).
  rewrite P1. erewrite bind_ret by reflexivity.
  erewrite bind_ret by (apply store_ok; lia).
  rewrite Hadd1, Hadd2. reflexivity.
Qed.

Lemma loan_train_loop (rest : list (list string)) :
  forall (pts : list (float64 * float64)) (drows : list (float64 * float64))
         (dlab : list float64) (w : World),
    mapM loan_point rest = Some pts ->
    length drows = length dlab ->
    Z.of_nat (length drows + length rest) < 2 ^ 60 ->
    exists fi,
      range_from (Z.of_nat (length drows) + 1) rest
        LogisticRegression.train_body
        (flat drows ++ replicate (2 * (length rest + 1)) 0%Q,
         (0%Q :: dlab) ++ replicate (length rest) 0%Q,
         2 * Z.of_nat (length drows)) w
      = (Ret (flat (drows ++ ((fun p => (fst p, 1%Q)) <$> pts)) ++ [0%Q; 0%Q],
              0%Q :: dlab ++ (snd <$> pts), fi), w).
Proof.
  induction rest as [|record rest IH]; intros pts drows dlab w Hm Hlen Hbig.
  - injection Hm as <-. eexists. cbn [range_from fmap list_fmap length].
    rewrite !app_nil_r. reflexivity.
  - cbn [mapM] in Hm.
    destruct (loan_point record) as [[f l]|] eqn:Hp; [|discriminate].
    cbn [mbind option_bind] in Hm.
    destruct (mapM loan_point rest) as [pts'|] eqn:Hm'; [|discriminate].
    injection Hm as <-. cbn [length] in Hbig.
    destruct (IH pts' (drows ++ [(f, 1%Q)]) (dlab ++ [l]) w eq_refl)
      as [fi Hrest].
    { rewrite !length_app. cbn. lia. }
    { rewrite length_app. cbn [length]. lia. }
    exists fi. cbn [range_from].
    erewrite bind_ret.
    2:{ apply (loan_train_step_ok _ _ record _ _ f l); try exact Hp;
          unfold len; cbn [length];
          rewrite ?length_app, ?length_replicate, ?flat_length;
          cbn [length]; unfold float64 in *; lia. }
    rewrite length_app in Hrest. cbn [length] in Hrest.
    replace (Z.of_nat (length drows + 1) + 1)
      with (Z.of_nat (length drows) + 1 + 1) in Hrest by lia.
    replace (2 * Z.of_nat (length drows + 1))
      with (2 * Z.of_nat (length drows) + 2) in Hrest by lia.
    rewrite <- !app_assoc in Hrest. cbn [app] in Hrest.
    assert (E1 : <[Z.to_nat (2 * Z.of_nat (length drows) + 1) := 1%Q]>
                   (<[Z.to_nat (2 * Z.of_nat (length drows)) := f]>
                      (flat drows
                       ++ replicate (2 * (length (record :: rest) + 1)) 0%Q))
                 = flat (drows ++ [(f, 1%Q)])
                   ++ replicate (2 * (length rest + 1)) 0%Q).
    { replace (Z.to_nat (2 * Z.of_nat (length drows) + 1))
        with (length (flat drows) + 1)%nat by (rewrite flat_length; lia).
      replace (Z.to_nat (2 * Z.of_nat (length drows)))
        with (length (flat drows) + 0)%nat by (rewrite flat_length; lia).
      rewrite !insert_app_r.
      replace (2 * (length (record :: rest) + 1))%nat
        with (S (S (2 * (length rest + 1)))) by (cbn [length]; lia).
      rewrite flat_snoc, <- app_assoc. reflexivity. }
    assert (E2 : <[Z.to_nat (Z.of_nat (length drows) + 1) := l]>
                   ((0%Q :: dlab) ++ replicate (length (record :: rest)) 0%Q)
                 = 0%Q :: (dlab ++ [l]) ++ replicate (length rest) 0%Q).
    { replace (Z.to_nat (Z.of_nat (length drows) + 1))
        with (length (0%Q :: dlab) + 0)%nat
        by (cbn [length]; unfold float64 in *; lia).
      rewrite insert_app_r, <- app_assoc. reflexivity. }
    rewrite E1. etransitivity; [|exact Hrest].
    apply (f_equal
             (fun b => range_from (Z.of_nat (length drows) + 1 + 1) rest
                         LogisticRegression.train_body
                         (flat (drows ++ [(f, 1%Q)])
                          ++ replicate (2 * (length rest + 1)) 0%Q, b,
                          2 * Z.of_nat (length drows) + 2) w)).
    exact E2.
Qed.

Lemma logisticRegression_ok (rows : list (float64 * float64))
    (labels : list float64) (w : World) :
  length rows = length labels ->
  LogisticRegression.logisticRegression (dense2 rows) labels 100 (3 # 10) w
  = (Ret (weights_of
            (Nat.iter 100 (gd_epoch (3 # 10) (zip rows labels))
               (Float64 (clock w) 0, Float64 (clock w) 1))), w).
Proof.
  intros Hlen.
  unfold LogisticRegression.logisticRegression, LogisticRegression.descend.
  pose proof (initial_weights w) as Hinit.
  unfold bind in Hinit |- *. cbn [dense2 mcols].
  destruct (make 0%Q 2 w) as [[ws0| |] w0]; try discriminate.
  destruct (time_Now_UnixNano w0) as [[seed| |] w1]; try discriminate.
  rewrite Hinit.
  apply (descend_ok rows labels (3 # 10) w 100 Hlen 0).
Qed.

Lemma loan_train_run (w : World) (f : list csv_line)
    (header : list string) (rest : list (list string))
    (pts : list (float64 * float64)) :
  fs w !! LogisticRegression.trainingDataSet = Some f ->
  csv_ReadAll 2 f = inr (header :: rest) ->
  mapM loan_point rest = Some pts ->
  len rest < 2 ^ 60 ->
  LogisticRegression.train w
  = (Ret tt,
     set_stdout
       (stdout w
        ++ [formula_text
              (Nat.iter 100 (gd_epoch (3 # 10) (train_examples pts))
                 (Float64 (clock w) 0, Float64 (clock w) 1))]) w).
Proof.
  intros Hf Hc Hm Hn.
  pose proof (length_mapM _ _ _ Hm) as Hpl.
  assert (Hrl : length (train_rows pts) = length (train_labels pts)).
  { unfold train_rows, train_labels.
    cbn [length]. rewrite length_app, !length_fmap. cbn [length]. lia. }
  set (L := len (header :: rest)).
  assert (HL : L = 1 + len rest)
    by (unfold L, len; cbn [length]; lia).
  assert (Hmul : int_mul 2 L = 2 * L)
    by (unfold int_mul; apply wrap64_id; unfold len in *; lia).
  destruct (loan_train_loop rest pts [] [] w Hm eq_refl) as [fi Hloop];
    [unfold len in *; cbn [length]; lia|].
  change (flat [] ++ ?x) with x in Hloop.
  cbn [length app Z.of_nat] in Hloop.
  unfold LogisticRegression.train.
  open_file Hf. rewrite Hc. erewrite bind_ret by reflexivity.
  fold L. rewrite Hmul.
  erewrite bind_ret
    by (unfold make; rewrite decide_True by (unfold len in *; lia);
        reflexivity).
  erewrite bind_ret
    by (unfold make; rewrite decide_True by (unfold len in *; lia);
        reflexivity).
  erewrite bind_ret.
  2:{ unfold range. cbn [range_from].
      unfold LogisticRegression.train_body at 1.
      rewrite decide_True by reflexivity.
      erewrite bind_ret by reflexivity.
      replace (Z.to_nat (2 * L)) with (2 * (length rest + 1))%nat
        by (unfold len in *; lia).
      replace (Z.to_nat L) with (S (length rest))
        by (unfold len in *; lia).
      exact Hloop. }
  assert (Hflat : flat ((fun p => (fst p, 1%Q)) <$> pts) ++ [0%Q; 0%Q]
                  = flat (train_rows pts))
    by (unfold train_rows; now rewrite flat_snoc).
  rewrite Hflat.
  erewrite bind_ret.
  2:{ unfold mat64_NewDense. rewrite decide_True; [reflexivity|].
      unfold int_mul, len. rewrite flat_length, wrap64_id.
      - unfold train_rows. rewrite length_app, length_fmap.
        unfold L, len. cbn [length]. lia.
      - unfold L, len in *. cbn [length] in *. lia. }
  assert (Hd : mkDense L 2 (flat (train_rows pts))
               = dense2 (train_rows pts)).
  { unfold dense2. f_equal. unfold L, len, train_rows.
    rewrite length_app, length_fmap. cbn [length]. lia. }
  rewrite Hd.
  erewrite bind_ret
    by (apply (logisticRegression_ok (train_rows pts) (train_labels pts));
        exact Hrl).
  fold (train_examples pts).
  erewrite bind_ret by (apply index_Some; [lia|reflexivity]).
  erewrite bind_ret by (apply index_Some; [lia|reflexivity]).
  reflexivity.
Qed.

(** X6.  [train] of the loan script, on a training file whose rows all
    parse, prints the weights of 100 passes of the descent over examples
    that are one row out of step: the score of data row k + 1 goes with the
    label of data row k, the first score goes with the label 0 of the header
    position, and the last label goes with a row of zeros. *)
Theorem loan_train_examples_out_of_step (w : World) (f : list csv_line)
    (header : list string) (rest : list (list string))
    (pts : list (float64 * float64)) :
  fs w !! LogisticRegression.trainingDataSet = Some f ->
  csv_ReadAll 2 f = inr (header :: rest) ->
  mapM loan_point rest = Some pts ->
  len rest < 2 ^ 60 ->
  LogisticRegression.train w
  = (Ret tt,
     set_stdout
       (stdout w
        ++ [formula_text
              (Nat.iter 100 (gd_epoch (3 # 10) (train_examples pts))
                 (Float64 (clock w) 0, Float64 (clock w) 1))]) w)
  /\ length (train_examples pts) = S (length rest)
  /\ (forall (k : nat) (p q : float64 * float64),
        pts !! k = Some p -> pts !! S k = Some q ->
        train_examples pts !! S k = Some (fst q, 1%Q, snd p))
  /\ (forall p, pts !! 0%nat = Some p ->
        train_examples pts !! 0%nat = Some (fst p, 1%Q, 0%Q))
  /\ (forall p, last pts = Some p ->
        last (train_examples pts) = Some (0%Q, 0%Q, snd p)).
Proof.
  intros Hf Hc Hm Hn.
  pose proof (length_mapM _ _ _ Hm) as Hpl.
  assert (Hrl : length (train_rows pts) = length (train_labels pts)).
  { unfold train_rows, train_labels.
    cbn [length]. rewrite length_app, !length_fmap. cbn [length]. lia. }
  split; [|split; [|split; [|split]]].
  - apply (loan_train_run w f header rest pts); assumption.
  - unfold train_examples. rewrite length_zip_with, <- Hrl.
    unfold train_rows. rewrite length_app, length_fmap.
    cbn [length]. lia.
  - intros k p q Hp Hq. unfold train_examples, train_rows, train_labels.
    apply lookup_zip_with_Some. exists (fst q, 1%Q), (snd p).
    split; [reflexivity|]. split.
    + rewrite lookup_app_l
        by (rewrite length_fmap; now apply lookup_lt_Some in Hq).
      now rewrite list_lookup_fmap, Hq.
    + change ((snd <$> pts) !! k = Some (snd p)).
      now rewrite list_lookup_fmap, Hp.
  - intros p Hp. destruct pts as [|p0 pts0]; [discriminate|].
    injection Hp as ->. reflexivity.
  - intros p Hp. apply last_Some in Hp as [pts0 ->].
    unfold train_examples, train_rows, train_labels.
    rewrite !fmap_app. cbn [fmap list_fmap].
    rewrite (app_comm_cons (snd <$> pts0) [snd p] 0%Q).
    rewrite zip_with_app
      by (rewrite length_app; cbn [length]; rewrite !length_fmap; lia).
    exact (last_snoc _ _).
Qed.
(** C6.  What [train] prints are the weights after exactly 100 passes of
    the trainer at learning rate 0.3, from the random initial weights on,
    whatever the error: no pass is cut short and none is added.  In a pass
    each example adds learningRate * (label - pred) * pred * (1 - pred) *
    feature to each weight, where pred is the logistic function of the
    product feature0 * weight0 * feature1 * weight1.  The examples [train]
    hands over are one row out of step: the label that goes with the score
    of a data row is the label of the data row before it (0 for the first
    row), and the label of the last data row goes with a row of zeros. *)
Theorem gradient_descent (w : World) (f : list csv_line)
    (header : list string) (rest : list (list string))
    (pts : list (float64 * float64)) :
  fs w !! LogisticRegression.trainingDataSet = Some f ->
  csv_ReadAll 2 f = inr (header :: rest) ->
  mapM loan_point rest = Some pts ->
  len rest < 2 ^ 60 ->
  LogisticRegression.train w
  = (Ret tt,
     set_stdout
       (stdout w
        ++ [formula_text
              (Nat.iter 100 (gd_epoch (3 # 10) (train_examples pts))
                 (Float64 (clock w) 0, Float64 (clock w) 1))]) w)
  /\ (forall rs ws, gd_epoch (3 # 10) rs ws = fold_left (gd_row (3 # 10)) rs ws)
  /\ (forall w0 w1 f0 f1 label,
        let pred := (1 / (1 + Exp (- (f0 * w0 * f1 * w1))))%Q in
        gd_row (3 # 10) (w0, w1) (f0, f1, label)
        = ((w0 + (3 # 10) * (label - pred) * pred * (1 - pred) * f0)%Q,
           (w1 + (3 # 10) * (label - pred) * pred * (1 - pred) * f1)%Q))
  /\ train_examples pts
     = zip (((fun p => (fst p, 1%Q)) <$> pts) ++ [(0%Q, 0%Q)])
           (0%Q :: (snd <$> pts))
  /\ (forall (k : nat) (score label : float64),
        pts !! k = Some (score, label) ->
        exists label',
          train_examples pts !! k = Some (score, 1%Q, label')
          /\ match k with
             | O => label' = 0%Q
             | S j => exists score', pts !! j = Some (score', label')
             end).
Proof.
  intros Hf Hc Hm Hn.
  split; [|split; [reflexivity|split; [reflexivity|split; [reflexivity|]]]].
  - apply (loan_train_run w f header rest pts); assumption.
  - intros k score label Hk.
    unfold train_examples, train_rows, train_labels.
    destruct k as [|j].
    + exists 0%Q. split; [|reflexivity].
      destruct pts as [|p0 pts0]; [discriminate|].
      injection Hk as ->. reflexivity.
    + destruct (lookup_lt_is_Some_2 pts j) as [[score' label'] Hj];
        [apply lookup_lt_Some in Hk; lia|].
      exists label'. split; [|eauto].
      apply lookup_zip_with_Some. exists (score, 1%Q), label'.
      split; [reflexivity|]. split.
      * rewrite lookup_app_l
          by (rewrite length_fmap; now apply lookup_lt_Some in Hk).
        now rewrite list_lookup_fmap, Hk.
      * change ((snd <$> pts) !! j = Some label').
        now rewrite list_lookup_fmap, Hj.
Qed.
End LoanTraining.

Lemma loan_train_examples_out_of_step_witness :
  @train_examples [((1 # 2)%Q, 1%Q); ((1 # 5)%Q, 0%Q)]
  = [((1 # 2)%Q, 1%Q, 0%Q); ((1 # 5)%Q, 1%Q, 1%Q); (0%Q, 0%Q, 0%Q)]
  /\ @LogisticRegression.train Reference.strconv Reference.math
       Reference.exprand loanTrainingWorld
     = (Ret tt,
        set_stdout
          [@formula_text Reference.strconv
             (Nat.iter 100
                (@gd_epoch Reference.math (3 # 10)
                   (train_examples [((1 # 2)%Q, 1%Q); ((1 # 5)%Q, 0%Q)]))
                (@Float64 Reference.exprand 0 0,
                 @Float64 Reference.exprand 0 1))] loanTrainingWorld).
Proof.
  split; [reflexivity|].
  destruct (@loan_train_examples_out_of_step Reference.strconv Reference.math
              Reference.exprand loanTrainingWorld (Fields <$> loanTraining2)
              ["FICO.Range"; "Interest.Rate"]
              [["0.5000"; "1.0"]; ["0.2000"; "0.0"]]
              [((1 # 2)%Q, 1%Q); ((1 # 5)%Q, 0%Q)]) as (W1 & _);
    [reflexivity|reflexivity|vm_compute; reflexivity|vm_compute; reflexivity|].
  exact W1.
Defined.

Lemma gradient_descent_witness :
  @LogisticRegression.train Reference.strconv Reference.math
    Reference.exprand loanTrainingWorld
  = (Ret tt,
     set_stdout
       [@formula_text Reference.strconv
          (Nat.iter 100
             (@gd_epoch Reference.math (3 # 10)
                [((1 # 2)%Q, 1%Q, 0%Q); ((1 # 5)%Q, 1%Q, 1%Q);
                 (0%Q, 0%Q, 0%Q)])
             (@Float64 Reference.exprand 0 0,
              @Float64 Reference.exprand 0 1))] loanTrainingWorld).
Proof.
  destruct (@gradient_descent Reference.strconv Reference.math
              Reference.exprand loanTrainingWorld (Fields <$> loanTraining2)
              ["FICO.Range"; "Interest.Rate"]
              [["0.5000"; "1.0"]; ["0.2000"; "0.0"]]
              [((1 # 2)%Q, 1%Q); ((1 # 5)%Q, 0%Q)]) as (W1 & _);
    [reflexivity|reflexivity|vm_compute; reflexivity|vm_compute; reflexivity|].
  exact W1.
Defined.

(** ** The loan script: evaluation *)

Lemma range_from_app {A S} (l1 l2 : list A) (body : Z -> A -> S -> M S) :
  forall (i : Z) (s : S) (w : World),
    range_from i (l1 ++ l2) body s w
    = (let* s' := range_from i l1 body s in
       range_from (i + len l1) l2 body s') w.
Proof.
  induction l1 as [|x l1 IH]; intros i s w.
  - cbn [app range_from]. unfold bind, ret, len. cbn [length Z.of_nat].
    now rewrite Z.add_0_r.
  - cbn [app range_from]. unfold bind.
    destruct (body i x s w) as [[s'| |] w']; [|reflexivity|reflexivity].
    rewrite IH. unfold bind.
    replace (i + len (x :: l1)) with (i + 1 + len l1)
      by (unfold len; cbn [length]; lia).
    reflexivity.
Qed.

Section EvaluationExtras.
Context `{Strconv, Math, Float64Ops}.

Lemma kept_app (pre post : list csv_line) :
  kept (pre ++ post) = kept pre ++ kept post.
Proof. unfold kept. apply omap_app. Qed.

Lemma skip_log_app (pre post : list csv_line) :
  forall line : Z,
    skip_log line (pre ++ post)
    = skip_log line pre ++ skip_log (line + len (kept pre)) post.
Proof.
  induction pre as [|ln pre IH]; intros line.
  - cbn [app skip_log]. unfold kept, len. cbn [omap length Z.of_nat].
    now rewrite Z.add_0_r.
  - cbn [app skip_log]. rewrite kept_cons.
    destruct (evalRow ln).
    + rewrite IH. unfold len. cbn [length].
      replace (line + 1 + Z.of_nat (length (kept pre)))
        with (line + Z.of_nat (S (length (kept pre)))) by lia.
      reflexivity.
    + rewrite IH. reflexivity.
Qed.

(** X7.  The evaluation of the loan model does not look at the reader's
    error, so a line of the test file with fewer than two fields is indexed
    out of range: the run panics there (exit status 2) and prints no
    accuracy; the rows skipped before it have their log lines. *)
Theorem loan_test_short_line_panics (w : World) (header ln : csv_line)
    (pre post : list csv_line) :
  fs w !! LogisticRegression.testDataSet = Some (header :: pre ++ ln :: post) ->
  Forall (fun l => (2 <= length (line_fields l))%nat) pre ->
  (length (line_fields ln) < 2)%nat ->
  len pre < 2 ^ 62 ->
  LogisticRegression.test w
  = (Panic, set_logged (logged w ++ skip_log 2 pre) w)
  /\ exit_status (fst (LogisticRegression.test w)) = 2
  /\ stdout (snd (LogisticRegression.test w)) = stdout w.
Proof.
  intros Hf Hpre Hln Hn.
  assert (E : LogisticRegression.test w
              = (Panic, set_logged (logged w ++ skip_log 2 pre) w)).
  { unfold LogisticRegression.test.
    open_file Hf.
    unfold LogisticRegression.readLoop, range. cbn [range_from].
    unfold bind at 1. unfold bind at 1.
    unfold LogisticRegression.read_body at 1.
    rewrite decide_True by reflexivity. cbn [ret].
    change (int_add 1 1) with 2.
    rewrite range_from_app. unfold bind at 1.
    rewrite (read_loop pre (0 + 1) 2 [] [] w) by (try lia; assumption).
    cbn [range_from app]. unfold bind at 1.
    unfold LogisticRegression.read_body at 1.
    pose proof (kept_length pre) as Hk.
    rewrite decide_False by (unfold len in *; lia).
    unfold bind at 1. unfold index.
    rewrite decide_True by lia.
    rewrite (lookup_ge_None_2 (line_fields ln) (Z.to_nat 1))
      by (change (Z.to_nat 1) with 1%nat; lia).
    reflexivity. }
  rewrite E. repeat split.
Qed.

(** X8.  The line counter of the evaluation does not advance on a skipped
    row, so the number in a log line is 2 plus the number of rows accepted
    before it: it is the line of the row in the file only as long as no
    earlier row was skipped. *)
Theorem loan_test_log_line_numbers (w : World) (header bad : csv_line)
    (pre post : list csv_line) :
  fs w !! LogisticRegression.testDataSet
  = Some (header :: pre ++ bad :: post) ->
  Forall (fun l => (2 <= length (line_fields l))%nat) (pre ++ bad :: post) ->
  len (pre ++ bad :: post) < 2 ^ 62 ->
  evalRow bad = None ->
  logged (snd (LogisticRegression.test w))
  = logged w ++ skip_log 2 pre
    ++ LogPrintf "Parsing line %d failed, unexpected type"
         (2 + len (kept pre))
       :: skip_log (2 + len (kept pre)) post
  /\ (2 + len (kept pre) = 2 + len pre <-> skip_log 2 pre = []).
Proof.
  intros Hf Hall Hn Hbad. split.
  - rewrite (logistic_test_ok w header (pre ++ bad :: post) Hf Hall Hn).
    cbn [snd set_stdout set_logged logged]. f_equal.
    rewrite skip_log_app. cbn [skip_log]. now rewrite Hbad.
  - pose proof (skip_or_keep pre 2) as Hs. unfold len. split.
    + intros E. apply nil_length_inv. lia.
    + intros E. rewrite E in Hs. cbn [length] in Hs. lia.
Qed.
End EvaluationExtras.

Lemma loan_test_short_line_panics_witness :
  @LogisticRegression.test Reference.strconv Reference.math
     Reference.float64ops
     loanTestShortWorld
  = (Panic,
     set_logged [LogPrintf "Parsing line %d failed, unexpected type" 3]
       loanTestShortWorld).
Proof.
  destruct (@loan_test_short_line_panics Reference.strconv Reference.math
              Reference.float64ops
              loanTestShortWorld
              (Fields ["FICO.Range"; "Interest.Rate"]) (Fields ["0.7000"])
              [Fields ["0.9000"; "1.0"]; Fields ["0.5000"; "n/a"]]
              [Fields ["0.1000"; "0.0"]]) as (W1 & _);
    [reflexivity|repeat constructor|cbn; lia|vm_compute; reflexivity|].
  rewrite W1. vm_compute. reflexivity.
Defined.

Lemma loan_test_log_line_numbers_witness :
  logged (snd (@LogisticRegression.test Reference.strconv Reference.math
                 Reference.float64ops
                 loanTestTwoBadWorld))
  = [LogPrintf "Parsing line %d failed, unexpected type" 3;
     LogPrintf "Parsing line %d failed, unexpected type" 3].
Proof.
  destruct (@loan_test_log_line_numbers Reference.strconv Reference.math
              Reference.float64ops
              loanTestTwoBadWorld
              (Fields ["FICO.Range"; "Interest.Rate"])
              (Fields ["high"; "1.0"])
              [Fields ["0.9000"; "1.0"]; Fields ["0.5000"; "n/a"]]
              [Fields ["0.1000"; "0.0"]]) as (W1 & _);
    [reflexivity|repeat constructor|vm_compute; reflexivity
    |vm_compute; reflexivity|].
  rewrite W1. vm_compute. reflexivity.
Defined.

(** ** The files a stage can write *)

Section Frames.
Variable paths : gset string.

Lemma writes_ret {A} (a : A) : writes_only paths (ret a).
Proof. intros w p _. reflexivity. Qed.

Lemma writes_bind {A B} (m : M A) (k : A -> M B) :
  writes_only paths m -> (forall a, writes_only paths (k a)) ->
  writes_only paths (bind m k).
Proof.
  intros Hm Hk w p Hp. specialize (Hm w p Hp). unfold bind.
  destruct (m w) as [[a| |] w1]; cbn [snd] in *; try assumption.
  rewrite <- Hm. apply (Hk a w1 p Hp).
Qed.

Lemma writes_log_Fatal {A} (e : error) : writes_only paths (@log_Fatal A e).
Proof. intros w p _. reflexivity. Qed.

Lemma writes_log_Printf (msg : string) (line : Z) :
  writes_only paths (log_Printf msg line).
Proof. intros w p _. reflexivity. Qed.

Lemma writes_panic {A} : writes_only paths (@panic A).
Proof. intros w p _. reflexivity. Qed.

Lemma writes_fmt_Print (s : string) : writes_only paths (fmt_Print s).
Proof. intros w p _. reflexivity. Qed.

Lemma writes_must {A} (r : error + A) : writes_only paths (must r).
Proof. destruct r; [apply writes_log_Fatal|apply writes_ret]. Qed.

Lemma writes_check (r : option error) : writes_only paths (check r).
Proof. destruct r; [apply writes_log_Fatal|apply writes_ret]. Qed.

Lemma writes_index {A} (l : list A) (i : Z) : writes_only paths (index l i).
Proof.
  unfold index. destruct (decide (0 <= i)); [|apply writes_panic].
  destruct (l !! Z.to_nat i); [apply writes_ret|apply writes_panic].
Qed.

Lemma writes_store {A} (l : list A) (i : Z) (v : A) :
  writes_only paths (store l i v).
Proof.
  unfold store.
  destruct (decide (0 <= i < len l)); [apply writes_ret|apply writes_panic].
Qed.

Lemma writes_make {A} (z : A) (n : Z) : writes_only paths (make z n).
Proof.
  unfold make. destruct (decide (0 <= n)); [apply writes_ret|apply writes_panic].
Qed.

Lemma writes_make_ints (n : Z) : writes_only paths (make_ints n).
Proof.
  unfold make_ints.
  destruct (decide (0 <= n)); [apply writes_ret|apply writes_panic].
Qed.

Lemma writes_time : writes_only paths time_Now_UnixNano.
Proof. intros w p _. reflexivity. Qed.

Lemma writes_os_Open (path : string) : writes_only paths (os_Open path).
Proof.
  intros w p _. unfold os_Open. now destruct (fs w !! path).
Qed.

Lemma writes_os_Create (path : string) :
  path ∈ paths -> writes_only paths (os_Create path).
Proof.
  intros Hin w p Hp. unfold os_Create.
  destruct (decide (path ∈ readonly w)); [reflexivity|].
  cbn. apply lookup_insert_ne. intros ->. contradiction.
Qed.

Lemma writes_write_lines (path : string) (ls : list csv_line) :
  path ∈ paths -> writes_only paths (write_lines path ls).
Proof.
  intros Hin w p Hp. unfold write_lines. cbn.
  apply lookup_insert_ne. intros ->. contradiction.
Qed.

Lemma writes_plot_Save (file : string) : writes_only paths (plot_Save file).
Proof.
  intros w p _. unfold plot_Save.
  now destruct (decide (file ∈ readonly w)).
Qed.

Lemma writes_mat64_NewDense (r c : Z) (data : list float64) :
  writes_only paths (mat64_NewDense r c data).
Proof.
  unfold mat64_NewDense.
  destruct (decide (int_mul r c = len data));
    [apply writes_ret|apply writes_panic].
Qed.

Lemma writes_mat64_Row (i : Z) (m : Dense) :
  writes_only paths (mat64_Row i m).
Proof.
  unfold mat64_Row.
  destruct (decide (0 <= i < mrows m)); [apply writes_ret|apply writes_panic].
Qed.

Lemma writes_range_from {A S} (l : list A) (body : Z -> A -> S -> M S) :
  (forall i x s, writes_only paths (body i x s)) ->
  forall i s, writes_only paths (range_from i l body s).
Proof.
  intros Hb. induction l as [|x l IH]; intros i s; cbn [range_from].
  - apply writes_ret.
  - apply writes_bind; [apply Hb|]. intros s'. apply IH.
Qed.

Lemma writes_range {A S} (l : list A) (body : Z -> A -> S -> M S) (s : S) :
  (forall i x s, writes_only paths (body i x s)) ->
  writes_only paths (range l body s).
Proof. intros Hb. now apply writes_range_from. Qed.

Lemma writes_count_from_M {S} (fuel : nat) (body : Z -> S -> M S) :
  (forall i s, writes_only paths (body i s)) ->
  forall i s, writes_only paths (count_from_M i fuel body s).
Proof.
  intros Hb. induction fuel as [|fuel IH]; intros i s; cbn [count_from_M].
  - apply writes_ret.
  - apply writes_bind; [apply Hb|]. intros s'. apply IH.
Qed.

Lemma writes_for_upto_M {S} (n : Z) (body : Z -> S -> M S) (s : S) :
  (forall i s, writes_only paths (body i s)) ->
  writes_only paths (for_upto_M n body s).
Proof. intros Hb. now apply writes_count_from_M. Qed.
End Frames.

Section CsvFrames.
Context `{CsvWriter}.
Variable paths : gset string.

Lemma writes_csv_Write (path : string) (records : list (list string)) :
  path ∈ paths -> writes_only paths (csv_Write path records).
Proof.
  intros Hin w p Hp. unfold csv_Write. cbn.
  apply lookup_insert_ne. intros ->. contradiction.
Qed.

Lemma writes_csv_Flush (path : string) (records : list (list string)) :
  path ∈ paths -> writes_only paths (csv_Flush path records).
Proof.
  intros Hin w p Hp. unfold csv_Flush. cbn.
  apply lookup_insert_ne. intros ->. contradiction.
Qed.

Lemma writes_csv_Error : writes_only paths csv_Error.
Proof. apply writes_ret. Qed.
End CsvFrames.

Lemma writes_only_mono {A} (small large : gset string) (m : M A) :
  small ⊆ large -> writes_only small m -> writes_only large m.
Proof.
  intros Hsub Hm w p Hp. apply Hm. intros Hin. apply Hp, Hsub, Hin.
Qed.

(** Membership in, and inclusion of, sets of paths written out. *)
Ltac in_paths :=
  try (intros ?); rewrite ?elem_of_union, ?elem_of_singleton; tauto.

(** One step of a frame proof: the head of the computation decides. *)
Ltac frame_step :=
  lazymatch goal with
  | |- writes_only _ (bind _ _) => apply writes_bind; [|intros ?]
  | |- writes_only _ (ret _) => apply writes_ret
  | |- writes_only _ (log_Fatal _) => apply writes_log_Fatal
  | |- writes_only _ (log_Printf _ _) => apply writes_log_Printf
  | |- writes_only _ panic => apply writes_panic
  | |- writes_only _ (fmt_Print _) => apply writes_fmt_Print
  | |- writes_only _ (must _) => apply writes_must
  | |- writes_only _ (check _) => apply writes_check
  | |- writes_only _ (index _ _) => apply writes_index
  | |- writes_only _ (store _ _ _) => apply writes_store
  | |- writes_only _ (make _ _) => apply writes_make
  | |- writes_only _ (make_ints _) => apply writes_make_ints
  | |- writes_only _ time_Now_UnixNano => apply writes_time
  | |- writes_only _ (os_Open _) => apply writes_os_Open
  | |- writes_only _ (os_Create _) => apply writes_os_Create; in_paths
  | |- writes_only _ (write_lines _ _) =>
      apply writes_write_lines; in_paths
  | |- writes_only _ (csv_Write _ _) => apply writes_csv_Write; in_paths
  | |- writes_only _ (csv_Flush _ _) => apply writes_csv_Flush; in_paths
  | |- writes_only _ csv_Error => apply writes_csv_Error
  | |- writes_only _ (plot_Save _) => apply writes_plot_Save
  | |- writes_only _ (mat64_NewDense _ _ _) => apply writes_mat64_NewDense
  | |- writes_only _ (mat64_Row _ _) => apply writes_mat64_Row
  | |- writes_only _ (range _ _ _) => apply writes_range; intros ? ? ?
  | |- writes_only _ (range_from _ _ _ _) =>
      apply writes_range_from; intros ? ? ?
  | |- writes_only _ (for_upto_M _ _ _) => apply writes_for_upto_M; intros ? ?
  | |- writes_only _ (match ?x with _ => _ end) => destruct x
  | |- writes_only _ (let _ := _ in _) => cbv zeta
  end.

Ltac frame := repeat frame_step.

Section LinearFrames.
Context `{Strconv, Gota, Plot, Regression}.

Lemma writes_col_floats (paths : gset string) (df : DataFrame)
    (name : string) :
  writes_only paths (LinearRegression.col_floats df name).
Proof. unfold LinearRegression.col_floats. frame. Qed.

Lemma writes_create_and_write (paths : gset string) (df : DataFrame)
    (path : string) :
  path ∈ paths ->
  writes_only paths
    (let* r := os_Create path in
     let* out := must r in
     let* err := WriteCSV df out in
     check err).
Proof.
  intros Hin w p Hp.
  assert (Hne : path <> p) by (intros E; rewrite E in Hin; contradiction).
  unfold bind, os_Create, must, ret, WriteCSV, write_lines, check, log_Fatal.
  destruct (decide (path ∈ readonly w)); [reflexivity|].
  destruct (Err df); cbn; now rewrite ?lookup_insert_ne by assumption.
Qed.

Lemma writes_splitData_at (source trainingPath testPath : string) :
  writes_only {[trainingPath; testPath]}
    (splitData_at source trainingPath testPath).
Proof.
  unfold splitData_at.
  apply writes_bind; [frame|intros r].
  apply writes_bind; [frame|intros f]. cbv zeta.
  apply writes_bind; [unfold splitFrames, splitIndices; frame|intros sets].
  unfold range. cbn [range_from].
  apply writes_bind; [apply writes_create_and_write; in_paths|intros u1].
  apply writes_bind; [apply writes_create_and_write; in_paths|intros u2].
  apply writes_ret.
Qed.

(** X9.  Of the stages of the advertising script only the split writes
    CSV files, and only the training and the test file: profiling, the
    scatter plots, training, evaluation and the final plot leave every CSV
    file as it is, whether they finish or fail; so the whole script leaves
    the dataset itself untouched. *)
Theorem advertising_script_writes (r : Model) :
  writes_only ∅ LinearRegression.dataProfiling
  /\ writes_only ∅ LinearRegression.chooseIndependentVariable
  /\ writes_only {[LinearRegression.trainingDataSet;
                   LinearRegression.testDataSet]}
       LinearRegression.splitData
  /\ writes_only ∅ LinearRegression.train
  /\ writes_only ∅ (LinearRegression.test r)
  /\ writes_only ∅ (LinearRegression.visualizeRegression r)
  /\ forall w, fs (snd (LinearRegression.main w)) !! LinearRegression.dataset
               = fs w !! LinearRegression.dataset.
Proof.
  assert (S1 : forall ps, writes_only ps LinearRegression.dataProfiling).
  { intros ps. unfold LinearRegression.dataProfiling. frame.
    apply writes_col_floats. }
  assert (S2 : forall ps,
             writes_only ps LinearRegression.chooseIndependentVariable).
  { intros ps. unfold LinearRegression.chooseIndependentVariable.
    frame; apply writes_col_floats. }
  assert (S3 : writes_only {[LinearRegression.trainingDataSet;
                             LinearRegression.testDataSet]}
                 LinearRegression.splitData)
    by apply writes_splitData_at.
  assert (S4 : forall ps, writes_only ps LinearRegression.train).
  { intros ps.
    unfold LinearRegression.train, LinearRegression.train_points,
      LinearRegression.train_body.
    frame. }
  assert (S5 : forall ps, writes_only ps (LinearRegression.test r)).
  { intros ps.
    unfold LinearRegression.test, LinearRegression.test_mAE,
      LinearRegression.test_body.
    frame. }
  assert (S6 : forall ps r0,
             writes_only ps (LinearRegression.visualizeRegression r0)).
  { intros ps r0. unfold LinearRegression.visualizeRegression.
    frame; apply writes_col_floats. }
  repeat split; auto.
  intros w.
  assert (Hm : writes_only {[LinearRegression.trainingDataSet;
                             LinearRegression.testDataSet]}
                 LinearRegression.main).
  { unfold LinearRegression.main.
    apply writes_bind; [apply S1|intros _].
    apply writes_bind; [apply S2|intros _].
    apply writes_bind; [apply S3|intros _].
    apply writes_bind; [apply S4|intros r0].
    apply writes_bind; [|intros _; apply S6].
    unfold LinearRegression.test, LinearRegression.test_mAE,
      LinearRegression.test_body.
    frame. }
  apply Hm. apply not_elem_of_union.
  split; apply not_elem_of_singleton; discriminate.
Qed.
End LinearFrames.

Section LoanFrames.
Context `{Strconv, Math, Float64Ops, CsvWriter, Gota, Plot, ExpRand}.

(** X10.  The loan script writes three CSV files: the cleaner the clean
    file, the split the training file and a file "test.csv" in the working
    directory; the histograms, training and evaluation write none.  The
    evaluation reads "../dataset/test.csv", which no stage writes: [main]
    evaluates on that file as it was before the run, not on the rows the
    split set aside.  (Paths are taken as written: two path strings are two
    files, as when the script runs from its own directory.) *)
Theorem loan_script_never_writes_its_test_file :
  writes_only {[LogisticRegression.cleanDataSet]}
    LogisticRegression.dataProfiling
  /\ writes_only ∅ LogisticRegression.savePlotPng
  /\ writes_only {[LogisticRegression.trainingDataSet; "test.csv"]}
       LogisticRegression.splitData
  /\ writes_only ∅ LogisticRegression.train
  /\ writes_only ∅ LogisticRegression.test
  /\ (forall w : World,
        LogisticRegression.main w
        = (exec (exec LogisticRegression.dataProfiling in
                 exec LogisticRegression.savePlotPng in
                 exec LogisticRegression.splitData in
                 LogisticRegression.train) in
           LogisticRegression.test) w
        /\ fs (snd ((exec LogisticRegression.dataProfiling in
                     exec LogisticRegression.savePlotPng in
                     exec LogisticRegression.splitData in
                     LogisticRegression.train) w))
             !! LogisticRegression.testDataSet
           = fs w !! LogisticRegression.testDataSet
        /\ fs (snd (LogisticRegression.main w))
             !! LogisticRegression.testDataSet
           = fs w !! LogisticRegression.testDataSet).
Proof.
  assert (S1 : writes_only {[LogisticRegression.cleanDataSet]}
                 LogisticRegression.dataProfiling).
  { unfold LogisticRegression.dataProfiling.
    apply writes_bind; [frame|intros o].
    apply writes_bind; [frame|intros f].
    apply writes_bind; [frame|intros rawCSVData].
    intros w p Hp.
    assert (Hne : LogisticRegression.cleanDataSet <> p)
      by (intros E; apply Hp; rewrite <- E; now apply elem_of_singleton).
    unfold bind at 1. unfold os_Create.
    destruct (decide (LogisticRegression.cleanDataSet ∈ readonly w));
      [reflexivity|].
    unfold bind at 1. cbn [must ret].
    assert (Hrest : writes_only {[LogisticRegression.cleanDataSet]}
              (let* written :=
                 range rawCSVData
                   (LogisticRegression.clean_body
                      LogisticRegression.cleanDataSet) [] in
               exec csv_Flush LogisticRegression.cleanDataSet written in
               let* err := csv_Error in
               check err)).
    { unfold LogisticRegression.clean_body, LogisticRegression.cleanRecord.
      frame. }
    rewrite (Hrest _ p Hp). cbn [fs set_fs].
    now apply lookup_insert_ne. }
  assert (S2 : forall ps, writes_only ps LogisticRegression.savePlotPng).
  { intros ps. unfold LogisticRegression.savePlotPng. frame. }
  assert (S3 : writes_only {[LogisticRegression.trainingDataSet; "test.csv"]}
                 LogisticRegression.splitData)
    by exact (writes_splitData_at LogisticRegression.cleanDataSet
                LogisticRegression.trainingDataSet "test.csv").
  assert (S4 : forall ps, writes_only ps LogisticRegression.train).
  { intros ps.
    unfold LogisticRegression.train, LogisticRegression.train_body,
      LogisticRegression.logisticRegression, LogisticRegression.descend,
      LogisticRegression.updateRow.
    frame. }
  assert (S5 : forall ps, writes_only ps LogisticRegression.test).
  { intros ps.
    unfold LogisticRegression.test, LogisticRegression.readLoop,
      LogisticRegression.read_body, LogisticRegression.countCorrect,
      LogisticRegression.count_body.
    frame. }
  set (written := ({[LogisticRegression.cleanDataSet;
                     LogisticRegression.trainingDataSet; "test.csv"]}
                   : gset string)).
  assert (Hout : LogisticRegression.testDataSet ∉ written).
  { unfold written. rewrite !not_elem_of_union.
    repeat split; apply not_elem_of_singleton; discriminate. }
  assert (P : writes_only written
                (exec LogisticRegression.dataProfiling in
                 exec LogisticRegression.savePlotPng in
                 exec LogisticRegression.splitData in
                 LogisticRegression.train)).
  { apply writes_bind;
      [apply (writes_only_mono {[LogisticRegression.cleanDataSet]});
         [unfold written; in_paths|exact S1]|intros _].
    apply writes_bind; [apply S2|intros _].
    apply writes_bind;
      [apply (writes_only_mono
                {[LogisticRegression.trainingDataSet; "test.csv"]});
         [unfold written; in_paths|exact S3]|intros _].
    apply S4. }
  assert (E : forall w,
             LogisticRegression.main w
             = (exec (exec LogisticRegression.dataProfiling in
                      exec LogisticRegression.savePlotPng in
                      exec LogisticRegression.splitData in
                      LogisticRegression.train) in
                LogisticRegression.test) w).
  { intros w. unfold LogisticRegression.main, bind.
    destruct (LogisticRegression.dataProfiling w) as [[[]| |] w1];
      [|reflexivity|reflexivity].
    destruct (LogisticRegression.savePlotPng w1) as [[[]| |] w2];
      [|reflexivity|reflexivity].
    destruct (LogisticRegression.splitData w2) as [[[]| |] w3];
      [|reflexivity|reflexivity].
    destruct (LogisticRegression.train w3) as [[[]| |] w4]; reflexivity. }
  split; [exact S1|]. split; [apply S2|]. split; [exact S3|].
  split; [apply S4|]. split; [apply S5|].
  intros w. split; [apply E|]. split; [apply (P w _ Hout)|].
  rewrite E.
  apply (writes_bind written _ _ P (fun _ => S5 written) w _ Hout).
Qed.
End LoanFrames.

(** ** The plots of the profiling stages *)

Lemma fill_values (rest : list float64) :
  forall (done : list float64) (w : World),
    range_from (len done) rest (fun i floatVal vals => store vals i floatVal)
      (done ++ replicate (length rest) 0%Q) w
    = (Ret (done ++ rest), w).
Proof.
  induction rest as [|x rest IH]; intros done w.
  - reflexivity.
  - cbn [range_from length replicate].
    erewrite bind_ret.
    2:{ apply store_ok. unfold len. rewrite length_app. cbn [length]. lia. }
    unfold len. rewrite Nat2Z.id.
    rewrite insert_app_r_alt by lia. rewrite Nat.sub_diag.
    cbn [insert list_insert].
    pose proof (IH (done ++ [x]) w) as IHs.
    unfold len in IHs. rewrite length_app, Nat2Z.inj_add in IHs.
    rewrite <- !app_assoc in IHs. exact IHs.
Qed.

Lemma fill_points (ys rest : list float64) :
  forall (done : list (float64 * float64)) (w : World),
    (length done + length rest <= length ys)%nat ->
    range_from (len done) rest
      (fun i floatVal pts =>
         let* pts := store pts i (floatVal, 0%Q) in
         let* y := index ys i in
         store pts i (floatVal, y))
      (done ++ replicate (length rest) (0%Q, 0%Q)) w
    = (Ret (done ++ zip rest (drop (length done) ys)), w).
Proof.
  induction rest as [|x rest IH]; intros done w Hlen.
  - reflexivity.
  - cbn [length] in Hlen.
    destruct (lookup_lt_is_Some_2 ys (length done)) as [y Hy]; [lia|].
    cbn [range_from length replicate].
    erewrite bind_ret.
    2:{ erewrite bind_ret
          by (apply store_ok; unfold len; rewrite length_app;
              cbn [length]; lia).
        erewrite bind_ret
          by (apply index_Some; [unfold len; lia|];
              unfold len; rewrite Nat2Z.id; exact Hy).
        apply store_ok. unfold len.
        rewrite length_insert, length_app. cbn [length]. lia. }
    unfold len. rewrite Nat2Z.id.
    rewrite list_insert_insert_eq.
    rewrite insert_app_r_alt by apply Nat.le_refl. rewrite Nat.sub_diag.
    cbn [insert list_insert].
    rewrite (drop_S ys y (length done) Hy). cbn [zip_with].
    pose proof (IH (done ++ [(x, y)]) w) as IHs.
    unfold len in IHs. rewrite length_app, Nat2Z.inj_add in IHs.
    cbn [length] in IHs.
    replace (length done + 1)%nat with (S (length done)) in IHs by lia.
    rewrite <- !app_assoc in IHs. apply IHs. lia.
Qed.

Lemma set_plots_twice (p q : list string) (w : World) :
  set_plots q (set_plots p w) = set_plots q w.
Proof. reflexivity. Qed.

Section Plots.
Context `{Gota, Plot}.

Lemma hist_loop (df : DataFrame) (names : list string) :
  forall (i : Z) (w : World),
    Forall (plottable df) names ->
    Forall (fun c => hist_png c ∉ readonly w) names ->
    range_from i names
      (fun _ colName _ =>
         let* plotVals := make 0%Q (Nrow df) in
         let* col := match Col_Float df colName with
                     | Some v => ret v | None => panic end in
         let* plotVals :=
           range col (fun i floatVal vals => store vals i floatVal)
             plotVals in
         exec check (NewHist plotVals 16) in
         let* err := plot_Save (colName +:+ "_hist.png") in
         check err) tt w
    = (Ret tt, set_plots (plots w ++ (hist_png <$> names)) w).
Proof.
  induction names as [|c names IH]; intros i w Hp Hw.
  - cbn [range_from fmap list_fmap]. rewrite app_nil_r.
    now destruct w.
  - apply Forall_cons in Hp as [(v & Hv & Hlen & Hh) Hp].
    apply Forall_cons in Hw as [Hc Hw].
    cbn [range_from].
    erewrite bind_ret.
    2:{ erewrite bind_ret
          by (unfold make; rewrite decide_True by (unfold Nrow, len; lia);
              reflexivity).
        rewrite Hv. erewrite bind_ret by reflexivity.
        erewrite bind_ret.
        2:{ rewrite <- Hlen. unfold len. rewrite Nat2Z.id.
            apply (fill_values v []). }
        cbn [app]. rewrite Hh. erewrite bind_ret by reflexivity.
        erewrite bind_ret
          by (unfold plot_Save; rewrite decide_False by exact Hc;
              reflexivity).
        reflexivity. }
    rewrite IH by assumption.
    cbn [plots set_plots fmap list_fmap]. rewrite set_plots_twice.
    now rewrite <- app_assoc.
Qed.
End Plots.

Section ProfilingPlots.
Context `{Strconv, Math, Gota, Plot, Regression, ExpRand}.

(** X11.  The profiling stage of the advertising script and the histogram
    stage of the loan script save one histogram for each column of the
    dataset, in column order, under the name of the column followed by
    "_hist.png", when every column has its values and the files can be
    created. *)
Theorem one_histogram_per_column (w : World) (f : list csv_line) :
  (fs w !! LinearRegression.dataset = Some f ->
   Forall (plottable (ReadCSV f)) (Names (ReadCSV f)) ->
   Forall (fun c => hist_png c ∉ readonly w) (Names (ReadCSV f)) ->
   fst (LinearRegression.dataProfiling w) = Ret tt
   /\ plots (snd (LinearRegression.dataProfiling w))
      = plots w ++ (hist_png <$> Names (ReadCSV f)))
  /\ (fs w !! LogisticRegression.cleanDataSet = Some f ->
      Forall (plottable (ReadCSV f)) (Names (ReadCSV f)) ->
      Forall (fun c => hist_png c ∉ readonly w) (Names (ReadCSV f)) ->
      fst (LogisticRegression.savePlotPng w) = Ret tt
      /\ plots (snd (LogisticRegression.savePlotPng w))
         = plots w ++ (hist_png <$> Names (ReadCSV f))).
Proof.
  split; intros Hf Hp Hw.
  - unfold LinearRegression.dataProfiling.
    open_file Hf. erewrite bind_ret by reflexivity.
    pose proof (hist_loop (ReadCSV f) (Names (ReadCSV f)) 0
                  (set_stdout (stdout w ++ [Describe (ReadCSV f)]) w)
                  Hp Hw) as L.
    split; [exact (f_equal fst L)|].
    exact (f_equal (fun r => plots (snd r)) L).
  - unfold LogisticRegression.savePlotPng.
    open_file Hf. erewrite bind_ret by reflexivity.
    pose proof (hist_loop (ReadCSV f) (Names (ReadCSV f)) 0
                  (set_stdout (stdout w ++ [Describe (ReadCSV f)]) w)
                  Hp Hw) as L.
    split; [exact (f_equal fst L)|].
    exact (f_equal (fun r => plots (snd r)) L).
Qed.

Lemma scatter_loop (df : DataFrame) (yVals : list float64)
    (names : list string) :
  forall (i : Z) (w : World),
    len yVals = Nrow df ->
    Forall (fun c => exists v, Col_Float df c = Some v /\ len v = Nrow df
                               /\ NewScatter (zip v yVals) = None) names ->
    Forall (fun c => scatter_png c ∉ readonly w) names ->
    range_from i names
      (fun _ colName _ =>
         let* pts := make (0%Q, 0%Q) (Nrow df) in
         let* col := LinearRegression.col_floats df colName in
         let* pts :=
           range col
             (fun i floatVal pts =>
                let* pts := store pts i (floatVal, 0%Q) in
                let* y := index yVals i in
                store pts i (floatVal, y)) pts in
         exec check (NewScatter pts) in
         let* err := plot_Save (colName +:+ "_scatter.png") in
         check err) tt w
    = (Ret tt, set_plots (plots w ++ (scatter_png <$> names)) w).
Proof.
  induction names as [|c names IH]; intros i w Hy Hp Hw.
  - cbn [range_from fmap list_fmap]. rewrite app_nil_r.
    now destruct w.
  - apply Forall_cons in Hp as [(v & Hv & Hlen & Hs) Hp].
    apply Forall_cons in Hw as [Hc Hw].
    cbn [range_from].
    erewrite bind_ret.
    2:{ erewrite bind_ret
          by (unfold make; rewrite decide_True by (unfold Nrow, len; lia);
              reflexivity).
        unfold LinearRegression.col_floats.
        rewrite Hv. erewrite bind_ret by reflexivity.
        erewrite bind_ret.
        2:{ rewrite <- Hlen. unfold len. rewrite Nat2Z.id.
            apply (fill_points yVals v []).
            unfold len in *. cbn [length]. lia. }
        cbn [app length]. rewrite drop_0, Hs.
        erewrite bind_ret by reflexivity.
        erewrite bind_ret
          by (unfold plot_Save; rewrite decide_False by exact Hc;
              reflexivity).
        reflexivity. }
    rewrite IH by assumption.
    cbn [plots set_plots fmap list_fmap]. rewrite set_plots_twice.
    now rewrite <- app_assoc.
Qed.

(** X12.  The scatter stage of the advertising script saves one scatter
    plot for each column of the dataset against the Sales column, the Sales
    column itself included, in column order, under the name of the column
    followed by "_scatter.png"; nothing is printed. *)
Theorem one_scatter_per_column (w : World) (f : list csv_line)
    (yVals : list float64) :
  fs w !! LinearRegression.dataset = Some f ->
  Col_Float (ReadCSV f) "Sales" = Some yVals ->
  len yVals = Nrow (ReadCSV f) ->
  Forall (fun c => exists v, Col_Float (ReadCSV f) c = Some v
                             /\ len v = Nrow (ReadCSV f)
                             /\ NewScatter (zip v yVals) = None)
    (Names (ReadCSV f)) ->
  Forall (fun c => scatter_png c ∉ readonly w) (Names (ReadCSV f)) ->
  LinearRegression.chooseIndependentVariable w
  = (Ret tt,
     set_plots (plots w ++ (scatter_png <$> Names (ReadCSV f))) w).
Proof.
  intros Hf Hy Hlen Hp Hw.
  unfold LinearRegression.chooseIndependentVariable.
  open_file Hf.
  erewrite bind_ret
    by (unfold LinearRegression.col_floats; rewrite Hy; reflexivity).
  unfold range.
  apply (scatter_loop (ReadCSV f) yVals (Names (ReadCSV f)) 0 w Hlen Hp Hw).
Qed.
End ProfilingPlots.

Lemma one_histogram_per_column_witness :
  plots (snd (@LinearRegression.dataProfiling Reference.gota Reference.plot
                advert2World))
  = ["TV_hist.png"; "Radio_hist.png"; "Newspaper_hist.png";
     "Sales_hist.png"].
Proof.
  destruct (@one_histogram_per_column Reference.gota Reference.plot
              advert2World advert2) as [W _].
  destruct W as [_ W]; [reflexivity| | |exact W].
  - change (Names (@ReadCSV Reference.gota advert2))
      with ["TV"; "Radio"; "Newspaper"; "Sales"].
    repeat (apply Forall_cons_2;
            [eexists; split; [reflexivity|split; reflexivity]|]).
    apply Forall_nil_2.
  - apply Forall_forall. intros c _. apply not_elem_of_empty.
Defined.

Lemma one_scatter_per_column_witness :
  @LinearRegression.chooseIndependentVariable Reference.gota Reference.plot
     advert2World
  = (Ret tt,
     set_plots ["TV_scatter.png"; "Radio_scatter.png";
                "Newspaper_scatter.png"; "Sales_scatter.png"] advert2World).
Proof.
  apply (@one_scatter_per_column Reference.gota Reference.plot
           advert2World advert2 [4%Q; 6%Q]).
  - reflexivity.
  - vm_compute. reflexivity.
  - reflexivity.
  - change (Names (@ReadCSV Reference.gota advert2))
      with ["TV"; "Radio"; "Newspaper"; "Sales"].
    repeat (apply Forall_cons_2;
            [eexists; split; [reflexivity|split; reflexivity]|]).
    apply Forall_nil_2.
  - apply Forall_forall. intros c _. apply not_elem_of_empty.
Defined.

(** ** The trainer on other inputs *)

Section TrainerExtras.
Context `{Math, ExpRand}.

Lemma updateRow_out_of_range (rows : list (float64 * float64))
    (learningRate : float64) (idx : Z) (label : float64)
    (st : list float64 * float64) (w : World) :
  len rows <= idx ->
  LogisticRegression.updateRow (dense2 rows) learningRate idx label st w
  = (Panic, w).
Proof.
  intros Hidx. destruct st as [weights sumError].
  unfold LogisticRegression.updateRow, bind, mat64_Row, dense2.
  cbn [mrows]. rewrite decide_False by lia. reflexivity.
Qed.

Lemma descend_short_labels (rows : list (float64 * float64))
    (labels : list float64) (learningRate : float64) (w : World)
    (fuel : nat) :
  (length labels <= length rows)%nat ->
  forall (i : Z) (ws : float64 * float64),
    count_from_M i fuel
      (fun _ weights =>
         let* st := range labels
                      (LogisticRegression.updateRow (dense2 rows) learningRate)
                      (weights, 0%Q) in
         ret (fst st)) (weights_of ws) w
    = (Ret (weights_of
              (Nat.iter fuel (gd_epoch learningRate (zip rows labels)) ws)),
       w).
Proof.
  intros Hlen. induction fuel as [|fuel IH]; intros i ws; [reflexivity|].
  cbn [count_from_M].
  destruct (epoch_ok rows learningRate w labels 0 ws 0%Q ltac:(cbn; lia))
    as [se Hepoch].
  rewrite drop_0 in Hepoch. unfold range.
  erewrite bind_ret;
    [|erewrite bind_ret by exact Hepoch; reflexivity].
  cbn [fst]. rewrite IH. now rewrite Nat.iter_succ_r.
Qed.

(** X13.  The trainer with any number of steps and any learning rate, on
    a two-column matrix with at least as many rows as there are labels:
    it makes max(numSteps, 0) passes over the labels, each label with the
    matrix row of the same index, and never reads the rows beyond the
    labels; with numSteps <= 0 it returns the random initial weights. *)
Theorem trainer_follows_the_labels (rows : list (float64 * float64))
    (labels : list float64) (numSteps : Z) (learningRate : float64)
    (w : World) :
  (length labels <= length rows)%nat ->
  LogisticRegression.logisticRegression (dense2 rows) labels numSteps
    learningRate w
  = (Ret (weights_of
            (Nat.iter (Z.to_nat numSteps)
               (gd_epoch learningRate (zip rows labels))
               (Float64 (clock w) 0, Float64 (clock w) 1))), w)
  /\ zip rows labels = zip (take (length labels) rows) labels
  /\ (numSteps <= 0 ->
      LogisticRegression.logisticRegression (dense2 rows) labels numSteps
        learningRate w
      = (Ret [Float64 (clock w) 0; Float64 (clock w) 1], w)).
Proof.
  intros Hlen.
  assert (E : LogisticRegression.logisticRegression (dense2 rows) labels
                numSteps learningRate w
              = (Ret (weights_of
                        (Nat.iter (Z.to_nat numSteps)
                           (gd_epoch learningRate (zip rows labels))
                           (Float64 (clock w) 0, Float64 (clock w) 1))), w)).
  { unfold LogisticRegression.logisticRegression, LogisticRegression.descend.
    pose proof (initial_weights w) as Hinit.
    unfold bind in Hinit |- *. cbn [dense2 mcols].
    destruct (make 0%Q 2 w) as [[ws0| |] w0]; try discriminate.
    destruct (time_Now_UnixNano w0) as [[seed| |] w1]; try discriminate.
    rewrite Hinit.
    apply (descend_short_labels rows labels learningRate w
             (Z.to_nat numSteps) Hlen 0). }
  split; [exact E|split].
  - symmetry. apply zip_with_take_l; lia.
  - intros Hn. rewrite E.
    replace (Z.to_nat numSteps) with 0%nat by lia. reflexivity.
Qed.

Lemma epoch_panics (rows : list (float64 * float64))
    (labels : list float64) (learningRate : float64)
    (ws : float64 * float64) (sumError : float64) (w : World) :
  (length rows < length labels)%nat ->
  range_from 0 labels
    (LogisticRegression.updateRow (dense2 rows) learningRate)
    (weights_of ws, sumError) w
  = (Panic, w).
Proof.
  intros Hlen.
  rewrite <- (take_drop (length rows) labels).
  destruct (drop (length rows) labels) as [|label post] eqn:Hdrop.
  { apply (f_equal length) in Hdrop. rewrite length_drop in Hdrop.
    cbn [length] in Hdrop. lia. }
  rewrite range_from_app.
  destruct (epoch_ok rows learningRate w (take (length rows) labels) 0
              ws sumError) as [se Hepoch].
  { rewrite length_take. cbn. lia. }
  erewrite bind_ret by exact Hepoch.
  cbn [range_from]. unfold bind.
  rewrite updateRow_out_of_range; [reflexivity|].
  unfold len. rewrite length_take. lia.
Qed.

(** X14.  With more labels than the matrix has rows the trainer panics in
    its first pass, when it asks for the row of the first label without
    one. *)
Theorem trainer_panics_on_extra_labels (rows : list (float64 * float64))
    (labels : list float64) (numSteps : Z) (learningRate : float64)
    (w : World) :
  (length rows < length labels)%nat ->
  0 < numSteps ->
  LogisticRegression.logisticRegression (dense2 rows) labels numSteps
    learningRate w
  = (Panic, w).
Proof.
  intros Hlen Hn.
  unfold LogisticRegression.logisticRegression, LogisticRegression.descend.
  pose proof (initial_weights w) as Hinit.
  unfold bind in Hinit |- *. cbn [dense2 mcols].
  destruct (make 0%Q 2 w) as [[ws0| |] w0]; try discriminate.
  destruct (time_Now_UnixNano w0) as [[seed| |] w1]; try discriminate.
  rewrite Hinit.
  unfold for_upto_M.
  destruct (Z.to_nat numSteps) as [|fuel] eqn:Hfuel; [lia|].
  cbn [count_from_M]. unfold bind, range.
  now rewrite (epoch_panics rows labels learningRate _ 0%Q w Hlen).
Qed.
End TrainerExtras.

Lemma trainer_follows_the_labels_witness :
  @LogisticRegression.logisticRegression Reference.math Reference.exprand
    (dense2 toyRows) [0%Q; 1%Q] 1 (1 # 2) emptyWorld
  = (Ret (weights_of
            (@gd_epoch Reference.math (1 # 2)
               [(0%Q, 1%Q, 0%Q); ((1 # 2)%Q, 1%Q, 1%Q)]
               (@Float64 Reference.exprand 0 0,
                @Float64 Reference.exprand 0 1))), emptyWorld).
Proof.
  destruct (@trainer_follows_the_labels Reference.math Reference.exprand
              toyRows [0%Q; 1%Q] 1 (1 # 2) emptyWorld) as (W1 & _);
    [cbn; lia|].
  exact W1.
Defined.

Lemma trainer_panics_on_extra_labels_witness :
  @LogisticRegression.logisticRegression Reference.math Reference.exprand
    (dense2 [(0%Q, 1%Q)]) [0%Q; 1%Q] 100 (3 # 10) emptyWorld
  = (Panic, emptyWorld).
Proof.
  apply (@trainer_panics_on_extra_labels Reference.math Reference.exprand
           [(0%Q, 1%Q)] [0%Q; 1%Q] 100 (3 # 10) emptyWorld).
  - cbn. lia.
  - lia.
Defined.

(** ** The final plot of the advertising script *)

Section RegressionPlot.
Context `{Gota, Plot, Regression}.

Lemma line_points (r : Model) (ys rest : list float64) :
  forall (preds : list float64) (done doneP : list (float64 * float64))
         (w : World),
    length done = length doneP ->
    (length done + length rest <= length ys)%nat ->
    mapM (fun x => ok (Predict r [x])) rest = Some preds ->
    range_from (len done) rest
      (fun i floatVal '(pts, ptsPred) =>
         let* pts := store pts i (floatVal, 0%Q) in
         let* y := index ys i in
         let* pts := store pts i (floatVal, y) in
         let* ptsPred := store ptsPred i (floatVal, 0%Q) in
         let* p := must (Predict r [floatVal]) in
         let* ptsPred := store ptsPred i (floatVal, p) in
         ret (pts, ptsPred))
      (done ++ replicate (length rest) (0%Q, 0%Q),
       doneP ++ replicate (length rest) (0%Q, 0%Q)) w
    = (Ret (done ++ zip rest (drop (length done) ys),
            doneP ++ zip rest preds), w).
Proof.
  induction rest as [|x rest IH]; intros preds done doneP w Hd Hlen Hm.
  - injection Hm as <-. reflexivity.
  - cbn [length] in Hlen. cbn [mapM] in Hm.
    destruct (Predict r [x]) as [e|p] eqn:Hp; [discriminate|].
    cbn [ok mbind option_bind] in Hm.
    destruct (mapM (fun x => ok (Predict r [x])) rest) as [preds'|] eqn:Hm';
      [|discriminate].
    injection Hm as <-.
    destruct (lookup_lt_is_Some_2 ys (length done)) as [y Hy]; [lia|].
    cbn [range_from length replicate].
    erewrite bind_ret.
    2:{ erewrite bind_ret
          by (apply store_ok; unfold len; rewrite length_app;
              cbn [length]; lia).
        erewrite bind_ret
          by (apply index_Some; [unfold len; lia|];
              unfold len; rewrite Nat2Z.id; exact Hy).
        erewrite bind_ret
          by (apply store_ok; unfold len;
              rewrite length_insert, length_app; cbn [length]; lia).
        erewrite bind_ret
          by (apply store_ok; unfold len; rewrite length_app;
              cbn [length]; lia).
        rewrite Hp. erewrite bind_ret by reflexivity.
        erewrite bind_ret
          by (apply store_ok; unfold len;
              rewrite length_insert, length_app; cbn [length]; lia).
        reflexivity. }
    unfold len. rewrite Nat2Z.id.
    rewrite !list_insert_insert_eq.
    rewrite (insert_app_r_alt done) by apply Nat.le_refl.
    rewrite (insert_app_r_alt doneP) by (rewrite Hd; apply Nat.le_refl).
    rewrite Nat.sub_diag.
    replace (length done - length doneP)%nat with 0%nat
      by (rewrite Hd; symmetry; apply Nat.sub_diag).
    cbn [insert list_insert].
    rewrite (drop_S ys y (length done) Hy). cbn [zip_with].
    pose proof (IH preds' (done ++ [(x, y)]) (doneP ++ [(x, p)]) w) as IHs.
    unfold len in IHs. rewrite length_app, Nat2Z.inj_add in IHs.
    cbn [length] in IHs.
    replace (length done + 1)%nat with (S (length done)) in IHs by lia.
    rewrite <- !app_assoc in IHs. apply IHs.
    + rewrite !length_app. cbn [length]. lia.
    + lia.
    + reflexivity.
Qed.

(** X16.  The final stage of the advertising script draws, over the TV
    values of the whole dataset, the observed Sales as a scatter and the
    model's predictions as a line, and saves the two as the one file
    "regression_line.png"; it prints nothing and writes nothing else. *)
Theorem regression_line_plot (r : Model) (w : World) (f : list csv_line)
    (yVals tv preds : list float64) :
  fs w !! LinearRegression.dataset = Some f ->
  Col_Float (ReadCSV f) "Sales" = Some yVals ->
  Col_Float (ReadCSV f) "TV" = Some tv ->
  len yVals = Nrow (ReadCSV f) ->
  len tv = Nrow (ReadCSV f) ->
  mapM (fun x => ok (Predict r [x])) tv = Some preds ->
  NewScatter (zip tv yVals) = None ->
  NewLine (zip tv preds) = None ->
  "regression_line.png" ∉ readonly w ->
  LinearRegression.visualizeRegression r w
  = (Ret tt, set_plots (plots w ++ ["regression_line.png"]) w).
Proof.
  intros Hf Hy Htv Hly Hlt Hm Hs Hl Hw.
  unfold LinearRegression.visualizeRegression.
  open_file Hf.
  erewrite bind_ret
    by (unfold LinearRegression.col_floats; rewrite Hy; reflexivity).
  erewrite bind_ret
    by (unfold make; rewrite decide_True by (unfold Nrow, len; lia);
        reflexivity).
  erewrite bind_ret
    by (unfold make; rewrite decide_True by (unfold Nrow, len; lia);
        reflexivity).
  erewrite bind_ret
    by (unfold LinearRegression.col_floats; rewrite Htv; reflexivity).
  erewrite bind_ret.
  2:{ rewrite <- Hlt. unfold len. rewrite Nat2Z.id. unfold range.
      apply (line_points r yVals tv preds [] [] w eq_refl);
        [unfold len in *; cbn [length]; lia|exact Hm]. }
  cbn [app length fst snd]. rewrite drop_0, Hs.
  erewrite bind_ret by reflexivity.
  rewrite Hl. erewrite bind_ret by reflexivity.
  erewrite bind_ret
    by (unfold plot_Save; rewrite decide_False by exact Hw; reflexivity).
  reflexivity.
Qed.
End RegressionPlot.

Lemma regression_line_plot_witness :
  @LinearRegression.visualizeRegression Reference.gota Reference.plot
     Reference.regression slopeModel advert2World
  = (Ret tt, set_plots ["regression_line.png"] advert2World).
Proof.
  apply (@regression_line_plot Reference.gota Reference.plot
           Reference.regression slopeModel advert2World advert2
           [4%Q; 6%Q] [1%Q; 2%Q] [3%Q; 5%Q]).
  - reflexivity.
  - vm_compute. reflexivity.
  - vm_compute. reflexivity.
  - reflexivity.
  - reflexivity.
  - vm_compute. reflexivity.
  - reflexivity.
  - reflexivity.
  - apply not_elem_of_empty.
Defined.

(** ** A dataset too small to leave a test set *)

Section SmallDataset.
Context `{Strconv, Gota, Regression}.

End SmallDataset.

